(** * Condor UDP Middleware: the receive, convert, forward pipeline

    A shallow embedding of [condor_udp_middleware/core/converter.py] and
    [condor_udp_middleware/core/bridge.py], with the properties of the
    specification stated over it.

    Conventions of the embedding:
    - a Python [str] is a [string]; the characters the converter inspects
      are ASCII, every other character is a byte that no character class
      of [kv_pattern] accepts;
    - a Python [float] is an IEEE 754 binary64 value, a [spec_float] with
      precision 53 and maximal exponent 1024;
    - a Python [dict] whose iteration order matters is an association list
      in insertion order; dictionaries that are only looked up are [gmap]s;
    - log calls append structured records to a log, the f-string of each
      call kept as its list of fragments. *)

From Stdlib Require Import ZArith String Ascii List Bool Lia.
From Stdlib Require Import Floats.SpecFloat.
From stdpp Require Import base option gmap strings list.

Import ListNotations.
Local Open Scope string_scope.
Local Open Scope Z_scope.

(* ===================================================================== *)
(** * Python strings *)
(* ===================================================================== *)

Module PyStr.

(** [s[:n]] *)
Fixpoint take_str (n : nat) (s : string) : string :=
  match n, s with
  | S n', String c s' => String c (take_str n' s')
  | _, _ => EmptyString
  end.

(** The text consumed between a position [s] and a later position
    [rest] of the same subject string. *)
Definition consumed (s rest : string) : nat :=
  (String.length s - String.length rest)%nat.

Definition matched (s rest : string) : string :=
  take_str (consumed s rest) s.

(** [sep.join(parts)] *)
Fixpoint join (sep : string) (parts : list string) : string :=
  match parts with
  | [] => EmptyString
  | [p] => p
  | p :: ps => p ++ sep ++ join sep ps
  end.

Definition code (c : ascii) : N := N_of_ascii c.

Definition in_range (lo hi : ascii) (c : ascii) : bool :=
  (code lo <=? code c)%N && (code c <=? code hi)%N.

Definition CRLF : string := String "013"%char (String "010"%char EmptyString).

End PyStr.

(* ===================================================================== *)
(** * Regular expressions: the fragment of [re] that [kv_pattern] uses

    Python's [re] is a backtracking matcher: quantifiers are greedy and
    give characters back when the rest of the pattern fails.  The matcher
    is written in continuation-passing style, the continuation being the
    rest of the pattern. *)
(* ===================================================================== *)

Module Re.
Import PyStr.

Inductive regex : Type :=
| Class (p : ascii -> bool)       (* one character of a class: [..] *)
| Seq (r1 r2 : regex)             (* r1 r2 *)
| Opt (r : regex)                 (* r?    *)
| Star (p : ascii -> bool)        (* [..]* *)
| Plus (p : ascii -> bool).       (* [..]+ *)

Section Matcher.
Context {A : Type}.

(** Greedy repetition of a class: take one more character when
    possible, and fall back to stopping here if the continuation
    fails further on. *)
Fixpoint star_match (p : ascii -> bool) (s : string)
         (k : string -> option A) : option A :=
  match s with
  | String c s' =>
      if p c then
        match star_match p s' k with
        | Some r => Some r
        | None => k s
        end
      else k s
  | EmptyString => k s
  end.

Fixpoint re_match (r : regex) (s : string)
         (k : string -> option A) : option A :=
  match r with
  | Class p =>
      match s with
      | String c s' => if p c then k s' else None
      | EmptyString => None
      end
  | Seq r1 r2 => re_match r1 s (fun s1 => re_match r2 s1 k)
  | Opt r' =>
      match re_match r' s k with
      | Some x => Some x
      | None => k s
      end
  | Star p => star_match p s k
  | Plus p =>
      match s with
      | String c s' => if p c then star_match p s' k else None
      | EmptyString => None
      end
  end.
End Matcher.

Definition lit (c : ascii) : regex := Class (Ascii.eqb c).

Definition is_ident (c : ascii) : bool :=
  in_range "a" "z" c || in_range "A" "Z" c || Ascii.eqb c "_".
Definition is_digit (c : ascii) : bool := in_range "0" "9" c.
Definition is_sign (c : ascii) : bool := Ascii.eqb c "-" || Ascii.eqb c "+".
Definition is_exp (c : ascii) : bool := Ascii.eqb c "e" || Ascii.eqb c "E".

(** Group 1 of [kv_pattern]: [[a-zA-Z_]+] *)
Definition key_re : regex := Plus is_ident.

(** Group 2 of [kv_pattern]:
    [[-+]?[0-9]*\.?[0-9]+(?:[eE][-+]?[0-9]+)?] *)
Definition value_re : regex :=
  Seq (Opt (Class is_sign))
    (Seq (Star is_digit)
       (Seq (Opt (lit "."))
          (Seq (Plus is_digit)
             (Opt (Seq (Class is_exp)
                     (Seq (Opt (Class is_sign)) (Plus is_digit))))))).

(** [kv_pattern]: group 1, [=], group 2. *)
Definition kv_pattern : regex := Seq key_re (Seq (lit "=") value_re).

(** [kv_pattern.match] at the start of [s]: the two groups and the
    number of characters of the whole match.  The continuations record
    where each group ends. *)
Definition kv_match (s : string) : option (string * string * nat) :=
  re_match key_re s (fun s1 =>
    re_match (lit "=") s1 (fun s2 =>
      re_match value_re s2 (fun s3 =>
        Some (matched s s1, matched s2 s3, consumed s s3)))).

(** [kv_pattern.findall(s)]: scan from the left; at a position where the
    pattern matches, record the groups and resume after the match,
    elsewhere move one character on.  [skip] counts the characters of
    the current match still to be passed over. *)
Fixpoint findall_from (skip : nat) (s : string) : list (string * string) :=
  match s with
  | EmptyString => []
  | String _ s' =>
      match skip with
      | S n => findall_from n s'
      | O =>
          match kv_match s with
          | Some (k, v, n) => (k, v) :: findall_from (Nat.pred n) s'
          | None => findall_from O s'
          end
      end
  end.

Definition findall (s : string) : list (string * string) := findall_from O s.

End Re.

(* ===================================================================== *)
(** * Python floats

    [float] is IEEE 754 binary64.  [float(str)] and the format
    specification [.15g] are both correctly rounded (round half to even)
    in CPython; they are written here with exact integer arithmetic. *)
(* ===================================================================== *)

Module PyFloat.
Import PyStr.

Definition prec : Z := 53.
Definition emax : Z := 1024.

Abbreviation float := spec_float.

(** [x * y] *)
Definition mul (x y : float) : float := SFmul prec emax x y.

(** ** [float(str)] *)

(** The nearest binary64 value of [(-1)^neg * m * 10^e10]. *)
Definition of_decimal (neg : bool) (m e10 : Z) : float :=
  match m with
  | Zpos p =>
      if 0 <=? e10
      then binary_round prec emax neg (p * Z.to_pos (10 ^ e10)) 0
      else
        let '(q, e, l) :=
          SFdiv_core_binary prec emax (Zpos p) 0 (10 ^ (- e10)) 0 in
        binary_round_aux prec emax neg q e l
  | _ => S754_zero neg
  end.

Definition digit_val (c : ascii) : Z := Z.of_N (code c) - 48.

(** Reads a maximal run of decimal digits: the number read after [acc],
    how many digits there were, and the rest of the string. *)
Fixpoint read_digits (acc : Z) (n : Z) (s : string) : Z * Z * string :=
  match s with
  | String c s' =>
      if Re.is_digit c
      then read_digits (10 * acc + digit_val c) (n + 1) s'
      else (acc, n, s)
  | EmptyString => (acc, n, s)
  end.

Definition read_sign (s : string) : bool * string :=
  match s with
  | String c s' =>
      if Ascii.eqb c "-" then (true, s')
      else if Ascii.eqb c "+" then (false, s')
      else (false, s)
  | EmptyString => (false, s)
  end.

(** The exponent part, when there is one: [e], an optional sign and at
    least one digit. *)
Definition read_exponent (s : string) : option (Z * string) :=
  match s with
  | String c s' =>
      if Re.is_exp c then
        let '(neg, s1) := read_sign s' in
        let '(e, n, s2) := read_digits 0 0 s1 in
        if 0 <? n then Some (if neg then - e else e, s2) else None
      else None
  | EmptyString => None
  end.

(** [float(s)] for a decimal literal: sign, digits with an optional
    point, optional exponent.  [None] stands for [ValueError].  (The
    spellings of infinities and NaN, digit separators and surrounding
    blanks, which [float] also accepts, are not decimal literals and
    are not produced by [kv_pattern].) *)
Definition of_string (s : string) : option float :=
  let '(neg, s1) := read_sign s in
  let '(ip, ni, s2) := read_digits 0 0 s1 in
  let '(m, nf, s3) :=
    match s2 with
    | String "." s2' => read_digits ip 0 s2'
    | _ => (ip, 0, s2)
    end in
  if 0 <? ni + nf then
    match s3 with
    | EmptyString => Some (of_decimal neg m (- nf))
    | _ =>
        match read_exponent s3 with
        | Some (e, EmptyString) => Some (of_decimal neg m (e - nf))
        | _ => None
        end
    end
  else None.

(** ** [format(x, '.15g')] *)

(** The decimal exponent of a positive [a / b] below [10^309]: the
    largest [x], from 308 downwards, with [10^x <= a / b].  The search
    keeps [u / v = 10^x * b / a]. *)
Fixpoint dec_exponent (fuel : nat) (x u v : Z) : Z :=
  match fuel with
  | O => x
  | S f => if u <=? v then x else dec_exponent f (x - 1) u (10 * v)
  end.

Definition exponent10 (a b : Z) : Z :=
  dec_exponent 700 308 (10 ^ 308 * b) a.

(** [num / den] rounded to the nearest integer, ties to even. *)
Definition div_half_even (num den : Z) : Z :=
  let q := num / den in
  let r := num mod den in
  match 2 * r ?= den with
  | Lt => q
  | Gt => q + 1
  | Eq => if Z.even q then q else q + 1
  end.

(** [a / b] to 15 significant digits: the 15-digit integer and the
    decimal exponent of its first digit. *)
Definition round15 (a b : Z) : Z * Z :=
  let x := exponent10 a b in
  let n :=
    if x <=? 14 then div_half_even (a * 10 ^ (14 - x)) b
    else div_half_even a (b * 10 ^ (x - 14)) in
  if 10 ^ 15 <=? n then (10 ^ 14, x + 1) else (n, x).

Definition digit_char (d : Z) : ascii := ascii_of_N (Z.to_N (48 + d)).

(** The last [n] decimal digits of [v], most significant first. *)
Fixpoint digits_of (n : nat) (v : Z) : string :=
  match n with
  | O => EmptyString
  | S n' => digits_of n' (v / 10) ++ String (digit_char (v mod 10)) EmptyString
  end.

Fixpoint strip_zeros (s : string) : string :=
  match s with
  | EmptyString => EmptyString
  | String c s' =>
      let t := strip_zeros s' in
      if Ascii.eqb c "0" && String.eqb t EmptyString
      then EmptyString else String c t
  end.

Fixpoint zeros (n : nat) : string :=
  match n with O => EmptyString | S n' => String "0" (zeros n') end.

Fixpoint drop_str (n : nat) (s : string) : string :=
  match n, s with
  | S n', String _ s' => drop_str n' s'
  | _, _ => s
  end.

(** The exponent of the scientific form: a sign and at least two
    digits. *)
Definition exp_str (x : Z) : string :=
  (if x <? 0 then "e-" else "e+") ++
  (if Z.abs x <? 100 then digits_of 2 (Z.abs x) else digits_of 3 (Z.abs x)).

(** The general format: scientific when the exponent is below -4 or at
    least the precision, fixed otherwise; trailing zeros removed. *)
Definition layout (ds : string) (x : Z) : string :=
  if (x <? -4) || (15 <=? x) then
    take_str 1 ds ++
    (if (1 <? String.length ds)%nat then "." ++ drop_str 1 ds else "") ++
    exp_str x
  else if x <? 0 then
    "0." ++ zeros (Z.to_nat (- x - 1)) ++ ds
  else
    let ni := Z.to_nat (x + 1) in
    if (String.length ds <=? ni)%nat
    then ds ++ zeros (ni - String.length ds)
    else take_str ni ds ++ "." ++ drop_str ni ds.

Definition sign_str (neg : bool) : string := if neg then "-" else "".

(** The absolute value [m * 2^e] of a finite float as a fraction of
    integers. *)
Definition fraction (m : positive) (e : Z) : Z * Z :=
  if 0 <=? e then (Zpos m * 2 ^ e, 1) else (Zpos m, 2 ^ (- e)).

(** [f"{x:.15g}"] *)
Definition format_15g (x : float) : string :=
  match x with
  | S754_nan => "nan"
  | S754_infinity s => sign_str s ++ "inf"
  | S754_zero s => sign_str s ++ "0"
  | S754_finite s m e =>
      let '(a, b) := fraction m e in
      let '(n, x10) := round15 a b in
      sign_str s ++ layout (strip_zeros (digits_of 15 n)) x10
  end.

Definition fmt_of (s : string) : option string :=
  format_15g <$> of_string s.

End PyFloat.

(* ===================================================================== *)
(** * Python values, exceptions and logging *)
(* ===================================================================== *)

Module Py.

(** The values a settings dictionary holds. *)
Inductive value : Type :=
| VNone
| VBool (b : bool)
| VStr (s : string).

(** Truth value testing: [if v], [not v]. *)
Definition truthy (v : value) : bool :=
  match v with
  | VNone => false
  | VBool b => b
  | VStr s => negb (String.eqb s "")
  end.

(** [v == "literal"] *)
Definition eq_str (v : value) (lit : string) : bool :=
  match v with
  | VStr s => String.eqb s lit
  | _ => false
  end.

(** [d.get(key)] and [d.get(key, dflt)] *)
Definition get (d : gmap string value) (key : string) : value :=
  default VNone (d !! key).
Definition get_default (d : gmap string value) (key : string)
           (dflt : value) : value :=
  default dflt (d !! key).

(** The exception classes the pipeline names or can meet; all of them
    derive from [Exception]. *)
Inductive exn_class : Type :=
| KeyError | TypeError | AttributeError | ValueError
| UnicodeDecodeError | UnicodeEncodeError
| OSError | SocketTimeout | OverflowError | RuntimeError.

Record exn : Type := Exn { exn_cls : exn_class; exn_msg : string }.

Definition exn_class_eqb (a b : exn_class) : bool :=
  match a, b with
  | KeyError, KeyError | TypeError, TypeError
  | AttributeError, AttributeError | ValueError, ValueError
  | UnicodeDecodeError, UnicodeDecodeError
  | UnicodeEncodeError, UnicodeEncodeError
  | OSError, OSError | SocketTimeout, SocketTimeout
  | OverflowError, OverflowError | RuntimeError, RuntimeError => true
  | _, _ => false
  end.

(** [issubclass(c, base)]: the Unicode errors are [ValueError]s and
    [socket.timeout] is an [OSError]. *)
Definition subclass (c base : exn_class) : bool :=
  exn_class_eqb c base ||
  match c, base with
  | UnicodeDecodeError, ValueError | UnicodeEncodeError, ValueError
  | SocketTimeout, OSError => true
  | _, _ => false
  end.

(** [except (c1, c2, ...)] *)
Definition caught_by (bases : list exn_class) (e : exn) : bool :=
  existsb (subclass (exn_cls e)) bases.

(** The outcome of a call that can raise. *)
Inductive result (A : Type) : Type :=
| Ok (a : A)
| Raise (e : exn).
Arguments Ok {A} a.
Arguments Raise {A} e.

End Py.

Module Log.

Inductive level : Type := DEBUG | INFO | WARNING | ERROR.

(** The pieces of an f-string. *)
Inductive frag : Type :=
| Txt (s : string)
| Val (v : Py.value)
| Flt (x : PyFloat.float)
| Int (n : Z)
| Dict (d : gmap string Py.value)
| Err (e : Py.exn).

Record record : Type := Rec { logger : string; lvl : level; text : list frag }.

(** A computation that logs: its value and the records it emitted, in
    order. *)
Definition Logged (A : Type) : Type := A * list record.

Definition ret {A} (a : A) : Logged A := (a, []).
Definition bind {A B} (c : Logged A) (k : A -> Logged B) : Logged B :=
  let '(a, l1) := c in
  let '(b, l2) := k a in
  (b, (l1 ++ l2)%list).
Definition emit (name : string) (l : level) (t : list frag) : Logged unit :=
  (tt, [Rec name l t]).

(** Monadic left fold: the body of a [for] loop run over [xs]. *)
Fixpoint for_each {A X} (body : A -> X -> Logged A) (xs : list X) (a : A)
  : Logged A :=
  match xs with
  | [] => ret a
  | x :: xs' => bind (body a x) (for_each body xs')
  end.

End Log.

Notation "'let*' x ':=' c 'in' k" := (Log.bind c (fun x => k))
  (at level 10, x pattern, c at level 100, k at level 200).
Notation "c ';;;' k" := (Log.bind c (fun _ => k))
  (at level 100, k at level 200, right associativity).

(* ===================================================================== *)
(** * Insertion-ordered dictionaries *)
(* ===================================================================== *)

Module PyDict.

Section Dict.
Context {V : Type}.

Definition dict : Type := list (string * V).

(** [d[k] = v]: an existing key keeps its position. *)
Fixpoint set (k : string) (v : V) (d : dict) : dict :=
  match d with
  | [] => [(k, v)]
  | (k', v') :: d' =>
      if String.eqb k k' then (k', v) :: d'
      else (k', v') :: set k v d'
  end.

(** [d.get(k)] *)
Fixpoint get (k : string) (d : dict) : option V :=
  match d with
  | [] => None
  | (k', v') :: d' => if String.eqb k k' then Some v' else get k d'
  end.

Definition keys (d : dict) : list string := fst <$> d.

(** [{key: f(value) for key, value in pairs}] *)
Definition comprehension {X} (f : X -> Log.Logged V)
           (pairs : list (string * X)) : Log.Logged dict :=
  Log.for_each
    (fun d '(k, x) => let* v := f x in Log.ret (set k v d)) pairs [].
End Dict.
Arguments dict V : clear implicits.

End PyDict.

(* ===================================================================== *)
(** * converter.py: [UnitConverter] *)
(* ===================================================================== *)

Module Converter.
Import PyFloat.

Definition logger : string := "converter".

(** A float literal of the source text. *)
Definition flit (s : string) : float := default (S754_zero false) (of_string s).

(** [self.variable_mappings] *)
Definition variable_mappings : gmap string string :=
  list_to_map
    [ ("altitude", "altitude"); ("height", "altitude");
      ("wheelheight", "altitude");
      ("airspeed", "speed"); ("vx", "speed"); ("vy", "speed");
      ("vz", "speed");
      ("vario", "vario"); ("evario", "vario"); ("nettovario", "vario");
      ("ax", "acceleration"); ("ay", "acceleration");
      ("az", "acceleration") ].

(** [self.conversion_factors] *)
Definition conversion_factors : gmap string (gmap string float) :=
  list_to_map
    [ ("altitude",
        list_to_map [ ("meters_to_feet", flit "3.28084");
                      ("feet_to_meters", flit "0.3048") ]);
      ("speed",
        list_to_map [ ("mps_to_kmh", flit "3.6");
                      ("mps_to_knots", flit "1.94384");
                      ("kmh_to_mps", flit "0.277778");
                      ("kmh_to_knots", flit "0.539957");
                      ("knots_to_mps", flit "0.514444");
                      ("knots_to_kmh", flit "1.852") ]);
      ("vario",
        list_to_map [ ("mps_to_fpm", flit "196.85");
                      ("fpm_to_mps", flit "0.00508") ]);
      ("acceleration",
        list_to_map [ ("mps2_to_fps2", flit "3.28084");
                      ("fps2_to_mps2", flit "0.3048") ]) ].

(** [self.conversion_factors[category][name]]; a missing key raises
    [KeyError]. *)
Definition factor_lookup (category name : string) : Py.result float :=
  match conversion_factors !! category with
  | Some tbl =>
      match tbl !! name with
      | Some f => Py.Ok f
      | None => Py.Raise (Py.Exn Py.KeyError name)
      end
  | None => Py.Raise (Py.Exn Py.KeyError category)
  end.

(** The converter object: its settings and its statistics. *)
Record UnitConverter : Type := Build {
  conversion_settings : gmap string Py.value;
  conversions_applied : Z;
  variables_converted : gset string
}.

(** [UnitConverter(conversion_settings)] *)
Definition init (settings : gmap string Py.value) : UnitConverter :=
  Build settings 0 ∅.

(** One entry of [conversion_info["conversions_detail"]]. *)
Record detail : Type := Detail {
  original_value : float;
  converted_value : float;
  conversion_type : string;
  target_unit : Py.value
}.

(** The [conversion_info] dictionary of [_apply_conversions]. *)
Record record : Type := MkRecord {
  info_conversions_applied : Z;
  info_variables_converted : list string;
  info_conversions_detail : PyDict.dict detail
}.

(** What [process_message] returns next to the text: the record, or
    [{"error": msg}]. *)
Inductive conversion_info : Type :=
| InfoOk (r : record)
| InfoError (msg : string).

(** [conversion_info.get("conversions_applied", 0)] *)
Definition info_get_applied (i : conversion_info) : Z :=
  match i with
  | InfoOk r => info_conversions_applied r
  | InfoError _ => 0
  end.

(** [_convert_value]: for a string that [float] rejects, a warning and
    [0.0]. *)
Definition _convert_value (value_str : string) : Log.Logged float :=
  match of_string value_str with
  | Some x => Log.ret x
  | None =>
      Log.emit logger Log.WARNING
        [Log.Txt "Could not convert value to float: "; Log.Txt value_str] ;;;
      Log.ret (S754_zero false)
  end.

(** The shape shared by the four [_convert_<category>] methods: [value]
    times the factor for a supported target, [value] as it is for the
    source unit, and [value] as it is with a warning otherwise. *)
Definition scaled (value : float) (category name : string)
  : Log.Logged (Py.result (float * bool)) :=
  match factor_lookup category name with
  | Py.Ok factor => Log.ret (Py.Ok (mul value factor, true))
  | Py.Raise e => Log.ret (Py.Raise e)
  end.

Definition unknown_unit (value : float) (what : string) (target : Py.value)
  : Log.Logged (Py.result (float * bool)) :=
  Log.emit logger Log.WARNING [Log.Txt what; Log.Val target] ;;;
  Log.ret (Py.Ok (value, false)).

Definition _convert_altitude (value : float) (target : Py.value)
  : Log.Logged (Py.result (float * bool)) :=
  if Py.eq_str target "meters" then Log.ret (Py.Ok (value, false))
  else if Py.eq_str target "feet" then scaled value "altitude" "meters_to_feet"
  else unknown_unit value "Unknown altitude unit: " target.

Definition _convert_speed (value : float) (target : Py.value)
  : Log.Logged (Py.result (float * bool)) :=
  if Py.eq_str target "mps" then Log.ret (Py.Ok (value, false))
  else if Py.eq_str target "kmh" then scaled value "speed" "mps_to_kmh"
  else if Py.eq_str target "knots" then scaled value "speed" "mps_to_knots"
  else unknown_unit value "Unknown speed unit: " target.

Definition _convert_vario (value : float) (target : Py.value)
  : Log.Logged (Py.result (float * bool)) :=
  if Py.eq_str target "mps" then Log.ret (Py.Ok (value, false))
  else if Py.eq_str target "fpm" then scaled value "vario" "mps_to_fpm"
  else unknown_unit value "Unknown vario unit: " target.

Definition _convert_acceleration (value : float) (target : Py.value)
  : Log.Logged (Py.result (float * bool)) :=
  if Py.eq_str target "mps2" then Log.ret (Py.Ok (value, false))
  else if Py.eq_str target "fps2"
       then scaled value "acceleration" "mps2_to_fps2"
  else unknown_unit value "Unknown acceleration unit: " target.

(** [_convert_variable]: dispatch on the category; an exception of the
    dispatched call is logged and gives [(value, False)]. *)
Definition _convert_variable (variable : string) (value : float)
           (category : string) (target : Py.value)
  : Log.Logged (float * bool) :=
  let* r :=
    if String.eqb category "altitude" then _convert_altitude value target
    else if String.eqb category "speed" then _convert_speed value target
    else if String.eqb category "vario" then _convert_vario value target
    else if String.eqb category "acceleration"
         then _convert_acceleration value target
    else
      Log.emit logger Log.WARNING
        [Log.Txt "Unknown conversion type: "; Log.Txt category] ;;;
      Log.ret (Py.Ok (value, false)) in
  match r with
  | Py.Ok vb => Log.ret vb
  | Py.Raise e =>
      Log.emit logger Log.ERROR
        [Log.Txt "Error converting "; Log.Txt variable; Log.Txt ": ";
         Log.Err e] ;;;
      Log.ret (value, false)
  end.

(** The state of the loop of [_apply_conversions]. *)
Definition loop_state : Type := PyDict.dict float * record.

Definition empty_record : record := MkRecord 0 [] [].

(** The body of the loop [for variable, value in data.items()], run
    with the dictionary that [self.conversion_settings] names when the
    iteration reads it. *)
Definition convert_item (settings : gmap string Py.value)
           (st : loop_state) (item : string * float)
  : Log.Logged loop_state :=
  let '(converted_data, info) := st in
  let '(variable, value) := item in
  match variable_mappings !! variable with
  | None => Log.ret st
  | Some category =>
      let target := Py.get settings category in
      if negb (Py.truthy target) then Log.ret st
      else
        let* (converted, applied) :=
          _convert_variable variable value category target in
        if applied then
          Log.emit logger Log.DEBUG
            [Log.Txt "Converted "; Log.Txt variable; Log.Txt ": ";
             Log.Flt value; Log.Txt " → "; Log.Flt converted;
             Log.Txt " ("; Log.Val target; Log.Txt ")"] ;;;
          Log.ret
            (PyDict.set variable converted converted_data,
             MkRecord (info_conversions_applied info + 1)
                     (info_variables_converted info ++ [variable])%list
                     (PyDict.set variable
                        (Detail value converted category target)
                        (info_conversions_detail info)))
        else Log.ret st
  end.

(** [_apply_conversions] *)
Definition _apply_conversions (self : UnitConverter)
           (data : PyDict.dict float) : Log.Logged loop_state :=
  let st0 : loop_state := (data, empty_record) in
  if negb (Py.truthy
             (Py.get_default (conversion_settings self) "enabled"
                (Py.VBool true)))
  then Log.ret st0
  else Log.for_each (convert_item (conversion_settings self)) data st0.

(** [f"{key}={value:.15g}"]; every value of the dictionary is a
    float. *)
Definition render (kv : string * float) : string :=
  fst kv ++ "=" ++ format_15g (snd kv).

(** [_rebuild_message] *)
Definition _rebuild_message (data : PyDict.dict float) : string :=
  PyStr.join PyStr.CRLF (map render data) ++ PyStr.CRLF.

(** [process_message]: the text, the conversion record and the
    converter after the call.  No statement of the body of its [try]
    raises, so its [except] clause has no run. *)
Definition process_message (self : UnitConverter) (original_message : string)
  : Log.Logged (string * conversion_info * UnitConverter) :=
  let pairs := Re.findall original_message in
  match pairs with
  | [] => Log.ret (original_message, InfoError "No key=value pairs found", self)
  | _ =>
      let* data_dict := PyDict.comprehension _convert_value pairs in
      let* (converted_dict, info) := _apply_conversions self data_dict in
      let converted_message := _rebuild_message converted_dict in
      let self' :=
        if 0 <? info_conversions_applied info then
          Build (conversion_settings self)
                (conversions_applied self + info_conversions_applied info)
                (variables_converted self
                   ∪ list_to_set (info_variables_converted info))
        else self in
      Log.ret (converted_message, InfoOk info, self')
  end.

(** [update_settings] *)
Definition update_settings (self : UnitConverter)
           (new_settings : gmap string Py.value)
  : Log.Logged UnitConverter :=
  Log.emit logger Log.INFO
    [Log.Txt "Conversion settings updated: "; Log.Dict new_settings] ;;;
  Log.ret (Build new_settings (conversions_applied self)
                 (variables_converted self)).

(** ** Statistics and inspection *)

(** [list(self.variable_mappings.keys())]: the keys in the order of the
    dictionary display. *)
Definition supported_variables : list string :=
  [ "altitude"; "height"; "wheelheight";
    "airspeed"; "vx"; "vy"; "vz";
    "vario"; "evario"; "nettovario";
    "ax"; "ay"; "az" ].

(** What [get_statistics] returns.  [list(self.variables_converted)]
    lists a set: its elements in an order the program does not
    choose. *)
Record statistics : Type := Statistics {
  total_conversions_applied : Z;
  unique_variables_converted : Z;
  stat_variables_converted : list string;
  current_settings : gmap string Py.value;
  stat_supported_variables : list string
}.

(** [get_statistics] *)
Definition get_statistics (self : UnitConverter) : statistics :=
  Statistics (conversions_applied self)
             (Z.of_nat (size (variables_converted self)))
             (elements (variables_converted self))
             (conversion_settings self)
             supported_variables.

(** [reset_statistics] *)
Definition reset_statistics (self : UnitConverter)
  : Log.Logged UnitConverter :=
  Log.emit logger Log.INFO [Log.Txt "Conversion statistics reset"] ;;;
  Log.ret (Build (conversion_settings self) 0 ∅).

(** [get_convertible_variables]: the keys of the pairs that the
    mapping lists, one for each occurrence.  No statement of the body
    of its [try] raises. *)
Definition get_convertible_variables (message : string) : list string :=
  let pairs := Re.findall message in
  let variables := map fst pairs in
  filter (fun var => is_Some (variable_mappings !! var)) variables.

End Converter.

(* ===================================================================== *)
(** * settings.py: the settings object

    The dataclasses of the settings and the methods of
    [MiddlewareSettings] that work on them in memory.  Reading and
    writing the configuration file is left out.  The fields of the
    network and logging sections hold values of their declared types;
    the fields of the conversions section hold whatever value [set]
    has stored in them: [None], a [bool] or a [str]. *)
(* ===================================================================== *)

Module Settings.
Import PyFloat.

Record NetworkSettings : Type := Network {
  input_port : Z;
  output_host : string;
  output_port : Z;
  buffer_size : Z
}.

Record UnitConversionSettings : Type := Conversions {
  altitude : Py.value;
  speed : Py.value;
  vario : Py.value;
  acceleration : Py.value;
  enabled : Py.value
}.

Record LogSettings : Type := Logging {
  level : string;
  log_to_file : bool;
  log_file_path : option string;
  max_log_files : Z;
  max_log_size_mb : Z
}.

Record UISettings : Type := UI {
  theme : string;
  auto_start : bool;
  start_minimized : bool;
  recent_configs : list string
}.

Record MiddlewareAppSettings : Type := App {
  network : NetworkSettings;
  conversions : UnitConversionSettings;
  logging : LogSettings;
  ui : UISettings;
  version : string;
  first_run : bool
}.

(** The defaults of the dataclasses: [MiddlewareAppSettings()]. *)
Definition defaults : MiddlewareAppSettings :=
  App (Network 55278 "127.0.0.1" 55300 65535)
      (Conversions (Py.VStr "meters") (Py.VStr "mps") (Py.VStr "mps")
                   (Py.VStr "mps2") (Py.VBool true))
      (Logging "INFO" false None 5 10)
      (UI "system" false false [])
      "1.0.0" true.

(** The fields of [UnitConversionSettings].  (The other attributes that
    [hasattr] finds on a dataclass instance, its methods and special
    attributes, are not keys of the settings.) *)
Inductive field : Type := Altitude | Speed | Vario | Acceleration | Enabled.

Definition field_of (key : string) : option field :=
  if String.eqb key "altitude" then Some Altitude
  else if String.eqb key "speed" then Some Speed
  else if String.eqb key "vario" then Some Vario
  else if String.eqb key "acceleration" then Some Acceleration
  else if String.eqb key "enabled" then Some Enabled
  else None.

Definition getattr (c : UnitConversionSettings) (f : field) : Py.value :=
  match f with
  | Altitude => altitude c
  | Speed => speed c
  | Vario => vario c
  | Acceleration => acceleration c
  | Enabled => enabled c
  end.

Definition setattr (c : UnitConversionSettings) (f : field) (v : Py.value)
  : UnitConversionSettings :=
  match f with
  | Altitude => Conversions v (speed c) (vario c) (acceleration c) (enabled c)
  | Speed => Conversions (altitude c) v (vario c) (acceleration c) (enabled c)
  | Vario => Conversions (altitude c) (speed c) v (acceleration c) (enabled c)
  | Acceleration => Conversions (altitude c) (speed c) (vario c) v (enabled c)
  | Enabled => Conversions (altitude c) (speed c) (vario c) (acceleration c) v
  end.

Definition set_conversions_section (c : UnitConversionSettings)
           (s : MiddlewareAppSettings) : MiddlewareAppSettings :=
  App (network s) c (logging s) (ui s) (version s) (first_run s).

(** [get('conversions', key)]: the field, or [None] for a key that is
    not one. *)
Definition get_conversions (self : MiddlewareAppSettings) (key : string)
  : Py.value :=
  match field_of key with
  | Some f => getattr (conversions self) f
  | None => Py.VNone
  end.

(** [str(v)] *)
Definition str_of (v : Py.value) : string :=
  match v with
  | Py.VNone => "None"
  | Py.VBool true => "True"
  | Py.VBool false => "False"
  | Py.VStr s => s
  end.

(** The value [set] stores for [value] in a field that holds
    [current]: as it is in a field that holds [None]; otherwise
    converted to the type of [current], [None] excepted. *)
Definition typed_value (current value : Py.value) : Py.value :=
  match current with
  | Py.VNone => value
  | Py.VBool _ =>
      match value with
      | Py.VBool b => Py.VBool b                          (* bool(value) *)
      | Py.VNone => Py.VNone
      | Py.VStr s => Py.VBool (negb (String.eqb s ""))    (* bool(value) *)
      end
  | Py.VStr _ =>
      match value with
      | Py.VNone => Py.VNone
      | Py.VStr s => Py.VStr s
      | Py.VBool _ => Py.VStr (str_of value)              (* str(value) *)
      end
  end.

(** [set('conversions', key, value)]: whether the key is a field, and
    the settings afterwards. *)
Definition set_conversions (self : MiddlewareAppSettings) (key : string)
           (value : Py.value) : bool * MiddlewareAppSettings :=
  match field_of key with
  | Some f =>
      let section_obj := conversions self in
      let current_value := getattr section_obj f in
      (true,
       set_conversions_section
         (setattr section_obj f (typed_value current_value value)) self)
  | None => (false, self)
  end.

(** [get_conversion_units] *)
Definition get_conversion_units : gmap string (list string) :=
  list_to_map
    [ ("altitude", ["meters"; "feet"]);
      ("speed", ["mps"; "kmh"; "knots"]);
      ("vario", ["mps"; "fpm"]);
      ("acceleration", ["mps2"; "fps2"]) ].

(** [get_conversion_factors] *)
Definition get_conversion_factors : gmap string (gmap string float) :=
  list_to_map
    [ ("altitude",
        list_to_map [ ("meters_to_feet", Converter.flit "3.28084");
                      ("feet_to_meters", Converter.flit "0.3048") ]);
      ("speed",
        list_to_map [ ("mps_to_kmh", Converter.flit "3.6");
                      ("mps_to_knots", Converter.flit "1.94384");
                      ("kmh_to_mps", Converter.flit "0.277778");
                      ("kmh_to_knots", Converter.flit "0.539957");
                      ("knots_to_mps", Converter.flit "0.514444");
                      ("knots_to_kmh", Converter.flit "1.852") ]);
      ("vario",
        list_to_map [ ("mps_to_fpm", Converter.flit "196.85");
                      ("fpm_to_mps", Converter.flit "0.00508") ]);
      ("acceleration",
        list_to_map [ ("mps2_to_fps2", Converter.flit "3.28084");
                      ("fps2_to_mps2", Converter.flit "0.3048") ]) ].

(** [value not in available_units[category]] *)
Definition not_available (category : string) (value : Py.value) : bool :=
  match value with
  | Py.VStr u =>
      negb (bool_decide (u ∈ default [] (get_conversion_units !! category)))
  | _ => true
  end.

(** [if cond: errors.append(msg)] *)
Definition append_if (cond : bool) (msg : string) (errors : list string)
  : list string :=
  if cond then (errors ++ [msg])%list else errors.

(** [if section_errors: errors[section] = section_errors] *)
Definition report (section : string) (section_errors : list string)
           (errors : PyDict.dict (list string)) : PyDict.dict (list string) :=
  match section_errors with
  | [] => errors
  | _ => PyDict.set section section_errors errors
  end.

(** [validate]: the messages of each section that has any. *)
Definition validate (self : MiddlewareAppSettings)
  : PyDict.dict (list string) :=
  let net := network self in
  let network_errors :=
    append_if (negb (bool_decide (output_host net <> "")))
      "Output host cannot be empty"
    (append_if (input_port net =? output_port net)
      "Input and output ports cannot be the same"
    (append_if ((output_port net <=? 0) || (65535 <? output_port net))
      "Output port must be between 1 and 65535"
    (append_if ((input_port net <=? 0) || (65535 <? input_port net))
      "Input port must be between 1 and 65535" []))) in
  let errors := report "network" network_errors [] in
  let conv := conversions self in
  let conversion_errors :=
    append_if (not_available "acceleration" (acceleration conv))
      ("Invalid acceleration unit: " ++ str_of (acceleration conv))
    (append_if (not_available "vario" (vario conv))
      ("Invalid vario unit: " ++ str_of (vario conv))
    (append_if (not_available "speed" (speed conv))
      ("Invalid speed unit: " ++ str_of (speed conv))
    (append_if (not_available "altitude" (altitude conv))
      ("Invalid altitude unit: " ++ str_of (altitude conv)) []))) in
  let errors := report "conversions" conversion_errors errors in
  let log := logging self in
  let logging_errors :=
    append_if (max_log_size_mb log <=? 0)
      "Maximum log size must be positive"
    (append_if (max_log_files log <=? 0)
      "Maximum log files must be positive"
    (append_if (log_to_file log &&
                match log_file_path log with
                | Some p => String.eqb p ""
                | None => true
                end)
      "Log file path must be specified when logging to file" [])) in
  report "logging" logging_errors errors.

End Settings.

(* ===================================================================== *)
(** * UTF-8 decoding: [bytes.decode('utf-8', errors=...)]

    A [bytes] object is a [string] of its bytes, and the decoded text is
    kept as the bytes of its well-formed sequences.  An ill-formed
    sequence is an error that spans its maximal well-formed prefix (one
    byte for a bad start byte); under [errors='ignore'] the bytes of the
    error are dropped and decoding resumes after them, under
    [errors='strict'] the error is raised. *)
(* ===================================================================== *)

Module Utf8.
Import PyStr.

Inductive errors : Type := Strict | Ignore.

Definition is_continuation (c : ascii) : bool :=
  (128 <=? code c)%N && (code c <? 192)%N.

(** The second byte of a three-byte sequence: no overlong form after
    E0 and no surrogate after ED. *)
Definition second_of_3 (lead c2 : ascii) : bool :=
  is_continuation c2 &&
  negb ((code lead =? 224)%N && (code c2 <? 160)%N) &&
  negb ((code lead =? 237)%N && (160 <=? code c2)%N).

(** The second byte of a four-byte sequence: no overlong form after F0
    and nothing above U+10FFFF after F4. *)
Definition second_of_4 (lead c2 : ascii) : bool :=
  is_continuation c2 &&
  negb ((code lead =? 240)%N && (code c2 <? 144)%N) &&
  negb ((code lead =? 244)%N && (144 <=? code c2)%N).

Definition decode_error : Py.exn :=
  Py.Exn Py.UnicodeDecodeError "'utf-8' codec can't decode bytes".

(** What an error does: raise, or go on with [rest], the input after
    the bytes of the error. *)
Definition on_error (mode : errors) (rest : Py.result string)
  : Py.result string :=
  match mode with
  | Strict => Py.Raise decode_error
  | Ignore => rest
  end.

Definition emit_bytes (bs : string) (rest : Py.result string)
  : Py.result string :=
  match rest with
  | Py.Ok s => Py.Ok (bs ++ s)
  | Py.Raise e => Py.Raise e
  end.

Fixpoint decode (mode : errors) (data : string) : Py.result string :=
  match data with
  | EmptyString => Py.Ok EmptyString
  | String c s1 =>
      if (code c <? 128)%N then
        emit_bytes (String c "") (decode mode s1)
      else if (code c <? 194)%N then
        on_error mode (decode mode s1)              (* invalid start byte *)
      else if (code c <? 224)%N then
        match s1 with
        | EmptyString => on_error mode (Py.Ok "")   (* unexpected end *)
        | String c2 s2 =>
            if is_continuation c2
            then emit_bytes (String c (String c2 "")) (decode mode s2)
            else on_error mode (decode mode s1)
        end
      else if (code c <? 240)%N then
        match s1 with
        | EmptyString => on_error mode (Py.Ok "")
        | String c2 s2 =>
            if second_of_3 c c2 then
              match s2 with
              | EmptyString => on_error mode (Py.Ok "")
              | String c3 s3 =>
                  if is_continuation c3
                  then emit_bytes (String c (String c2 (String c3 "")))
                         (decode mode s3)
                  else on_error mode (decode mode s2)
              end
            else on_error mode (decode mode s1)
        end
      else if (code c <? 245)%N then
        match s1 with
        | EmptyString => on_error mode (Py.Ok "")
        | String c2 s2 =>
            if second_of_4 c c2 then
              match s2 with
              | EmptyString => on_error mode (Py.Ok "")
              | String c3 s3 =>
                  if is_continuation c3 then
                    match s3 with
                    | EmptyString => on_error mode (Py.Ok "")
                    | String c4 s4 =>
                        if is_continuation c4
                        then emit_bytes
                               (String c (String c2 (String c3 (String c4 ""))))
                               (decode mode s4)
                        else on_error mode (decode mode s3)
                    end
                  else on_error mode (decode mode s2)
              end
            else on_error mode (decode mode s1)
        end
      else on_error mode (decode mode s1)           (* invalid start byte *)
  end.

(** [str.encode('utf-8')] of a text kept as its UTF-8 bytes. *)
Definition encode (s : string) : string := s.

End Utf8.

(* ===================================================================== *)
(** * bridge.py: receiver, sender and orchestrator

    Socket calls are answered by the environment: each operation that can
    fail takes its outcome as an argument.  The clock readings kept for
    the status report ([start_time], [last_received_time],
    [last_sent_time], [startup_time]) are left out. *)
(* ===================================================================== *)

Module Bridge.

Definition logger : string := "bridge".

(** A socket object, open or closed; [None] is no socket object. *)
Inductive sock : Type := SockOpen | SockClosed.

(** The state of a thread running a loop. *)
Inductive thread_status : Type :=
| Alive                     (* in the loop, waiting for the next event *)
| Exited                    (* left the loop *)
| Died (e : Py.exn).        (* ended by an exception nobody caught *)

(** ** [MiddlewareUDPReceiver] *)
Module Receiver.

Record t : Type := Build {
  host : string;
  port : Z;
  socket : option sock;
  running : bool;
  receive_thread : bool;
  messages_received : Z;
  bytes_received : Z;
  error_count : Z
}.

Definition init (host : string) (port : Z) : t :=
  Build host port None false false 0 0 0.

Definition set_socket (s : option sock) (r : t) : t :=
  Build (host r) (port r) s (running r) (receive_thread r)
        (messages_received r) (bytes_received r) (error_count r).
Definition set_running (b : bool) (r : t) : t :=
  Build (host r) (port r) (socket r) b (receive_thread r)
        (messages_received r) (bytes_received r) (error_count r).
Definition set_thread (b : bool) (r : t) : t :=
  Build (host r) (port r) (socket r) (running r) b
        (messages_received r) (bytes_received r) (error_count r).
Definition count_message (n : Z) (r : t) : t :=
  Build (host r) (port r) (socket r) (running r) (receive_thread r)
        (messages_received r + 1) (bytes_received r + n) (error_count r).
Definition count_error (r : t) : t :=
  Build (host r) (port r) (socket r) (running r) (receive_thread r)
        (messages_received r) (bytes_received r) (error_count r + 1).

(** [start_receiving].  [env_socket] answers the creation of the
    socket, [env_bind] its configuration and [bind]: [None] is
    success, [Some e] raises [e]. *)
Definition start_receiving (env_socket env_bind : option Py.exn) (self : t)
  : Log.Logged (Py.result bool * t) :=
  let failed (e : Py.exn) (r : t) : Log.Logged (Py.result bool * t) :=
    if Py.caught_by [Py.OSError] e then
      Log.emit logger Log.ERROR
        [Log.Txt "Error starting UDP receiver: "; Log.Err e] ;;;
      Log.ret (Py.Ok false, r)
    else Log.ret (Py.Raise e, r) in
  match env_socket with
  | Some e => failed e self
  | None =>
      let self1 := set_socket (Some SockOpen) self in
      match env_bind with
      | Some e => failed e self1
      | None =>
          let self2 := set_thread true (set_running true self1) in
          Log.emit logger Log.INFO
            [Log.Txt "UDP receiver bound to "; Log.Txt (host self);
             Log.Txt ":"; Log.Int (port self)] ;;;
          Log.ret (Py.Ok true, self2)
      end
  end.

(** [close]; closing a socket is taken to succeed. *)
Definition close (self : t) : t :=
  let self1 := set_running false self in
  match socket self1 with
  | Some _ => set_socket (Some SockClosed) self1
  | None => self1
  end.

(** What one call of [recvfrom] brings. *)
Inductive event (X : Type) : Type :=
| Datagram (data : string) (x : X)
    (* a datagram; [x] is what the environment will answer to the
       callback for it *)
| RecvRaise (e : Py.exn) (stopped : bool).
    (* [recvfrom] raised [e]; [stopped] tells whether [close] has
       cleared [self.running] in the meantime *)
Arguments Datagram {X} data x.
Arguments RecvRaise {X} e stopped.

Section Loop.
(** The receiver is generic in its callback: [W] is the state the
    callback works on and [X] what the environment answers to it. *)
Context {W X : Type}.

Definition callback : Type :=
  X -> string -> W -> Log.Logged (Py.result unit * W).

Variable data_callback : option callback.

(** The [except] clauses of the loop body, in their order. *)
Definition on_exception (e : Py.exn) (self : t)
  : Log.Logged (thread_status * t) :=
  if Py.caught_by [Py.SocketTimeout] e then
    Log.ret (Alive, self)                              (* continue *)
  else if Py.caught_by [Py.OSError] e then
    if running self then
      Log.emit logger Log.ERROR
        [Log.Txt "UDP receive error: "; Log.Err e] ;;;
      Log.ret (Exited, count_error self)               (* break *)
    else Log.ret (Exited, self)
  else if Py.caught_by [Py.UnicodeDecodeError] e then
    Log.emit logger Log.ERROR
      [Log.Txt "Error decoding UDP message: "; Log.Err e] ;;;
    Log.ret (Alive, count_error self)
  else if Py.caught_by [Py.ValueError; Py.AttributeError] e then
    Log.emit logger Log.ERROR
      [Log.Txt "Error processing received data: "; Log.Err e] ;;;
    Log.ret (Alive, count_error self)
  else Log.ret (Died e, self).

(** One turn of [while self.running]. *)
Definition receive_iteration (ev : event X) (self : t) (w : W)
  : Log.Logged (thread_status * t * W) :=
  if negb (running self) then Log.ret (Exited, self, w)
  else
    match ev with
    | RecvRaise e stopped =>
        let* (st, self') :=
          on_exception e (set_running (running self && negb stopped) self) in
        Log.ret (st, self', w)
    | Datagram data x =>
        if String.eqb data "" then Log.ret (Alive, self, w)
        else
          match Utf8.decode Utf8.Ignore data with
          | Py.Raise e =>
              let* (st, self') := on_exception e self in
              Log.ret (st, self', w)
          | Py.Ok decoded_message =>
              let self1 :=
                count_message (Z.of_nat (String.length data)) self in
              match data_callback with
              | None => Log.ret (Alive, self1, w)
              | Some cb =>
                  let* (r, w') := cb x decoded_message w in
                  match r with
                  | Py.Ok _ => Log.ret (Alive, self1, w')
                  | Py.Raise e =>
                      Log.emit logger Log.ERROR
                        [Log.Txt "Error in callback: "; Log.Err e] ;;;
                      Log.ret (Alive, count_error self1, w')
                  end
              end
          end
    end.

(** [_receive_loop] along the events [evs]; when they are used up
    the thread is back at the head of the loop. *)
Fixpoint _receive_loop (evs : list (event X)) (self : t) (w : W)
  : Log.Logged (thread_status * t * W) :=
  match evs with
  | [] => Log.ret (Alive, self, w)
  | ev :: evs' =>
      let* (st, self', w') := receive_iteration ev self w in
      match st with
      | Alive => _receive_loop evs' self' w'
      | _ => Log.ret (st, self', w')
      end
  end.
End Loop.

End Receiver.

(** ** [MiddlewareUDPSender] *)
Module Sender.

Record t : Type := Build {
  target_host : string;
  target_port : Z;
  socket : option sock;
  connected : bool;
  messages_sent : Z;
  bytes_sent : Z;
  error_count : Z;
  wire : list string     (* the datagrams given to [sendto], oldest first *)
}.

Definition init (host : string) (port : Z) : t :=
  Build host port None false 0 0 0 [].

Definition set_socket (s : option sock) (r : t) : t :=
  Build (target_host r) (target_port r) s (connected r)
        (messages_sent r) (bytes_sent r) (error_count r) (wire r).
Definition set_connected (b : bool) (r : t) : t :=
  Build (target_host r) (target_port r) (socket r) b
        (messages_sent r) (bytes_sent r) (error_count r) (wire r).
Definition count_error (r : t) : t :=
  Build (target_host r) (target_port r) (socket r) (connected r)
        (messages_sent r) (bytes_sent r) (error_count r + 1) (wire r).
Definition count_sent (payload : string) (n : Z) (r : t) : t :=
  Build (target_host r) (target_port r) (socket r) (connected r)
        (messages_sent r + 1) (bytes_sent r + n) (error_count r)
        (wire r ++ [payload])%list.

(** [start_sending]: a failed [connect] is only a warning. *)
Definition start_sending (env_socket env_connect : option Py.exn) (self : t)
  : Log.Logged (Py.result bool * t) :=
  match env_socket with
  | Some e =>
      if Py.caught_by [Py.OSError] e then
        Log.emit logger Log.ERROR
          [Log.Txt "Error creating UDP socket: "; Log.Err e] ;;;
        Log.ret (Py.Ok false, count_error self)
      else Log.ret (Py.Raise e, self)
  | None =>
      let self1 := set_socket (Some SockOpen) self in
      match env_connect with
      | None =>
          Log.emit logger Log.INFO
            [Log.Txt "UDP sender initialized for ";
             Log.Txt (target_host self); Log.Txt ":";
             Log.Int (target_port self)] ;;;
          Log.ret (Py.Ok true, set_connected true self1)
      | Some e =>
          if Py.caught_by [Py.OSError] e then
            Log.emit logger Log.WARNING
              [Log.Txt "Could not validate target address ";
               Log.Txt (target_host self); Log.Txt ":";
               Log.Int (target_port self); Log.Txt ": "; Log.Err e] ;;;
            Log.ret (Py.Ok true, set_connected false self1)
          else Log.ret (Py.Raise e, self1)
      end
  end.

(** [send_message]; [env_sendto] is what [sendto] does: the number of
    bytes sent, or an exception. *)
Definition send_message (env_sendto : Py.result Z) (message : string)
           (self : t) : Log.Logged (Py.result bool * t) :=
  match socket self with
  | None =>
      Log.emit logger Log.ERROR [Log.Txt "UDP socket not initialized"] ;;;
      Log.ret (Py.Ok false, self)
  | Some _ =>
      let message_bytes := Utf8.encode message in
      match env_sendto with
      | Py.Ok n =>
          Log.emit logger Log.DEBUG
            [Log.Txt "Sent "; Log.Int n; Log.Txt " bytes to ";
             Log.Txt (target_host self); Log.Txt ":";
             Log.Int (target_port self)] ;;;
          Log.ret (Py.Ok true, count_sent message_bytes n self)
      | Py.Raise e =>
          if Py.caught_by [Py.OSError] e then
            Log.emit logger Log.ERROR
              [Log.Txt "Error sending UDP message: "; Log.Err e] ;;;
            Log.ret (Py.Ok false, count_error self)
          else if Py.caught_by [Py.UnicodeEncodeError; Py.TypeError] e then
            Log.emit logger Log.ERROR
              [Log.Txt "Error encoding message: "; Log.Err e] ;;;
            Log.ret (Py.Ok false, count_error self)
          else Log.ret (Py.Raise e, self)
      end
  end.

(** [close] *)
Definition close (self : t) : Log.Logged t :=
  match socket self with
  | Some _ =>
      Log.emit logger Log.INFO [Log.Txt "UDP sender closed"] ;;;
      Log.ret (set_connected false (set_socket (Some SockClosed) self))
  | None => Log.ret (set_connected false self)
  end.

End Sender.

(** ** [UDPMiddlewareBridge] *)

Record UDPMiddlewareBridge : Type := Build {
  udp_receiver : Receiver.t;
  unit_converter : Converter.UnitConverter;
  udp_sender : Sender.t;
  running : bool;
  error_count : Z;
  main_task : bool;            (* a monitoring task has been created *)
  messages_processed : Z;
  messages_converted : Z;
  messages_forwarded : Z
}.

(** [__init__] with the network and conversion settings already
    loaded. *)
Definition init (input_port : Z) (output_host : string) (output_port : Z)
           (conversions : gmap string Py.value) : UDPMiddlewareBridge :=
  Build (Receiver.init "0.0.0.0" input_port)
        (Converter.init conversions)
        (Sender.init output_host output_port)
        false 0 false 0 0 0.

Definition set_receiver (r : Receiver.t) (b : UDPMiddlewareBridge) :=
  Build r (unit_converter b) (udp_sender b) (running b) (error_count b)
        (main_task b) (messages_processed b) (messages_converted b)
        (messages_forwarded b).
Definition set_converter (c : Converter.UnitConverter) (b : UDPMiddlewareBridge) :=
  Build (udp_receiver b) c (udp_sender b) (running b) (error_count b)
        (main_task b) (messages_processed b) (messages_converted b)
        (messages_forwarded b).
Definition set_sender (s : Sender.t) (b : UDPMiddlewareBridge) :=
  Build (udp_receiver b) (unit_converter b) s (running b) (error_count b)
        (main_task b) (messages_processed b) (messages_converted b)
        (messages_forwarded b).
Definition set_running (r : bool) (b : UDPMiddlewareBridge) :=
  Build (udp_receiver b) (unit_converter b) (udp_sender b) r (error_count b)
        (main_task b) (messages_processed b) (messages_converted b)
        (messages_forwarded b).
Definition set_error_count (n : Z) (b : UDPMiddlewareBridge) :=
  Build (udp_receiver b) (unit_converter b) (udp_sender b) (running b) n
        (main_task b) (messages_processed b) (messages_converted b)
        (messages_forwarded b).
Definition set_main_task (t : bool) (b : UDPMiddlewareBridge) :=
  Build (udp_receiver b) (unit_converter b) (udp_sender b) (running b)
        (error_count b) t (messages_processed b) (messages_converted b)
        (messages_forwarded b).
Definition set_counters (p c f : Z) (b : UDPMiddlewareBridge) :=
  Build (udp_receiver b) (unit_converter b) (udp_sender b) (running b)
        (error_count b) (main_task b) p c f.

(** [_handle_udp_data]; [env_sendto] answers the [sendto] of the
    forwarding. *)
Definition _handle_udp_data (env_sendto : Py.result Z) (data : string)
           (self : UDPMiddlewareBridge)
  : Log.Logged (Py.result unit * UDPMiddlewareBridge) :=
  let self1 :=
    set_counters (messages_processed self + 1) (messages_converted self)
                 (messages_forwarded self) self in
  let* (converted_message, conversion_info, conv') :=
    Converter.process_message (unit_converter self1) data in
  let self2 := set_converter conv' self1 in
  let applied := Converter.info_get_applied conversion_info in
  let* self3 :=
    if 0 <? applied then
      Log.emit logger Log.DEBUG
        [Log.Txt "Applied "; Log.Int applied; Log.Txt " conversions"] ;;;
      Log.ret (set_counters (messages_processed self2)
                 (messages_converted self2 + 1)
                 (messages_forwarded self2) self2)
    else Log.ret self2 in
  let* (sent, sender') :=
    Sender.send_message env_sendto converted_message (udp_sender self3) in
  let self4 := set_sender sender' self3 in
  match sent with
  | Py.Ok true =>
      Log.ret (Py.Ok tt,
               set_counters (messages_processed self4)
                 (messages_converted self4)
                 (messages_forwarded self4 + 1) self4)
  | Py.Ok false =>
      Log.emit logger Log.WARNING
        [Log.Txt "Failed to forward converted message"] ;;;
      Log.ret (Py.Ok tt, set_error_count (error_count self4 + 1) self4)
  | Py.Raise e =>
      if Py.caught_by [Py.KeyError; Py.TypeError; Py.AttributeError] e then
        Log.emit logger Log.ERROR
          [Log.Txt "Error processing UDP data: "; Log.Err e] ;;;
        Log.ret (Py.Ok tt, set_error_count (error_count self4 + 1) self4)
      else Log.ret (Py.Raise e, self4)
  end.

(** [stop]; it returns [None]. *)
Definition stop (self : UDPMiddlewareBridge)
  : Log.Logged (Py.value * UDPMiddlewareBridge) :=
  if negb (running self) then
    Log.emit logger Log.WARNING [Log.Txt "Bridge is not running"] ;;;
    Log.ret (Py.VNone, self)
  else
    Log.emit logger Log.INFO
      [Log.Txt "Stopping Condor UDP Middleware Bridge..."] ;;;
    let self1 := set_running false self in
    (* the monitoring task, if any, is cancelled and awaited *)
    let* sender' := Sender.close (udp_sender self1) in
    Log.emit logger Log.INFO [Log.Txt "UDP sender stopped"] ;;;
    let receiver' := Receiver.close (udp_receiver self1) in
    Log.emit logger Log.INFO [Log.Txt "UDP receiver stopped"] ;;;
    Log.emit logger Log.INFO [Log.Txt "Bridge stopped successfully"] ;;;
    Log.ret (Py.VNone, set_receiver receiver' (set_sender sender' self1)).

(** What the environment answers to the socket calls of [start]. *)
Record start_env : Type := StartEnv {
  recv_socket : option Py.exn;
  recv_bind : option Py.exn;
  send_socket : option Py.exn;
  send_connect : option Py.exn
}.

(** [start]: declared [-> None], every [return] of it is a bare
    [return].  [conversions] is the conversions section of the
    settings, read for the closing log lines. *)
Definition start (env : start_env) (conversions : gmap string Py.value)
           (self : UDPMiddlewareBridge)
  : Log.Logged (Py.result Py.value * UDPMiddlewareBridge) :=
  if running self then
    Log.emit logger Log.WARNING [Log.Txt "Bridge is already running"] ;;;
    Log.ret (Py.Ok Py.VNone, self)
  else
    Log.emit logger Log.INFO
      [Log.Txt "Starting Condor UDP Middleware Bridge..."] ;;;
    let self1 :=
      set_counters 0 0 0 (set_error_count 0 (set_running true self)) in
    let* (r, receiver') :=
      Receiver.start_receiving (recv_socket env) (recv_bind env)
        (udp_receiver self1) in
    let self2 := set_receiver receiver' self1 in
    match r with
    | Py.Raise e => Log.ret (Py.Raise e, self2)
    | Py.Ok false =>
        Log.emit logger Log.ERROR [Log.Txt "Failed to start UDP receiver"] ;;;
        let* (_, self3) :=
          stop (set_error_count (error_count self2 + 1) self2) in
        Log.ret (Py.Ok Py.VNone, self3)
    | Py.Ok true =>
        let* (r, sender') :=
          Sender.start_sending (send_socket env) (send_connect env)
            (udp_sender self2) in
        let self3 := set_sender sender' self2 in
        match r with
        | Py.Raise e => Log.ret (Py.Raise e, self3)
        | Py.Ok false =>
            Log.emit logger Log.ERROR
              [Log.Txt "Failed to start UDP sender"] ;;;
            let* (_, self4) :=
              stop (set_error_count (error_count self3 + 1) self3) in
            Log.ret (Py.Ok Py.VNone, self4)
        | Py.Ok true =>
            let self4 := set_main_task true self3 in
            Log.emit logger Log.INFO [Log.Txt "Bridge started successfully"] ;;;
            Log.emit logger Log.INFO
              [Log.Txt "Listening on port ";
               Log.Int (Receiver.port (udp_receiver self4))] ;;;
            Log.emit logger Log.INFO
              [Log.Txt "Forwarding to ";
               Log.Txt (Sender.target_host (udp_sender self4));
               Log.Txt ":";
               Log.Int (Sender.target_port (udp_sender self4))] ;;;
            (if Py.truthy (Py.get conversions "enabled") then
               Log.emit logger Log.INFO [Log.Txt "Unit conversions enabled:"] ;;;
               Log.emit logger Log.INFO
                 [Log.Txt "  Altitude: "; Log.Val (Py.get conversions "altitude")] ;;;
               Log.emit logger Log.INFO
                 [Log.Txt "  Speed: "; Log.Val (Py.get conversions "speed")] ;;;
               Log.emit logger Log.INFO
                 [Log.Txt "  Vario: "; Log.Val (Py.get conversions "vario")] ;;;
               Log.emit logger Log.INFO
                 [Log.Txt "  Acceleration: ";
                  Log.Val (Py.get conversions "acceleration")]
             else
               Log.emit logger Log.INFO
                 [Log.Txt "Unit conversions disabled - passing through original data"]) ;;;
            Log.ret (Py.Ok Py.VNone, self4)
        end
    end.

(** The receive thread of a running bridge: the receiver's loop with
    [_handle_udp_data] as its callback.  The handler does not touch the
    receiver, which is put back into the bridge afterwards. *)
Definition receive_events (evs : list (Receiver.event (Py.result Z)))
           (self : UDPMiddlewareBridge)
  : Log.Logged (thread_status * UDPMiddlewareBridge) :=
  let* (st, receiver', self') :=
    Receiver._receive_loop (Some _handle_udp_data) evs
      (udp_receiver self) self in
  Log.ret (st, set_receiver receiver' self').

(** ** The bridge and its settings object *)

(** A bridge together with [self.settings]. *)
Record Middleware : Type := WithSettings {
  settings : Settings.MiddlewareAppSettings;
  bridge : UDPMiddlewareBridge
}.

(** The dictionary that [_init_components] and
    [update_conversion_settings] give to the converter. *)
Definition conversion_dict (s : Settings.MiddlewareAppSettings)
  : gmap string Py.value :=
  list_to_map
    [ ("enabled", Settings.get_conversions s "enabled");
      ("altitude", Settings.get_conversions s "altitude");
      ("speed", Settings.get_conversions s "speed");
      ("vario", Settings.get_conversions s "vario");
      ("acceleration", Settings.get_conversions s "acceleration") ].

(** [_init_components]: a new receiver, converter and sender from the
    settings; flags and counters are not touched. *)
Definition _init_components (self : Middleware) : Middleware :=
  let network_settings := Settings.network (settings self) in
  WithSettings (settings self)
    (set_sender
       (Sender.init (Settings.output_host network_settings)
                    (Settings.output_port network_settings))
       (set_converter (Converter.init (conversion_dict (settings self)))
          (set_receiver
             (Receiver.init "0.0.0.0" (Settings.input_port network_settings))
             (bridge self)))).

(** [__init__] with the settings already loaded. *)
Definition create (s : Settings.MiddlewareAppSettings) : Middleware :=
  WithSettings s
    (init (Settings.input_port (Settings.network s))
          (Settings.output_host (Settings.network s))
          (Settings.output_port (Settings.network s))
          (conversion_dict s)).

(** [update_conversion_settings]; [new_conversion_settings] is the
    list of the items of the dictionary, in its order. *)
Definition update_conversion_settings
           (new_conversion_settings : PyDict.dict Py.value)
           (self : Middleware) : Log.Logged Middleware :=
  let settings' :=
    fold_left
      (fun s kv => snd (Settings.set_conversions s (fst kv) (snd kv)))
      new_conversion_settings (settings self) in
  let* converter' :=
    Converter.update_settings (unit_converter (bridge self))
      (conversion_dict settings') in
  Log.emit logger Log.INFO
    [Log.Txt "Conversion settings updated: ";
     Log.Dict (list_to_map new_conversion_settings)] ;;;
  Log.ret (WithSettings settings' (set_converter converter' (bridge self))).

End Bridge.

(* ===================================================================== *)
(** * Settings updates that arrive while a message is converted

    [update_settings] runs on the caller's thread, [_apply_conversions] on
    the receive thread.  The converting thread reads
    [self.conversion_settings] once for the enable flag and once in each
    iteration of its loop; between two of these reads another thread can
    run.  A schedule lists, in the order they take effect, the steps of
    the converting thread and the updates of the other one. *)
(* ===================================================================== *)

Module Interleaving.
Import PyFloat Converter.

(** Where the converting thread stands in [_apply_conversions]. *)
Inductive control : Type :=
| Entry (data : PyDict.dict float)
    (* about to test the enable flag *)
| Loop (todo : list (string * float)) (st : loop_state)
    (* about to run the next iteration, or to leave the loop *)
| Return (st : loop_state).

Inductive action : Type :=
| Convert
    (* the converting thread runs up to its next read of the settings *)
| Update (new_settings : gmap string Py.value).
    (* another thread runs [update_settings(new_settings)] *)

Definition convert_step (self : UnitConverter) (c : control)
  : Log.Logged control :=
  match c with
  | Entry data =>
      if negb (Py.truthy
                 (Py.get_default (conversion_settings self) "enabled"
                    (Py.VBool true)))
      then Log.ret (Return (data, empty_record))
      else Log.ret (Loop data (data, empty_record))
  | Loop [] st => Log.ret (Return st)
  | Loop (item :: todo) st =>
      let* st' := convert_item (conversion_settings self) st item in
      Log.ret (Loop todo st')
  | Return st => Log.ret c
  end.

Definition step (cfg : UnitConverter * control) (a : action)
  : Log.Logged (UnitConverter * control) :=
  let '(self, c) := cfg in
  match a with
  | Convert => let* c' := convert_step self c in Log.ret (self, c')
  | Update new_settings =>
      let* self' := update_settings self new_settings in Log.ret (self', c)
  end.

Definition run (schedule : list action) (cfg : UnitConverter * control)
  : Log.Logged (UnitConverter * control) :=
  Log.for_each step schedule cfg.

(** The result of the conversion, once the thread has returned. *)
Definition result_of (cfg : UnitConverter * control) : option loop_state :=
  match snd cfg with
  | Return st => Some st
  | _ => None
  end.

(** The settings dictionaries that are current at some point of a
    schedule started with [s0]. *)
Fixpoint snapshots (s0 : gmap string Py.value) (schedule : list action)
  : list (gmap string Py.value) :=
  match schedule with
  | [] => [s0]
  | Convert :: rest => snapshots s0 rest
  | Update s :: rest => s0 :: snapshots s rest
  end.

End Interleaving.

(* ===================================================================== *)
(** * The specification's vocabulary

    Definitions that follow the words of the specification (section 4.2)
    rather than the code; the theorems compare the two. *)
(* ===================================================================== *)

Module Spec.
Import PyFloat.

(** The source unit of each category. *)
Definition source_unit (category : string) : option string :=
  if String.eqb category "altitude" then Some "meters"
  else if String.eqb category "speed" then Some "mps"
  else if String.eqb category "vario" then Some "mps"
  else if String.eqb category "acceleration" then Some "mps2"
  else None.

(** The factor table: category, supported target, factor. *)
Definition table : list (string * string * float) :=
  [ ("altitude", "feet", Converter.flit "3.28084");
    ("speed", "kmh", Converter.flit "3.6");
    ("speed", "knots", Converter.flit "1.94384");
    ("vario", "fpm", Converter.flit "196.85");
    ("acceleration", "fps2", Converter.flit "3.28084") ].

Fixpoint table_lookup (tbl : list (string * string * float))
         (category target : string) : option float :=
  match tbl with
  | [] => None
  | (c, t, f) :: tbl' =>
      if String.eqb c category && String.eqb t target then Some f
      else table_lookup tbl' category target
  end.

Definition table_factor (category target : string) : option float :=
  table_lookup table category target.

(** A target unit is recognized for a category when it is the source
    unit or a supported target. *)
Definition recognized (category : string) (target : Py.value) : bool :=
  match target with
  | Py.VStr u =>
      bool_decide (source_unit category = Some u)
      || bool_decide (is_Some (table_factor category u))
  | _ => false
  end.

Definition enabled (settings : gmap string Py.value) : bool :=
  Py.truthy (Py.get_default settings "enabled" (Py.VBool true)).

(** The category of a variable and its configured target unit, when
    it has both. *)
Definition configured (settings : gmap string Py.value) (variable : string)
  : option (string * Py.value) :=
  match Converter.variable_mappings !! variable with
  | Some category =>
      let target := Py.get settings category in
      if Py.truthy target then Some (category, target) else None
  | None => None
  end.

(** The category rule: the table factor of a supported target; the
    source unit and an unrecognized target are no-ops. *)
Definition category_rule (category : string) (target : Py.value)
           (value : float) : float * bool :=
  match target with
  | Py.VStr u =>
      match table_factor category u with
      | Some factor => (mul value factor, true)
      | None => (value, false)
      end
  | _ => (value, false)
  end.

(** Conversion resolution per pair: the value to emit and whether a
    conversion was applied. *)
Definition resolve (settings : gmap string Py.value)
           (variable : string) (value : float) : float * bool :=
  if enabled settings then
    match configured settings variable with
    | Some (category, target) => category_rule category target value
    | None => (value, false)
    end
  else (value, false).

Definition convert_pair (settings : gmap string Py.value)
           (kv : string * float) : string * float :=
  (fst kv, fst (resolve settings (fst kv) (snd kv))).

Definition is_converted (settings : gmap string Py.value)
           (kv : string * float) : bool :=
  snd (resolve settings (fst kv) (snd kv)).

(** The entries of a frame to which a conversion applies. *)
Definition converted_entries (settings : gmap string Py.value)
           (frame : list (string * float)) : list (string * float) :=
  filter (fun kv => is_converted settings kv = true) frame.

(** Serialization: each pair as [key=value] with the value to 15
    significant digits, each line terminated by CRLF. *)
Fixpoint serialize (frame : list (string * float)) : string :=
  match frame with
  | [] => ""
  | (k, v) :: rest =>
      k ++ "=" ++ format_15g v ++ PyStr.CRLF ++ serialize rest
  end.

(** The text carries the pair [(k, v)] as one of its lines. *)
Definition emits (text : string) (k : string) (v : float) : Prop :=
  exists before after, text = serialize (before ++ (k, v) :: after)%list.

(** The identifiers of a list in the order of their first occurrence. *)
Fixpoint first_occurrences (l : list string) : list string :=
  match l with
  | [] => []
  | x :: l' => x :: filter (fun y => y <> x) (first_occurrences l')
  end.

(** The value of the last pair of [pairs] whose key is [k]. *)
Fixpoint last_value {V} (k : string) (pairs : list (string * V)) : option V :=
  match pairs with
  | [] => None
  | (k', v) :: rest =>
      match last_value k rest with
      | Some v' => Some v'
      | None => if String.eqb k k' then Some v else None
      end
  end.

(** The warning of a category for an unknown unit. *)
Definition unknown_unit_warning (category : string) (target : Py.value)
  : Log.record :=
  Log.Rec Converter.logger Log.WARNING
    [Log.Txt ("Unknown " ++ category ++ " unit: "); Log.Val target].

(** [start] reports a failure to its caller: it returns [False], or
    it raises. *)
Definition returns_failure (r : Py.result Py.value) : Prop :=
  r = Py.Ok (Py.VBool false) \/ exists e, r = Py.Raise e.

(** Atomicity of a conversion under a schedule of updates: all pairs
    are converted under one of the snapshots of the schedule. *)
Definition single_snapshot (s0 : gmap string Py.value)
           (schedule : list Interleaving.action)
           (data : PyDict.dict float) : Prop :=
  exists s, s ∈ Interleaving.snapshots s0 schedule /\
    Interleaving.result_of
      (fst (Interleaving.run schedule
              (Converter.init s0, Interleaving.Entry data)))
    = Some (fst (Converter._apply_conversions (Converter.init s) data)).

(** The settings that name the source unit of every category. *)
Definition identity_settings : gmap string Py.value :=
  list_to_map
    [ ("altitude", Py.VStr "meters"); ("speed", Py.VStr "mps");
      ("vario", Py.VStr "mps"); ("acceleration", Py.VStr "mps2");
      ("enabled", Py.VBool true) ].

End Spec.

(** The parts of what [process_message] returns. *)
Definition out_message
           (r : Log.Logged (string * Converter.conversion_info * Converter.UnitConverter))
  : string := fst (fst (fst r)).
Definition out_info
           (r : Log.Logged (string * Converter.conversion_info * Converter.UnitConverter))
  : Converter.conversion_info := snd (fst (fst r)).
Definition out_converter
           (r : Log.Logged (string * Converter.conversion_info * Converter.UnitConverter))
  : Converter.UnitConverter := snd (fst r).
Definition out_log
           (r : Log.Logged (string * Converter.conversion_info * Converter.UnitConverter))
  : list Log.record := snd r.

(** The value [float] gives to a captured number. *)
Definition parse_value (s : string) : PyFloat.float :=
  fst (Converter._convert_value s).

(** The frame of a message: the dictionary [process_message] builds from
    the pairs of [findall]. *)
Definition frame_of (msg : string) : PyDict.dict PyFloat.float :=
  fst (PyDict.comprehension Converter._convert_value (Re.findall msg)).

(* ===================================================================== *)
(** * The vocabulary of the statements

    Notions derived from the embedding in which the properties are
    stated, and the concrete settings, messages and environments of the
    examples. *)
(* ===================================================================== *)

Section ConverterVocabulary.
Import PyFloat Converter.

(** The dictionary comprehension as a plain fold from [d]. *)
Definition build (pairs : list (string * string)) (d : PyDict.dict float)
  : PyDict.dict float :=
  fold_left (fun d kv => PyDict.set (fst kv) (parse_value (snd kv)) d) pairs d.

Definition categories : list string :=
  ["altitude"; "speed"; "vario"; "acceleration"].

(** What one iteration of the loop does to the loop state. *)
Definition item_effect (settings : gmap string Py.value)
           (st : loop_state) (item : string * float) : loop_state :=
  match Spec.configured settings (fst item) with
  | Some (category, target) =>
      let r := Spec.category_rule category target (snd item) in
      if snd r then
        (PyDict.set (fst item) (fst r) (fst st),
         MkRecord (info_conversions_applied (snd st) + 1)
                 (info_variables_converted (snd st) ++ [fst item])
                 (PyDict.set (fst item)
                    (Detail (snd item) (fst r) category target)
                    (info_conversions_detail (snd st))))
      else st
  | None => st
  end.

(** The dictionary [process_message] serializes ([converted_dict]) and
  the record that comes with it. *)
Definition emitted (self : Converter.UnitConverter) (msg : string)
: PyDict.dict PyFloat.float :=
fst (fst (Converter._apply_conversions self (frame_of msg))).

Definition emitted_info (self : Converter.UnitConverter) (msg : string)
: Converter.record :=
snd (fst (Converter._apply_conversions self (frame_of msg))).

Definition feet_settings : gmap string Py.value :=
  list_to_map
    [ ("enabled", Py.VBool true); ("altitude", Py.VStr "feet");
      ("speed", Py.VStr "mps"); ("vario", Py.VStr "mps");
      ("acceleration", Py.VStr "mps2") ].

Definition yards_settings : gmap string Py.value :=
  list_to_map
    [ ("enabled", Py.VBool true); ("altitude", Py.VStr "yards");
      ("speed", Py.VStr "knots") ].

Definition disabled_yards_settings : gmap string Py.value :=
  list_to_map
    [ ("enabled", Py.VBool false); ("altitude", Py.VStr "yards") ].

Definition scenario_settings : gmap string Py.value :=
  list_to_map
    [ ("speed", Py.VStr "knots"); ("altitude", Py.VStr "feet");
      ("enabled", Py.VBool true) ].

Definition scenario_input : string :=
  "time=1.0" +:+ PyStr.CRLF +:+ "airspeed=30.0" +:+ PyStr.CRLF +:+
  "altitude=1000.0" +:+ PyStr.CRLF.

Definition scenario_output : string :=
  "time=1" +:+ PyStr.CRLF +:+ "airspeed=58.3152" +:+ PyStr.CRLF +:+
  "altitude=3280.84" +:+ PyStr.CRLF.
End ConverterVocabulary.

Section BridgeVocabulary.
Import Bridge.

Definition bridge0 : UDPMiddlewareBridge :=
  init 55278 "127.0.0.1" 55300 Spec.identity_settings.

Definition address_in_use : Py.exn :=
  Py.Exn Py.OSError "[Errno 98] Address already in use".

Definition env_ok : start_env := StartEnv None None None None.

Definition env_bind_fails : start_env :=
  StartEnv None (Some address_in_use) None None.

(** What [start] returns and the bridge it leaves. *)
Definition start_return env conversions self : Py.result Py.value :=
  fst (fst (start env conversions self)).

Definition start_bridge env conversions self : UDPMiddlewareBridge :=
  snd (fst (start env conversions self)).

Definition is_ok {A} (r : Py.result A) : Prop :=
  match r with Py.Ok _ => True | Py.Raise _ => False end.

(** The text [errors='ignore'] decodes [data] to. *)
Definition decode_ignore (data : string) : string :=
  match Utf8.decode Utf8.Ignore data with
  | Py.Ok text => text
  | Py.Raise _ => ""
  end.

(** A datagram that is not valid UTF-8, and the bridge that has just
    started. *)
Definition bad_datagram : string :=
  "altitude=100.0" +:+ String (ascii_of_N 255) "".

Definition running_bridge : UDPMiddlewareBridge :=
  start_bridge env_ok feet_settings
    (init 55278 "127.0.0.1" 55300 feet_settings).

Definition after_bad_datagram : UDPMiddlewareBridge :=
  snd (fst (receive_events [Receiver.Datagram bad_datagram (Py.Ok 18)]
              running_bridge)).

(** All the error counters of the pipeline together. *)
Definition errors_counted (r : Receiver.t) (b : UDPMiddlewareBridge) : Z :=
  Receiver.error_count r + error_count b + Sender.error_count (udp_sender b).

(** A record at level ERROR that carries the exception. *)
Definition logs_error (e : Py.exn) (l : list Log.record) : Prop :=
  exists rec, rec ∈ l /\ Log.lvl rec = Log.ERROR /\ Log.Err e ∈ Log.text rec.

(** The record the receiver writes for an exception of its callback. *)
Definition callback_error (e : Py.exn) : Log.record :=
  Log.Rec logger Log.ERROR [Log.Txt "Error in callback: "; Log.Err e].

Definition overflow : Py.exn :=
  Py.Exn Py.OverflowError "sendto(): port must be 0-65535".
End BridgeVocabulary.

Section InterleavingVocabulary.
Import PyFloat Converter Interleaving.

Definition meters_settings : gmap string Py.value :=
  list_to_map [ ("enabled", Py.VBool true); ("altitude", Py.VStr "meters") ].

(** The frame of [altitude=100.0], [height=100.0]. *)
Definition two_altitudes : PyDict.dict float :=
  [ ("altitude", flit "100.0"); ("height", flit "100.0") ].

(** The update takes effect after the first pair has been handled. *)
Definition update_between_pairs : list action :=
  [ Convert; Convert; Update feet_settings; Convert; Convert ].

(** The dictionary a schedule ends with, as text. *)
Definition text_after (schedule : list action) (s0 : gmap string Py.value)
           (data : PyDict.dict float) : option string :=
  (fun st => _rebuild_message (fst st))
    <$> result_of (fst (run schedule (init s0, Entry data))).

(** The text of the conversion of [data] under the one snapshot [s]. *)
Definition text_under (s : gmap string Py.value) (data : PyDict.dict float)
  : string :=
  _rebuild_message (fst (fst (_apply_conversions (init s) data))).
End InterleavingVocabulary.

(* ===================================================================== *)
(** * Words, lines, logs and runs

    The notions in which the further properties of the parser, the
    converter, the settings and the bridge are stated. *)
(* ===================================================================== *)

(** Every character of [w] is in the class [p]. *)
Fixpoint all_chars (p : ascii -> bool) (w : string) : bool :=
  match w with
  | EmptyString => true
  | String c w' => p c && all_chars p w'
  end.

(** The words of a regular expression. *)
Fixpoint lang (r : Re.regex) (w : string) : Prop :=
  match r with
  | Re.Class p => exists c, w = String c "" /\ p c = true
  | Re.Seq r1 r2 => exists w1 w2, w = w1 +:+ w2 /\ lang r1 w1 /\ lang r2 w2
  | Re.Opt r' => w = "" \/ lang r' w
  | Re.Star p => all_chars p w = true
  | Re.Plus p => w <> "" /\ all_chars p w = true
  end.

(** The input does not go on with a character of the class. *)
Definition not_ahead (p : ascii -> bool) (rest : string) : Prop :=
  match rest with
  | String c _ => p c = false
  | EmptyString => True
  end.

(** A character that can follow a pair: no part of an identifier or of
    a number. *)
Definition is_blank (c : ascii) : bool :=
  negb (Re.is_ident c || Re.is_digit c || Ascii.eqb c ".").

(** [key=value] *)
Definition pair_text (kv : string * string) : string :=
  fst kv +:+ "=" +:+ snd kv.

(** The message that gives each pair a line of its own, every line
    ended by [sep]. *)
Fixpoint framed (sep : string) (pairs : list (string * string)) : string :=
  match pairs with
  | [] => ""
  | kv :: rest => pair_text kv +:+ sep +:+ framed sep rest
  end.

(** What can follow a number. *)
Definition number_ends (rest : string) : Prop :=
  match rest with
  | String c _ => is_blank c = true
  | EmptyString => True
  end.

(** The parts of [value_re]: the exponent; what stands behind the
    leading digits, which is the point, the digits that have to be
    there and the exponent; the number without its sign. *)
Definition exp_re : Re.regex :=
  Re.Seq (Re.Class Re.is_exp)
    (Re.Seq (Re.Opt (Re.Class Re.is_sign)) (Re.Plus Re.is_digit)).

Definition frac_re : Re.regex :=
  Re.Seq (Re.Opt (Re.lit "."))
    (Re.Seq (Re.Plus Re.is_digit) (Re.Opt exp_re)).

Definition mantissa_re : Re.regex := Re.Seq (Re.Star Re.is_digit) frac_re.

(** What a pair of [kv_pattern] has to be: an identifier and a
    number. *)
Definition well_formed (kv : string * string) : Prop :=
  lang Re.key_re (fst kv) /\ lang Re.value_re (snd kv).

(** Two settings dictionaries agree on what the converter reads: the
    truth value of the enable flag and the targets of the four
    categories. *)
Definition settings_agree (s s' : gmap string Py.value) : Prop :=
  Spec.enabled s = Spec.enabled s' /\
  forall category, category ∈ categories -> Py.get s category = Py.get s' category.

(** The converter after a run of messages. *)
Definition process_all (self : Converter.UnitConverter) (msgs : list string)
  : Converter.UnitConverter :=
  fold_left (fun c msg => out_converter (Converter.process_message c msg))
    msgs self.

(** The variables a conversion record lists; none for an error
    record. *)
Definition info_variables (i : Converter.conversion_info) : list string :=
  match i with
  | Converter.InfoOk r => Converter.info_variables_converted r
  | Converter.InfoError _ => []
  end.

(** The number of conversions that one message counts under the
    settings [s]. *)
Definition conversions_of (s : gmap string Py.value) (msg : string) : Z :=
  Converter.info_get_applied
    (out_info (Converter.process_message (Converter.init s) msg)).

(** The record [_apply_conversions] writes for a converted variable. *)
Definition converted_record (variable : string) (value converted : PyFloat.float)
           (target : Py.value) : Log.record :=
  Log.Rec Converter.logger Log.DEBUG
    [Log.Txt "Converted "; Log.Txt variable; Log.Txt ": ";
     Log.Flt value; Log.Txt " → "; Log.Flt converted;
     Log.Txt " ("; Log.Val target; Log.Txt ")"].

(** What one entry of the frame adds to the log: nothing for a
    variable without category or target and for the source unit, the
    record of the conversion for a supported target, the warning for
    any other target. *)
Definition item_log (settings : gmap string Py.value)
           (item : string * PyFloat.float) : list Log.record :=
  match Spec.configured settings (fst item) with
  | None => []
  | Some (category, target) =>
      if Spec.recognized category target then
        let r := Spec.category_rule category target (snd item) in
        if snd r then [converted_record (fst item) (snd item) (fst r) target]
        else []
      else [Spec.unknown_unit_warning category target]
  end.

(** The detail [_apply_conversions] records for a converted entry. *)
Definition detail_entry (settings : gmap string Py.value)
           (item : string * PyFloat.float) : string * Converter.detail :=
  (fst item,
   Converter.Detail (snd item)
     (fst (Spec.resolve settings (fst item) (snd item)))
     (default "" (Converter.variable_mappings !! fst item))
     (Py.get settings (default "" (Converter.variable_mappings !! fst item)))).

(** Every category has a supported target other than its source
    unit, and conversions are enabled. *)
Definition all_converting (settings : gmap string Py.value) : Prop :=
  Spec.enabled settings = true /\
  forall category, category ∈ categories ->
    exists u, Py.get settings category = Py.VStr u /\
              is_Some (Spec.table_factor category u).

(** The settings of the example of [converter.py]: every category
    with a target of the factor table. *)
Definition imperial_settings : gmap string Py.value :=
  list_to_map
    [ ("enabled", Py.VBool true); ("altitude", Py.VStr "feet");
      ("speed", Py.VStr "knots"); ("vario", Py.VStr "fpm");
      ("acceleration", Py.VStr "fps2") ].

(** What [validate] asks of each section. *)
Definition network_ok (n : Settings.NetworkSettings) : Prop :=
  1 <= Settings.input_port n <= 65535 /\
  1 <= Settings.output_port n <= 65535 /\
  Settings.input_port n <> Settings.output_port n /\
  Settings.output_host n <> "".

Definition unit_ok (category : string) (v : Py.value) : Prop :=
  exists u, v = Py.VStr u /\
            u ∈ default [] (Settings.get_conversion_units !! category).

Definition conversions_ok (c : Settings.UnitConversionSettings) : Prop :=
  unit_ok "altitude" (Settings.altitude c) /\
  unit_ok "speed" (Settings.speed c) /\
  unit_ok "vario" (Settings.vario c) /\
  unit_ok "acceleration" (Settings.acceleration c).

Definition logging_ok (l : Settings.LogSettings) : Prop :=
  (Settings.log_to_file l = true ->
   exists p, Settings.log_file_path l = Some p /\ p <> "") /\
  0 < Settings.max_log_files l /\
  0 < Settings.max_log_size_mb l.

(** The key of a field of the conversions section. *)
Definition field_name (f : Settings.field) : string :=
  match f with
  | Settings.Altitude => "altitude"
  | Settings.Speed => "speed"
  | Settings.Vario => "vario"
  | Settings.Acceleration => "acceleration"
  | Settings.Enabled => "enabled"
  end.

(** The datagrams of a list of events that the receiver takes up:
    the empty ones are passed over. *)
Definition payloads {X} (evs : list (Bridge.Receiver.event X)) : list string :=
  concat
    (map (fun ev =>
            match ev with
            | Bridge.Receiver.Datagram data _ =>
                if String.eqb data "" then [] else [data]
            | Bridge.Receiver.RecvRaise _ _ => []
            end) evs).

(** Every event is a datagram. *)
Definition only_datagrams {X} (evs : list (Bridge.Receiver.event X)) : Prop :=
  Forall (fun ev =>
            match ev with
            | Bridge.Receiver.Datagram _ _ => True
            | Bridge.Receiver.RecvRaise _ _ => False
            end) evs.

(** Every event is a datagram whose [sendto] succeeds. *)
Definition all_sent (evs : list (Bridge.Receiver.event (Py.result Z))) : Prop :=
  Forall (fun ev =>
            match ev with
            | Bridge.Receiver.Datagram _ (Py.Ok _) => True
            | _ => False
            end) evs.

(** The bytes of a list of datagrams. *)
Definition total_bytes (l : list string) : Z :=
  foldr Z.add 0 (map (fun data => Z.of_nat (String.length data)) l).

(** The parts of what the receive loop returns. *)
Definition loop_status {W} (r : Log.Logged (Bridge.thread_status * Bridge.Receiver.t * W))
  : Bridge.thread_status := fst (fst (fst r)).
Definition loop_receiver {W} (r : Log.Logged (Bridge.thread_status * Bridge.Receiver.t * W))
  : Bridge.Receiver.t := snd (fst (fst r)).
Definition loop_world {W} (r : Log.Logged (Bridge.thread_status * Bridge.Receiver.t * W))
  : W := snd (fst r).

(** What the bridge has processed and neither forwarded nor counted
    as an error, in its own counter or in the receiver's. *)
Definition unaccounted (r : Bridge.Receiver.t) (b : Bridge.UDPMiddlewareBridge) : Z :=
  Bridge.messages_processed b - Bridge.messages_forwarded b
  - Bridge.error_count b - Bridge.Receiver.error_count r.

(** The text the bridge forwards for a datagram under the settings
    [s]. *)
Definition forwarded_text (s : gmap string Py.value) (data : string) : string :=
  out_message (Converter.process_message (Converter.init s) (decode_ignore data)).

(** A byte string from the codes of its bytes. *)
Definition of_codes (l : list N) : string :=
  fold_right (fun n s => String (ascii_of_N n) s) EmptyString l.

(** One test vector of the decoder: the input, what [errors='ignore']
    decodes it to, and whether [errors='strict'] accepts it. *)
Definition utf8_vector_ok (v : list N * list N * bool) : bool :=
  let '(i, o, strict) := v in
  match Utf8.decode Utf8.Ignore (of_codes i) with
  | Py.Ok s => bool_decide (s = of_codes o)
  | Py.Raise _ => false
  end &&
  match Utf8.decode Utf8.Strict (of_codes i) with
  | Py.Ok s => strict && bool_decide (s = of_codes i)
  | Py.Raise _ => negb strict
  end.

(* ===================================================================== *)
(** * The embedding at work

    The matcher, the float conversions and the decoder on inputs whose
    results under CPython are known. *)
(* ===================================================================== *)

Example findall_sample :
  Re.findall ("time=17.0000042330833" ++ PyStr.CRLF ++ "vario=-2.5e-1x=.5;y=12.z=+e=1e")
  = [("time", "17.0000042330833"); ("vario", "-2.5e-1"); ("x", ".5");
     ("y", "12"); ("e", "1")].
Proof. vm_compute. reflexivity. Qed.

(** [format(float(s), '.15g')] *)
Example format_vectors :
  forallb (fun p => bool_decide (PyFloat.fmt_of (fst p) = Some (snd p)))
    [ ("1.0", "1");
      ("100.0", "100");
      ("3.28084", "3.28084");
      ("17.0000042330833", "17.0000042330833");
      ("-2.5", "-2.5");
      ("0.0001", "0.0001");
      ("0.00001", "1e-05");
      ("1e15", "1e+15");
      ("123456789012345", "123456789012345");
      ("999999999999999.9", "1e+15");
      ("1e14", "100000000000000");
      ("1e22", "1e+22");
      ("1e23", "1e+23");
      ("5e-324", "4.94065645841247e-324");
      ("1.7976931348623157e308", "1.79769313486232e+308");
      ("1e309", "inf");
      ("-0.0", "-0");
      ("0", "0");
      (".5", "0.5");
      ("12", "12");
      ("1e-7", "1e-07");
      ("0.1", "0.1");
      ("123456.789e3", "123456789");
      ("9007199254740993", "9.00719925474099e+15");
      ("0.000123456789012345678", "0.000123456789012346");
      ("2.675", "2.675");
      ("1e-320", "9.99988867182683e-321");
      ("-8.06892871856689", "-8.06892871856689");
      ("0.323577255010605", "0.323577255010605");
      ("1e100", "1e+100");
      ("1e-100", "1e-100");
      ("6.02214076e23", "6.02214076e+23");
      ("0.00015", "0.00015");
      ("2.47032822920623272e-324", "0");
      ("1e-400", "0");
      ("-1e400", "-inf");
      ("+3.5E+2", "350");
      ("914761360679426580e-16", "91.4761360679427");
      ("3465608723044488519e-7", "346560872304.449");
      ("82375814743814042351e29", "8.2375814743814e+48") ]
  = true.
Proof. vm_compute. reflexivity. Qed.

(** [data.decode('utf-8', errors='ignore')] and [data.decode('utf-8')] *)
Example utf8_vectors :
  forallb utf8_vector_ok
    [ ([244; 61; 240; 240], [61], false);
      ([245; 194; 193; 49; 243], [49], false);
      ([159; 255; 49; 193], [49], false);
      ([240], [], false);
      ([192; 128; 244], [], false);
      ([159; 127; 255; 238; 240; 159], [127], false);
      ([255; 159; 193; 255; 65; 243], [65], false);
      ([127], [127], true);
      ([194], [], false);
      ([255; 65], [65], false);
      ([236; 240; 245; 194], [], false);
      ([223; 159; 225; 241; 65], [223; 159; 65], false);
      ([128; 240; 159; 224; 239; 244], [], false);
      ([143], [], false);
      ([236; 61; 223], [61], false);
      ([225; 65; 128; 245; 61], [65; 61], false);
      ([238], [], false);
      ([225], [], false);
      ([128; 65; 160; 65], [65; 65], false);
      ([194; 127], [127], false);
      ([238; 143; 238; 239], [], false);
      ([245], [], false);
      ([194; 61; 160; 224; 236; 128], [61], false);
      ([236; 65; 239], [65], false);
      ([192], [], false);
      ([143; 191], [], false);
      ([49; 241; 193; 160], [49], false);
      ([194; 240; 243; 194; 144], [194; 144], false);
      ([239; 159], [], false);
      ([191; 238; 239; 194], [], false);
      ([224], [], false);
      ([225; 65; 194; 193; 238], [65], false);
      ([159; 245; 191; 127; 192], [127], false);
      ([240; 224], [], false);
      ([61], [61], true);
      ([236; 225; 238; 128; 128], [238; 128; 128], false);
      ([159; 223; 65; 255; 237], [65], false);
      ([255; 240; 192], [], false);
      ([241; 245; 192; 238; 193], [], false);
      ([192; 225; 223; 255; 223; 144], [223; 144], false);
      ([193; 144], [], false);
      ([244; 194; 160; 238; 241; 255], [194; 160], false);
      ([239], [], false);
      ([191], [], false);
      ([224; 223; 144; 143; 238], [223; 144], false);
      ([239; 255; 241], [], false);
      ([243; 193; 144], [], false);
      ([241; 244], [], false);
      ([255; 255; 128; 224; 194; 194], [], false);
      ([65; 128; 224; 239; 240; 223], [65], false);
      ([225; 237], [], false);
      ([245; 192; 128; 237; 192], [], false);
      ([236; 160; 144; 143], [236; 160; 144], false);
      ([245; 192; 245; 127; 65], [127; 65], false);
      ([237; 143; 225; 127], [127], false);
      ([255], [], false);
      ([128; 241; 128; 144; 225; 236], [], false);
      ([128; 128], [], false);
      ([244; 237; 144; 127], [127], false);
      ([144; 143; 192; 49; 236; 237], [49], false);
      ([226; 130; 172], [226; 130; 172], true);
      ([240; 159; 152; 128], [240; 159; 152; 128], true);
      ([195; 169; 65], [195; 169; 65], true);
      ([97; 108; 116; 105; 116; 117; 100; 101; 61; 49; 48; 48; 46; 48; 255], [97; 108; 116; 105; 116; 117; 100; 101; 61; 49; 48; 48; 46; 48], false);
      ([237; 160; 128], [], false);
      ([244; 144; 128; 128], [], false);
      ([224; 128; 128], [], false);
      ([226; 130], [], false) ]%N
  = true.
Proof. vm_compute. reflexivity. Qed.

(* ===================================================================== *)
(** * The general format keeps at most 15 digits *)
(* ===================================================================== *)

Section FormatFacts.
Import PyFloat.

Lemma str_length_app (a b : string) :
  String.length (a +:+ b) = (String.length a + String.length b)%nat.
Proof.
  induction a as [|c a IH]; [reflexivity|].
  change (S (String.length (a +:+ b)) = S (String.length a + String.length b)).
  rewrite IH. reflexivity.
Qed.

Lemma digits_of_length n v : String.length (digits_of n v) = n.
Proof.
  revert v. induction n as [|n IH]; intros v; [reflexivity|].
  cbn [digits_of]. rewrite str_length_app, IH. cbn [String.length]. lia.
Qed.

Lemma strip_zeros_length s :
  (String.length (strip_zeros s) <= String.length s)%nat.
Proof.
  induction s as [|c s IH]; [reflexivity|].
  cbn [strip_zeros].
  destruct (Ascii.eqb c "0" && String.eqb (strip_zeros s) "");
    cbn [String.length]; lia.
Qed.

(** The search stops at the first exponent, [k] steps down, whose
    power of ten is not above [u / v]. *)
Lemma dec_exponent_spec fuel : forall x u v,
  0 < u -> 0 < v -> u <= v * 10 ^ Z.of_nat fuel ->
  exists k, 0 <= k <= Z.of_nat fuel /\
            dec_exponent fuel x u v = x - k /\
            u <= v * 10 ^ k /\
            (0 < k -> v * 10 ^ (k - 1) < u).
Proof.
  induction fuel as [|fuel IH]; intros x u v Hu Hv Hle.
  - exists 0. cbn [dec_exponent]. change (10 ^ Z.of_nat 0) with 1 in Hle.
    repeat split; lia.
  - cbn [dec_exponent]. destruct (Z.leb_spec u v) as [Huv|Huv].
    + exists 0. repeat split; lia.
    + assert (Hle' : u <= 10 * v * 10 ^ Z.of_nat fuel).
      { rewrite Nat2Z.inj_succ, Z.pow_succ_r in Hle by lia. lia. }
      destruct (IH (x - 1) u (10 * v) Hu ltac:(lia) Hle')
        as (k & Hk & Hr & Hk1 & Hk2).
      exists (k + 1). split; [lia|]. split; [lia|]. split.
      * replace (k + 1) with (Z.succ k) by lia.
        rewrite Z.pow_succ_r by lia. lia.
      * intros _. replace (k + 1 - 1) with k by lia.
        destruct (Z.eq_dec k 0) as [->|Hk0]; [change (10 ^ 0) with 1; lia|].
        specialize (Hk2 ltac:(lia)).
        replace k with (Z.succ (k - 1)) at 1 by lia.
        rewrite Z.pow_succ_r by lia. lia.
Qed.

(** For a positive quotient between [10^-392] and [10^309] the fuel is
    enough, and [exponent10] is its decimal exponent:
    [10^x <= a / b < 10^(x+1)] with [x = 308 - k]. *)
Lemma exponent10_spec a b :
  0 < a -> 0 < b ->
  10 ^ 308 * b <= a * 10 ^ 700 ->
  a < 10 ^ 309 * b ->
  exists k, 0 <= k <= 700 /\
            exponent10 a b = 308 - k /\
            10 ^ 308 * b <= a * 10 ^ k /\
            a * 10 ^ k < 10 ^ 309 * b.
Proof.
  intros Ha Hb Hlo Hhi. unfold exponent10.
  assert (Hpos : 0 < 10 ^ 308 * b) by (apply Z.mul_pos_pos; [reflexivity|lia]).
  destruct (dec_exponent_spec 700 308 (10 ^ 308 * b) a Hpos Ha)
    as (k & Hk & Hr & Hk1 & Hk2).
  { change (Z.of_nat 700) with 700. exact Hlo. }
  change (Z.of_nat 700) with 700 in Hk.
  exists k. split; [exact Hk|]. split; [exact Hr|]. split; [exact Hk1|].
  destruct (Z.eq_dec k 0) as [->|Hk0].
  - change (10 ^ 0) with 1. lia.
  - specialize (Hk2 ltac:(lia)).
    replace k with (Z.succ (k - 1)) by lia.
    rewrite Z.pow_succ_r by lia.
    change (10 ^ 309) with (10 * 10 ^ 308). lia.
Qed.

Lemma digits2_pos_bound m : Zpos m < 2 ^ Zpos (digits2_pos m).
Proof.
  induction m as [m IH|m IH|]; cbn [digits2_pos].
  - rewrite Pos2Z.inj_succ, Z.pow_succ_r by lia. lia.
  - rewrite Pos2Z.inj_succ, Z.pow_succ_r by lia. lia.
  - reflexivity.
Qed.

(** Every finite binary64 value is within the reach of the search. *)
Lemma bounded_in_reach m e :
  bounded prec emax m e = true ->
  let '(a, b) := fraction m e in
  0 < a /\ 0 < b /\ 10 ^ 308 * b <= a * 10 ^ 700 /\ a < 10 ^ 309 * b.
Proof.
  unfold bounded, canonical_mantissa, fexp, emin, prec, emax.
  intros H. apply andb_true_iff in H as [Hc He].
  apply Z.eqb_eq in Hc. apply Z.leb_le in He.
  pose proof (digits2_pos_bound m) as Hm.
  assert (Hd : Zpos (digits2_pos m) <= 53) by lia.
  assert (Hel : -1074 <= e) by lia.
  assert (Hm53 : Zpos m < 2 ^ 53).
  { eapply Z.lt_le_trans; [exact Hm|].
    apply Z.pow_le_mono_r; lia. }
  unfold fraction. destruct (Z.leb_spec 0 e) as [Hpos|Hneg].
  - assert (Hp : 1 <= 2 ^ e) by (apply Z.pow_pos_nonneg with (a := 2) in Hpos; lia).
    assert (Hp2 : 2 ^ e <= 2 ^ 971) by (apply Z.pow_le_mono_r; lia).
    assert (H308 : 10 ^ 308 <= 10 ^ 700) by (vm_compute; discriminate).
    assert (H1024 : 2 ^ 53 * 2 ^ 971 < 10 ^ 309) by (vm_compute; reflexivity).
    split; [nia|]. split; [lia|]. split; [nia|nia].
  - assert (Hp : 0 < 2 ^ (- e)) by (apply Z.pow_pos_nonneg; lia).
    assert (Hp2 : 2 ^ (- e) <= 2 ^ 1074) by (apply Z.pow_le_mono_r; lia).
    assert (H700 : 10 ^ 308 * 2 ^ 1074 <= 10 ^ 700) by (vm_compute; discriminate).
    assert (H309 : 2 ^ 53 < 10 ^ 309) by (vm_compute; reflexivity).
    split; [lia|]. split; [lia|]. split; [nia|nia].
Qed.

(** The fuel of the exponent search is enough for every finite
    binary64 value: the search returns the decimal exponent of the
    value. *)
Lemma exponent10_finite m e :
  bounded prec emax m e = true ->
  let '(a, b) := fraction m e in
  exists k, 0 <= k <= 700 /\
            exponent10 a b = 308 - k /\
            10 ^ 308 * b <= a * 10 ^ k /\
            a * 10 ^ k < 10 ^ 309 * b.
Proof.
  intros H. pose proof (bounded_in_reach m e H) as Hr.
  destruct (fraction m e) as [a b].
  destruct Hr as (Ha & Hb & Hlo & Hhi).
  apply exponent10_spec; assumption.
Qed.

(** The text of a finite value is its sign followed by the layout of a
    digit string of at most 15 digits. *)
Lemma format_15g_digits s m e :
  exists ds x10,
    format_15g (S754_finite s m e) = sign_str s +:+ layout ds x10 /\
    (String.length ds <= 15)%nat.
Proof.
  unfold format_15g.
  destruct (fraction m e) as [a b].
  destruct (round15 a b) as [n x10].
  exists (strip_zeros (digits_of 15 n)), x10. split; [reflexivity|].
  pose proof (strip_zeros_length (digits_of 15 n)) as H.
  rewrite digits_of_length in H. exact H.
Qed.
End FormatFacts.

(* ===================================================================== *)
(** * Logged computations and loops *)
(* ===================================================================== *)

Section LoggedFacts.
Context {A B : Type}.

Lemma bind_fst (c : Log.Logged A) (k : A -> Log.Logged B) :
  fst (Log.bind c k) = fst (k (fst c)).
Proof. destruct c as [a l]; unfold Log.bind; simpl. destruct (k a); reflexivity. Qed.

Lemma bind_snd (c : Log.Logged A) (k : A -> Log.Logged B) :
  snd (Log.bind c k) = (snd c ++ snd (k (fst c)))%list.
Proof. destruct c as [a l]; unfold Log.bind; simpl. destruct (k a); reflexivity. Qed.

End LoggedFacts.

Section LoopFacts.
Context {A X : Type}.

Lemma for_each_fst (body : A -> X -> Log.Logged A) (xs : list X) (a : A) :
  fst (Log.for_each body xs a) = fold_left (fun a x => fst (body a x)) xs a.
Proof.
  revert a; induction xs as [|x xs IH]; intros a; cbn [Log.for_each fold_left];
    [reflexivity|].
  rewrite bind_fst. apply IH.
Qed.

(** When the records a loop body emits do not depend on the loop
    state, the log of the loop is the logs of its items in order. *)
Lemma for_each_snd (body : A -> X -> Log.Logged A)
      (item_log : X -> list Log.record) (xs : list X) (a : A) :
  (forall a x, snd (body a x) = item_log x) ->
  snd (Log.for_each body xs a) = concat (map item_log xs).
Proof.
  intros Hlog. revert a; induction xs as [|x xs IH]; intros a;
    cbn [Log.for_each map concat]; [reflexivity|].
  rewrite bind_snd, Hlog, IH. reflexivity.
Qed.
End LoopFacts.

(* ===================================================================== *)
(** * Dictionaries *)
(* ===================================================================== *)

Local Open Scope list_scope.

Section DictFacts.
Context {V : Type}.
Implicit Types (d : PyDict.dict V) (k : string) (v : V).

Lemma get_set_eq k v d : PyDict.get k (PyDict.set k v d) = Some v.
Proof.
  induction d as [|[k' v'] d IH]; simpl.
  - rewrite String.eqb_refl. reflexivity.
  - destruct (String.eqb_spec k k') as [->|Hne]; simpl.
    + rewrite String.eqb_refl. reflexivity.
    + destruct (String.eqb_spec k k'); [contradiction|exact IH].
Qed.

Lemma get_set_ne k k' v d :
  k <> k' -> PyDict.get k' (PyDict.set k v d) = PyDict.get k' d.
Proof.
  intros Hne. induction d as [|[k1 v1] d IH]; simpl.
  - destruct (String.eqb_spec k' k); [congruence|reflexivity].
  - destruct (String.eqb_spec k k1) as [->|Hk]; simpl.
    + destruct (String.eqb_spec k' k1); [congruence|reflexivity].
    + destruct (String.eqb_spec k' k1); [reflexivity|exact IH].
Qed.

Lemma get_Some_elem k v d : PyDict.get k d = Some v -> (k, v) ∈ d.
Proof.
  induction d as [|[k' v'] d IH]; simpl; [discriminate|].
  destruct (String.eqb_spec k k') as [->|Hne].
  - intros [= ->]. apply elem_of_cons; left; reflexivity.
  - intros H. apply elem_of_cons; right. exact (IH H).
Qed.

Lemma get_None_keys k d : PyDict.get k d = None <-> k ∉ PyDict.keys d.
Proof.
  unfold PyDict.keys.
  induction d as [|[k' v'] d IH]; simpl.
  - split; [intros _; apply not_elem_of_nil|reflexivity].
  - rewrite not_elem_of_cons.
    destruct (String.eqb_spec k k') as [->|Hne].
    + split; [discriminate|]. intros [H _]; congruence.
    + rewrite IH. tauto.
Qed.

Lemma elem_keys_get k d : k ∈ PyDict.keys d -> exists v, PyDict.get k d = Some v.
Proof.
  intros Hin. destruct (PyDict.get k d) as [v|] eqn:E; [eauto|].
  apply get_None_keys in E. contradiction.
Qed.

Lemma get_Some_keys k v d : PyDict.get k d = Some v -> k ∈ PyDict.keys d.
Proof.
  intros H. apply get_Some_elem in H.
  apply (list_elem_of_fmap_2 fst) in H. exact H.
Qed.

Lemma elem_get_nodup k v d :
  NoDup (PyDict.keys d) -> (k, v) ∈ d -> PyDict.get k d = Some v.
Proof.
  unfold PyDict.keys.
  induction d as [|[k' v'] d IH]; simpl.
  - intros _ H. apply elem_of_nil in H. contradiction.
  - rewrite NoDup_cons, elem_of_cons. intros [Hnot Hnd] [E|Hin].
    + injection E as -> ->. rewrite String.eqb_refl. reflexivity.
    + destruct (String.eqb_spec k k') as [->|Hne].
      * exfalso. apply Hnot. apply (list_elem_of_fmap_2 fst) in Hin. exact Hin.
      * apply IH; assumption.
Qed.

(** Assigning to a present key keeps the keys and their order;
    assigning to a new key appends it. *)
Lemma keys_set_in k v d :
  k ∈ PyDict.keys d -> PyDict.keys (PyDict.set k v d) = PyDict.keys d.
Proof.
  unfold PyDict.keys.
  induction d as [|[k' v'] d IH]; simpl.
  - intros H. apply elem_of_nil in H. contradiction.
  - rewrite elem_of_cons. intros Hin.
    destruct (String.eqb_spec k k') as [->|Hne]; simpl.
    + reflexivity.
    + f_equal. apply IH. destruct Hin; [congruence|assumption].
Qed.

Lemma keys_set_notin k v d :
  k ∉ PyDict.keys d ->
  PyDict.keys (PyDict.set k v d) = PyDict.keys d ++ [k].
Proof.
  unfold PyDict.keys.
  induction d as [|[k' v'] d IH]; simpl; [reflexivity|].
  rewrite not_elem_of_cons. intros [Hne Hnot].
  destruct (String.eqb_spec k k') as [->|_]; simpl; [congruence|].
  f_equal. apply IH. exact Hnot.
Qed.

Lemma nodup_keys_set k v d :
  NoDup (PyDict.keys d) -> NoDup (PyDict.keys (PyDict.set k v d)).
Proof.
  intros Hnd. destruct (decide (k ∈ PyDict.keys d)) as [Hin|Hnot].
  - rewrite keys_set_in by exact Hin. exact Hnd.
  - rewrite keys_set_notin by exact Hnot.
    apply NoDup_app. split; [exact Hnd|]. split.
    + intros x Hx Hk. apply list_elem_of_singleton in Hk. congruence.
    + apply NoDup_singleton.
Qed.

(** Assigning to the key of an entry in the middle of a dictionary
    whose earlier keys differ replaces that entry in place. *)
Lemma set_middle k v v0 (pre post : PyDict.dict V) :
  k ∉ PyDict.keys pre ->
  PyDict.set k v (pre ++ (k, v0) :: post) = pre ++ (k, v) :: post.
Proof.
  unfold PyDict.keys.
  induction pre as [|[k' v'] pre IH]; simpl.
  - intros _. rewrite String.eqb_refl. reflexivity.
  - rewrite not_elem_of_cons. intros [Hne Hnot].
    destruct (String.eqb_spec k k') as [->|_]; [congruence|].
    f_equal. apply IH. exact Hnot.
Qed.
End DictFacts.

(* ===================================================================== *)
(** * The frame of a message *)
(* ===================================================================== *)

Lemma fold_left_ext {A X} (f g : A -> X -> A) (xs : list X) (a : A) :
  (forall a x, f a x = g a x) -> fold_left f xs a = fold_left g xs a.
Proof.
  intros Hfg. revert a; induction xs as [|x xs IH]; intros a; simpl;
    [reflexivity|].
  rewrite Hfg. apply IH.
Qed.

Lemma filter_all {A} (P : A -> Prop) `{!forall x, Decision (P x)} (l : list A) :
  (forall x, x ∈ l -> P x) -> filter P l = l.
Proof.
  induction l as [|a l IH]; intros Hall; [reflexivity|].
  rewrite filter_cons_True by (apply Hall, elem_of_cons; left; reflexivity).
  f_equal. apply IH. intros x Hx. apply Hall, elem_of_cons. right; exact Hx.
Qed.

Section FrameFacts.
Import PyFloat.

Lemma frame_of_build msg : frame_of msg = build (Re.findall msg) [].
Proof.
  unfold frame_of, PyDict.comprehension, build.
  rewrite for_each_fst. apply fold_left_ext.
  intros d [k s]. rewrite bind_fst. reflexivity.
Qed.

Lemma first_occurrences_elem (l : list string) x :
  x ∈ Spec.first_occurrences l <-> x ∈ l.
Proof.
  induction l as [|y l IH]; simpl; [reflexivity|].
  rewrite !elem_of_cons, list_elem_of_filter, IH.
  destruct (decide (x = y)); tauto.
Qed.

Lemma first_occurrences_nodup (l : list string) :
  NoDup (Spec.first_occurrences l).
Proof.
  induction l as [|y l IH]; simpl; [constructor|].
  apply NoDup_cons. split.
  - rewrite list_elem_of_filter. tauto.
  - apply NoDup_filter. exact IH.
Qed.

Lemma first_occurrences_id (l : list string) :
  NoDup l -> Spec.first_occurrences l = l.
Proof.
  induction l as [|y l IH]; simpl; [reflexivity|].
  rewrite NoDup_cons. intros [Hnot Hnd]. rewrite IH by exact Hnd.
  f_equal. apply filter_all. intros x Hx ->. contradiction.
Qed.

Lemma keys_build pairs d :
  PyDict.keys (build pairs d) =
  PyDict.keys d ++
    filter (fun k => k ∉ PyDict.keys d) (Spec.first_occurrences (fst <$> pairs)).
Proof.
  revert d; induction pairs as [|[k s] pairs IH]; intros d; simpl.
  - rewrite filter_nil, app_nil_r. reflexivity.
  - unfold build in *. simpl. rewrite IH. clear IH.
    set (U := Spec.first_occurrences (fst <$> pairs)).
    destruct (decide (k ∈ PyDict.keys d)) as [Hin|Hnot].
    + rewrite keys_set_in by exact Hin.
      rewrite filter_cons_False by tauto.
      f_equal. rewrite list_filter_filter.
      apply list_filter_iff. intros x. split; [|tauto].
      intros Hx. split; [exact Hx|]. intros ->. contradiction.
    + rewrite keys_set_notin by exact Hnot.
      rewrite filter_cons_True by exact Hnot.
      rewrite <- app_assoc. simpl. do 2 f_equal.
      rewrite list_filter_filter.
      apply list_filter_iff. intros x.
      rewrite elem_of_app, list_elem_of_singleton. tauto.
Qed.

Lemma get_build k pairs d :
  PyDict.get k (build pairs d) =
  match Spec.last_value k pairs with
  | Some s => Some (parse_value s)
  | None => PyDict.get k d
  end.
Proof.
  revert d; induction pairs as [|[k' s] pairs IH]; intros d; simpl;
    [reflexivity|].
  unfold build in *. simpl. rewrite IH.
  destruct (Spec.last_value k pairs); [reflexivity|].
  destruct (String.eqb_spec k k') as [->|Hne].
  - apply get_set_eq.
  - apply get_set_ne. congruence.
Qed.

(** The keys of the frame are the captured identifiers in the order of
    their first occurrence, each once. *)
Lemma keys_frame msg :
  PyDict.keys (frame_of msg) = Spec.first_occurrences (fst <$> Re.findall msg).
Proof.
  rewrite frame_of_build, keys_build. simpl.
  apply filter_all. intros x _. apply not_elem_of_nil.
Qed.

Lemma nodup_keys_frame msg : NoDup (PyDict.keys (frame_of msg)).
Proof. rewrite keys_frame. apply first_occurrences_nodup. Qed.

(** Each key of the frame carries the value of its last pair. *)
Lemma get_frame msg k :
  PyDict.get k (frame_of msg) = parse_value <$> Spec.last_value k (Re.findall msg).
Proof.
  rewrite frame_of_build, get_build.
  destruct (Spec.last_value k (Re.findall msg)); reflexivity.
Qed.

Lemma last_value_elem {V} k (pairs : list (string * V)) :
  is_Some (Spec.last_value k pairs) <-> k ∈ fst <$> pairs.
Proof.
  induction pairs as [|[k' v] pairs IH]; simpl.
  - rewrite elem_of_nil. split; [intros [x Hx]; discriminate|tauto].
  - rewrite elem_of_cons, <- IH.
    destruct (Spec.last_value k pairs) as [v'|].
    + split; eauto.
    + destruct (String.eqb_spec k k') as [->|Hne].
      * split; eauto.
      * split; [intros [x Hx]; discriminate|].
        intros [E|[x Hx]]; [congruence|discriminate].
Qed.

(** Without a repeated identifier the frame is the list of pairs. *)
Lemma build_nodup pairs d :
  NoDup (PyDict.keys d ++ (fst <$> pairs)) ->
  build pairs d = d ++ ((fun kv => (fst kv, parse_value (snd kv))) <$> pairs).
Proof.
  revert d; induction pairs as [|[k s] pairs IH]; intros d Hnd; simpl.
  - rewrite app_nil_r. reflexivity.
  - unfold build in *. simpl.
    assert (Hk : k ∉ PyDict.keys d).
    { apply NoDup_app in Hnd as (_ & Hd & _). intros Hin.
      apply (Hd k Hin). simpl. apply elem_of_cons; left; reflexivity. }
    assert (Hset : PyDict.set k (parse_value s) d = d ++ [(k, parse_value s)]).
    { clear -Hk. unfold PyDict.keys in Hk.
      induction d as [|[k' v'] d IHd]; simpl; [reflexivity|].
      simpl in Hk. apply not_elem_of_cons in Hk as [Hne Hk].
      destruct (String.eqb_spec k k'); [congruence|].
      f_equal. apply IHd. exact Hk. }
    rewrite Hset, IH.
    + rewrite <- app_assoc. reflexivity.
    + unfold PyDict.keys in *. rewrite fmap_app. simpl.
      rewrite <- app_assoc. exact Hnd.
Qed.

Lemma frame_nodup msg :
  NoDup (fst <$> Re.findall msg) ->
  frame_of msg = (fun kv => (fst kv, parse_value (snd kv))) <$> Re.findall msg.
Proof.
  intros Hnd. rewrite frame_of_build, build_nodup; [reflexivity|exact Hnd].
Qed.

Lemma frame_nonempty msg : Re.findall msg <> [] -> frame_of msg <> [].
Proof.
  intros Hne Hf. apply (f_equal PyDict.keys) in Hf.
  rewrite keys_frame in Hf. destruct (Re.findall msg) as [|[k s] l];
    [congruence|discriminate].
Qed.
End FrameFacts.

(* ===================================================================== *)
(** * The conversion of one variable *)
(* ===================================================================== *)

Section ConvertFacts.
Import PyFloat Converter.

Lemma variable_category variable category :
  variable_mappings !! variable = Some category -> category ∈ categories.
Proof.
  intros H. apply elem_of_list_to_map_2 in H.
  repeat (apply elem_of_cons in H as [H|H];
          [injection H as -> ->; vm_compute; set_solver|]).
  apply elem_of_nil in H. contradiction.
Qed.

Ltac eqb_cases :=
  repeat match goal with
    | |- context [String.eqb ?a ?b] =>
        destruct (String.eqb_spec a b); try congruence; try discriminate; subst
    end.

Ltac split_category H :=
  unfold categories in H;
  repeat (apply elem_of_cons in H as [->|H]); [..|apply elem_of_nil in H; contradiction].

Lemma factor_altitude :
  factor_lookup "altitude" "meters_to_feet" = Py.Ok (flit "3.28084").
Proof. vm_compute. reflexivity. Qed.
Lemma factor_kmh :
  factor_lookup "speed" "mps_to_kmh" = Py.Ok (flit "3.6").
Proof. vm_compute. reflexivity. Qed.
Lemma factor_knots :
  factor_lookup "speed" "mps_to_knots" = Py.Ok (flit "1.94384").
Proof. vm_compute. reflexivity. Qed.
Lemma factor_fpm :
  factor_lookup "vario" "mps_to_fpm" = Py.Ok (flit "196.85").
Proof. vm_compute. reflexivity. Qed.
Lemma factor_fps2 :
  factor_lookup "acceleration" "mps2_to_fps2" = Py.Ok (flit "3.28084").
Proof. vm_compute. reflexivity. Qed.

(** The specification's table, entry by entry. *)
Lemma table_factor_eq category u :
  Spec.table_factor category u =
  if String.eqb "altitude" category && String.eqb "feet" u
  then Some (flit "3.28084")
  else if String.eqb "speed" category && String.eqb "kmh" u
  then Some (flit "3.6")
  else if String.eqb "speed" category && String.eqb "knots" u
  then Some (flit "1.94384")
  else if String.eqb "vario" category && String.eqb "fpm" u
  then Some (flit "196.85")
  else if String.eqb "acceleration" category && String.eqb "fps2" u
  then Some (flit "3.28084")
  else None.
Proof. reflexivity. Qed.

(** On the four categories [_convert_variable] computes the category
    rule of the specification. *)
Lemma convert_variable_fst variable value category target :
  category ∈ categories ->
  fst (_convert_variable variable value category target) =
  Spec.category_rule category target value.
Proof.
  intros Hc. unfold _convert_variable. rewrite bind_fst.
  unfold Spec.category_rule.
  split_category Hc; destruct target as [| b | u];
    cbn [String.eqb Ascii.eqb Bool.eqb];
    unfold _convert_altitude, _convert_speed, _convert_vario,
      _convert_acceleration, unknown_unit, scaled;
    rewrite ?factor_altitude, ?factor_kmh, ?factor_knots, ?factor_fpm,
      ?factor_fps2;
    cbn [Py.eq_str]; try reflexivity;
    rewrite table_factor_eq; eqb_cases; reflexivity.
Qed.
End ConvertFacts.

Section ApplyFacts.
Import PyFloat Converter.

Ltac split_category H :=
  unfold categories in H;
  repeat (apply elem_of_cons in H as [->|H]); [..|apply elem_of_nil in H; contradiction].

(** An unrecognized target unit: exactly one record, the warning. *)
Lemma convert_variable_unknown_log variable value category target :
  category ∈ categories ->
  Spec.recognized category target = false ->
  snd (_convert_variable variable value category target) =
  [Spec.unknown_unit_warning category target].
Proof.
  intros Hc Hrec. unfold _convert_variable. rewrite bind_snd.
  split_category Hc; destruct target as [| b | u];
    cbn [String.eqb Ascii.eqb Bool.eqb];
    unfold _convert_altitude, _convert_speed, _convert_vario,
      _convert_acceleration;
    cbn [Py.eq_str]; try reflexivity;
    repeat match goal with
      | |- context [String.eqb u ?b] =>
          destruct (String.eqb_spec u b);
          [subst; vm_compute in Hrec; discriminate|]
      end;
    reflexivity.
Qed.

Lemma category_rule_unchanged category target value :
  snd (Spec.category_rule category target value) = false ->
  fst (Spec.category_rule category target value) = value.
Proof.
  unfold Spec.category_rule. destruct target as [| |u]; try reflexivity.
  destruct (Spec.table_factor category u); [discriminate|reflexivity].
Qed.

Lemma configured_category settings variable category target :
  Spec.configured settings variable = Some (category, target) ->
  variable_mappings !! variable = Some category /\
  target = Py.get settings category /\ Py.truthy target = true.
Proof.
  unfold Spec.configured. destruct (variable_mappings !! variable) as [c|];
    [|discriminate].
  destruct (Py.truthy (Py.get settings c)) eqn:Ht; [|discriminate].
  intros [= <- <-]. auto.
Qed.

Lemma convert_item_fst settings st item :
  fst (convert_item settings st item) = item_effect settings st item.
Proof.
  destruct st as [cd info], item as [k v].
  unfold convert_item, item_effect, Spec.configured. cbn [fst snd].
  destruct (variable_mappings !! k) as [c|] eqn:Hm; [|reflexivity].
  destruct (Py.truthy (Py.get settings c)); cbn [negb]; [|reflexivity].
  rewrite bind_fst, convert_variable_fst by (eapply variable_category; eauto).
  destruct (Spec.category_rule c (Py.get settings c) v) as [v' [|]];
    reflexivity.
Qed.

(** The records of an iteration do not depend on the loop state. *)
Lemma convert_item_snd settings st st' item :
  snd (convert_item settings st item) = snd (convert_item settings st' item).
Proof.
  destruct st as [cd info], st' as [cd' info'], item as [k v].
  unfold convert_item.
  destruct (variable_mappings !! k) as [c|] eqn:Hm; [|reflexivity].
  destruct (Py.truthy (Py.get settings c)); cbn [negb]; [|reflexivity].
  rewrite !bind_snd.
  destruct (_convert_variable k v c (Py.get settings c)) as [[v' [|]] l];
    reflexivity.
Qed.

(** The loop, from a state whose dictionary holds the converted
    entries [pre] followed by the entries [xs] still to visit. *)
Lemma loop_invariant settings xs : forall pre info,
  Spec.enabled settings = true ->
  NoDup (PyDict.keys (pre ++ xs)) ->
  let r := fold_left (item_effect settings) xs
             ((Spec.convert_pair settings <$> pre) ++ xs, info) in
  fst r = Spec.convert_pair settings <$> (pre ++ xs) /\
  info_conversions_applied (snd r) =
    info_conversions_applied info +
    Z.of_nat (length (filter (fun kv => Spec.is_converted settings kv = true) xs)) /\
  info_variables_converted (snd r) =
    info_variables_converted info ++
    (fst <$> filter (fun kv => Spec.is_converted settings kv = true) xs).
Proof.
  induction xs as [|[k v] xs IH]; intros pre info Hen Hnd;
    cbv zeta; cbn [fold_left].
  - rewrite !app_nil_r, filter_nil. cbn [length fmap list_fmap fst snd].
    rewrite ?app_nil_r. repeat split. lia.
  - assert (Hk : k ∉ PyDict.keys (Spec.convert_pair settings <$> pre)).
    { unfold PyDict.keys in *. rewrite <- list_fmap_compose.
      rewrite fmap_app in Hnd. apply NoDup_app in Hnd as (_ & Hd & _).
      intros Hin. apply (Hd k Hin). cbn [fmap list_fmap fst].
      apply elem_of_cons. left; reflexivity. }
    assert (Hnd' : NoDup (PyDict.keys ((pre ++ [(k, v)]) ++ xs)))
      by (rewrite <- app_assoc; exact Hnd).
    assert (Hres : Spec.resolve settings k v =
                   match Spec.configured settings k with
                   | Some (c, t) => Spec.category_rule c t v
                   | None => (v, false)
                   end)
      by (unfold Spec.resolve; rewrite Hen; reflexivity).
    assert (Hstep :
      item_effect settings
        ((Spec.convert_pair settings <$> pre) ++ (k, v) :: xs, info) (k, v) =
      ((Spec.convert_pair settings <$> (pre ++ [(k, v)])) ++ xs,
       if Spec.is_converted settings (k, v)
       then snd (item_effect settings
                   ((Spec.convert_pair settings <$> pre) ++ (k, v) :: xs, info)
                   (k, v))
       else info)).
    { unfold item_effect. cbn [fst snd].
      rewrite fmap_app. cbn [fmap list_fmap].
      change (Spec.convert_pair settings (k, v))
        with (k, fst (Spec.resolve settings k v)).
      change (Spec.is_converted settings (k, v))
        with (snd (Spec.resolve settings k v)).
      rewrite Hres.
      destruct (Spec.configured settings k) as [[c t]|]; cbn [fst snd].
      - destruct (Spec.category_rule c t v) as [v' [|]] eqn:Hr; cbn [fst snd].
        + rewrite set_middle by exact Hk. rewrite <- app_assoc. reflexivity.
        + pose proof (category_rule_unchanged c t v) as Hu.
          rewrite Hr in Hu. cbn [fst snd] in Hu. rewrite Hu by reflexivity.
          rewrite <- app_assoc. reflexivity.
      - rewrite <- app_assoc. reflexivity. }
    rewrite Hstep.
    specialize (IH (pre ++ [(k, v)])
      (if Spec.is_converted settings (k, v)
       then snd (item_effect settings
                   ((Spec.convert_pair settings <$> pre) ++ (k, v) :: xs, info)
                   (k, v))
       else info) Hen Hnd').
    cbv zeta in IH. destruct IH as (IH1 & IH2 & IH3).
    rewrite <- app_assoc in IH1. cbn [app] in IH1.
    split; [exact IH1|].
    rewrite IH2, IH3. rewrite filter_cons.
    unfold item_effect. cbn [fst snd].
    change (Spec.is_converted settings (k, v))
      with (snd (Spec.resolve settings k v)).
    rewrite Hres.
    destruct (Spec.configured settings k) as [[c t]|]; cbn [fst snd].
    + destruct (Spec.category_rule c t v) as [v' [|]]; cbn [fst snd].
      * rewrite decide_True by reflexivity.
        cbn [info_conversions_applied info_variables_converted length fmap list_fmap fst].
        rewrite <- app_assoc. split; [lia|reflexivity].
      * rewrite decide_False by discriminate. split; reflexivity.
    + rewrite decide_False by discriminate. split; reflexivity.
Qed.
End ApplyFacts.

(* ===================================================================== *)
(** * [_apply_conversions], [_rebuild_message] and [process_message] *)
(* ===================================================================== *)

Lemma str_app_assoc (a b c : string) : (a +:+ b) +:+ c = a +:+ (b +:+ c).
Proof. induction a as [|x a IH]; [reflexivity|]. exact (f_equal (String x) IH). Qed.

Lemma str_app_nil_r (a : string) : a +:+ "" = a.
Proof. induction a as [|x a IH]; [reflexivity|]. exact (f_equal (String x) IH). Qed.

Section ProcessFacts.
Import PyFloat Converter.

Lemma resolve_disabled settings k v :
  Spec.enabled settings = false -> Spec.resolve settings k v = (v, false).
Proof. intros H. unfold Spec.resolve. rewrite H. reflexivity. Qed.

Lemma fmap_id_ext {A} (f : A -> A) (l : list A) :
  (forall x, f x = x) -> f <$> l = l.
Proof.
  intros Hf. induction l as [|a l IH]; [reflexivity|].
  cbn [fmap list_fmap]. rewrite Hf. f_equal. exact IH.
Qed.

Lemma filter_none {A} (P : A -> Prop) `{!forall x, Decision (P x)} (l : list A) :
  (forall x, x ∈ l -> ~ P x) -> filter P l = [].
Proof.
  induction l as [|a l IH]; intros Hn; [reflexivity|].
  rewrite filter_cons_False by (apply Hn, elem_of_cons; left; reflexivity).
  apply IH. intros x Hx. apply Hn, elem_of_cons. right; exact Hx.
Qed.

(** [_apply_conversions] computes, entry by entry, the conversion
    resolution of the specification. *)
Lemma apply_conversions_fst self data :
  NoDup (PyDict.keys data) ->
  let s := conversion_settings self in
  let r := fst (_apply_conversions self data) in
  fst r = Spec.convert_pair s <$> data /\
  info_conversions_applied (snd r) =
    Z.of_nat (length (Spec.converted_entries s data)) /\
  info_variables_converted (snd r) = fst <$> Spec.converted_entries s data.
Proof.
  intros Hnd s r. subst r. unfold _apply_conversions, Spec.converted_entries.
  fold s. change (Py.truthy (Py.get_default s "enabled" (Py.VBool true)))
    with (Spec.enabled s).
  destruct (Spec.enabled s) eqn:Hen; cbn [negb].
  - rewrite for_each_fst.
    rewrite (fold_left_ext _ (item_effect s)) by (intros; apply convert_item_fst).
    pose proof (loop_invariant s data [] empty_record Hen Hnd) as H.
    cbv zeta in H. cbn [app fmap list_fmap] in H.
    destruct H as (H1 & H2 & H3). split; [exact H1|]. split.
    + etransitivity; [exact H2|reflexivity].
    + etransitivity; [exact H3|reflexivity].
  - cbn [Log.ret fst snd]. split; [|split].
    + symmetry. apply fmap_id_ext. intros [k v].
      unfold Spec.convert_pair. rewrite resolve_disabled by exact Hen.
      reflexivity.
    + rewrite filter_none; [reflexivity|].
      intros [k v] _. unfold Spec.is_converted.
      rewrite resolve_disabled by exact Hen. discriminate.
    + rewrite filter_none; [reflexivity|].
      intros [k v] _. unfold Spec.is_converted.
      rewrite resolve_disabled by exact Hen. discriminate.
Qed.

Lemma apply_conversions_snd self data :
  Spec.enabled (conversion_settings self) = true ->
  snd (_apply_conversions self data) =
  concat (map (fun item =>
                 snd (convert_item (conversion_settings self)
                        (data, empty_record) item)) data).
Proof.
  intros Hen. unfold _apply_conversions.
  change (Py.truthy (Py.get_default (conversion_settings self) "enabled"
                       (Py.VBool true)))
    with (Spec.enabled (conversion_settings self)).
  rewrite Hen. cbn [negb].
  apply for_each_snd. intros a x. apply convert_item_snd.
Qed.

(** Joining with CRLF and appending CRLF terminates every line. *)
Lemma rebuild_serialize (data : PyDict.dict float) :
  data <> [] -> _rebuild_message data = Spec.serialize data.
Proof.
  unfold _rebuild_message.
  induction data as [|[k v] data IH]; [congruence|]. intros _.
  destruct data as [|kv data].
  - cbn [map PyStr.join Spec.serialize render fst snd].
    unfold render. cbn [fst snd].
    rewrite !str_app_assoc, str_app_nil_r. reflexivity.
  - specialize (IH ltac:(discriminate)).
    change (map render ((k, v) :: kv :: data))
      with (render (k, v) :: map render (kv :: data)).
    change (PyStr.join PyStr.CRLF (render (k, v) :: map render (kv :: data)))
      with (render (k, v) +:+ PyStr.CRLF +:+
            PyStr.join PyStr.CRLF (map render (kv :: data))).
    change (Spec.serialize ((k, v) :: kv :: data))
      with (k +:+ "=" +:+ format_15g v +:+ PyStr.CRLF +:+
            Spec.serialize (kv :: data)).
    rewrite <- IH. unfold render. cbn [fst snd].
    rewrite !str_app_assoc. reflexivity.
Qed.

Lemma serialize_app (a b : PyDict.dict float) :
  Spec.serialize (a ++ b) = Spec.serialize a +:+ Spec.serialize b.
Proof.
  induction a as [|[k v] a IH]; [reflexivity|].
  cbn [app Spec.serialize]. rewrite IH.
  rewrite !str_app_assoc. reflexivity.
Qed.

(** [process_message] on a message with at least one pair. *)
Lemma process_message_pairs self msg :
  Re.findall msg <> [] ->
  let r := process_message self msg in
  out_message r = Spec.serialize (emitted self msg) /\
  out_info r = InfoOk (emitted_info self msg) /\
  out_converter r =
    (if 0 <? info_conversions_applied (emitted_info self msg) then
       Build (conversion_settings self)
             (conversions_applied self +
              info_conversions_applied (emitted_info self msg))
             (variables_converted self
                ∪ list_to_set (info_variables_converted (emitted_info self msg)))
     else self) /\
  out_log r =
    snd (PyDict.comprehension _convert_value (Re.findall msg)) ++
    snd (_apply_conversions self (frame_of msg)).
Proof.
  intros Hne r. subst r.
  unfold out_message, out_info, out_converter, out_log, emitted,
    emitted_info, frame_of, process_message.
  destruct (Re.findall msg) as [|p ps] eqn:Hf; [congruence|].
  cbv beta zeta iota.
  assert (Hc : fst (PyDict.comprehension _convert_value (p :: ps)) = frame_of msg)
    by (unfold frame_of; rewrite Hf; reflexivity).
  destruct (PyDict.comprehension _convert_value (p :: ps)) as [d lc].
  cbn [fst snd] in Hc. subst d.
  pose proof (apply_conversions_fst self (frame_of msg) (nodup_keys_frame msg))
    as H.
  cbv zeta in H. destruct H as (H1 & _).
  unfold Log.bind, Log.ret. cbn [fst snd].
  destruct (_apply_conversions self (frame_of msg)) as [[cd info] l].
  cbn [fst snd] in *. rewrite !app_nil_r.
  repeat split.
  rewrite rebuild_serialize; [reflexivity|].
  rewrite H1. intros Hnil. apply fmap_nil_inv in Hnil.
  apply (frame_nonempty msg); [congruence|exact Hnil].
Qed.

Lemma process_message_no_pairs self msg :
  Re.findall msg = [] ->
  process_message self msg =
  Log.ret (msg, InfoError "No key=value pairs found", self).
Proof. intros H. unfold process_message. rewrite H. reflexivity. Qed.

(** The emitted dictionary is the frame with every entry resolved. *)
Lemma emitted_spec self msg :
  emitted self msg =
  Spec.convert_pair (conversion_settings self) <$> frame_of msg.
Proof.
  unfold emitted.
  apply (apply_conversions_fst self (frame_of msg)), nodup_keys_frame.
Qed.

Lemma keys_emitted self msg :
  PyDict.keys (emitted self msg) = PyDict.keys (frame_of msg).
Proof.
  rewrite emitted_spec. unfold PyDict.keys.
  rewrite <- list_fmap_compose. reflexivity.
Qed.

Lemma get_fmap_convert s k (d : PyDict.dict float) :
  PyDict.get k (Spec.convert_pair s <$> d) =
  (fun v => fst (Spec.resolve s k v)) <$> PyDict.get k d.
Proof.
  induction d as [|[k' v'] d IH]; [reflexivity|].
  cbn [fmap list_fmap PyDict.get Spec.convert_pair fst snd].
  destruct (String.eqb_spec k k') as [->|Hne]; [reflexivity|exact IH].
Qed.

Lemma get_emitted self msg k :
  PyDict.get k (emitted self msg) =
  (fun v => fst (Spec.resolve (conversion_settings self) k v))
    <$> PyDict.get k (frame_of msg).
Proof. rewrite emitted_spec. apply get_fmap_convert. Qed.
End ProcessFacts.

(* ===================================================================== *)
(** * Properties of the converter *)
(* ===================================================================== *)

Section ConverterProperties.
Import PyFloat Converter.

Lemma frame_get_findall msg k v :
  PyDict.get k (frame_of msg) = Some v -> Re.findall msg <> [].
Proof.
  intros H Hnil. unfold frame_of in H. rewrite Hnil in H. discriminate.
Qed.

Lemma emits_of_get self msg k v :
  Re.findall msg <> [] ->
  PyDict.get k (emitted self msg) = Some v ->
  Spec.emits (out_message (process_message self msg)) k v.
Proof.
  intros Hne Hget.
  destruct (process_message_pairs self msg Hne) as (Hout & _).
  apply get_Some_elem, list_elem_of_split in Hget as (pre & post & Hsplit).
  exists pre, post. rewrite Hout, Hsplit. reflexivity.
Qed.

Lemma resolve_configured s k v category target :
  Spec.enabled s = true ->
  variable_mappings !! k = Some category ->
  Py.get s category = target ->
  Py.truthy target = true ->
  Spec.resolve s k v = Spec.category_rule category target v.
Proof.
  intros Hen Hm Ht Htr. unfold Spec.resolve, Spec.configured.
  rewrite Hen, Hm, Ht, Htr. reflexivity.
Qed.

Lemma resolve_unmapped s k v :
  variable_mappings !! k = None -> Spec.resolve s k v = (v, false).
Proof.
  intros Hm. unfold Spec.resolve, Spec.configured. rewrite Hm.
  destruct (Spec.enabled s); reflexivity.
Qed.

Lemma table_factor_truthy category u factor :
  Spec.table_factor category u = Some factor -> Py.truthy (Py.VStr u) = true.
Proof.
  destruct u; [|reflexivity]. rewrite table_factor_eq.
  rewrite !andb_false_r. discriminate.
Qed.

(** C1.  Every variable of the frame whose category is enabled and
    configured with a supported target of the factor table (altitude to
    feet 3.28084, speed to kmh 3.6, speed to knots 1.94384, vario to fpm
    196.85, acceleration to fps2 3.28084) is emitted with its value
    multiplied by the table factor; and [altitude=100.0] with target
    feet is emitted as [altitude=328.084]. *)
Theorem process_message_applies_table_factor :
  (forall self msg k v category unit factor,
      PyDict.get k (frame_of msg) = Some v ->
      variable_mappings !! k = Some category ->
      Spec.enabled (conversion_settings self) = true ->
      conversion_settings self !! category = Some (Py.VStr unit) ->
      Spec.table_factor category unit = Some factor ->
      PyDict.get k (emitted self msg) = Some (mul v factor) /\
      Spec.emits (out_message (process_message self msg)) k (mul v factor)) /\
  out_message (process_message (init feet_settings) "altitude=100.0")
  = "altitude=328.084" +:+ PyStr.CRLF.
Proof.
  split; [|vm_compute; reflexivity].
  intros self msg k v category unit factor Hget Hm Hen Hs Hf.
  assert (Hval : PyDict.get k (emitted self msg) = Some (mul v factor)).
  { rewrite get_emitted, Hget. cbn [fmap option_fmap option_map].
    rewrite (resolve_configured _ k v category (Py.VStr unit)); auto.
    - unfold Spec.category_rule. rewrite Hf. reflexivity.
    - unfold Py.get. rewrite Hs. reflexivity.
    - eapply table_factor_truthy; eauto. }
  split; [exact Hval|].
  apply emits_of_get; [eapply frame_get_findall; eauto|exact Hval].
Qed.

Lemma process_message_applies_table_factor_witness :
  PyDict.get "altitude" (frame_of "altitude=100.0") = Some (flit "100.0") /\
  PyDict.get "altitude" (emitted (init feet_settings) "altitude=100.0")
  = Some (mul (flit "100.0") (flit "3.28084")) /\
  Spec.emits (out_message (process_message (init feet_settings) "altitude=100.0"))
    "altitude" (mul (flit "100.0") (flit "3.28084")).
Proof.
  split; [vm_compute; reflexivity|].
  apply (proj1 process_message_applies_table_factor
           (init feet_settings) "altitude=100.0" "altitude" (flit "100.0")
           "altitude" "feet" (flit "3.28084"));
    vm_compute; reflexivity.
Defined.

(** C7.  A variable of the frame that the variable-category mapping
    does not list is emitted with the very value parsed for it,
    whatever the settings. *)
Theorem process_message_passes_unmapped_through :
  forall self msg k v,
    PyDict.get k (frame_of msg) = Some v ->
    variable_mappings !! k = None ->
    PyDict.get k (emitted self msg) = Some v /\
    Spec.emits (out_message (process_message self msg)) k v.
Proof.
  intros self msg k v Hget Hm.
  assert (Hval : PyDict.get k (emitted self msg) = Some v).
  { rewrite get_emitted, Hget. cbn [fmap option_fmap option_map].
    rewrite resolve_unmapped by exact Hm. reflexivity. }
  split; [exact Hval|].
  apply emits_of_get; [eapply frame_get_findall; eauto|exact Hval].
Qed.

Lemma process_message_passes_unmapped_through_witness :
  PyDict.get "time" (frame_of "time=17.0000042330833 altitude=100.0")
  = Some (flit "17.0000042330833") /\
  PyDict.get "time"
    (emitted (init feet_settings) "time=17.0000042330833 altitude=100.0")
  = Some (flit "17.0000042330833") /\
  Spec.emits
    (out_message (process_message (init feet_settings)
                    "time=17.0000042330833 altitude=100.0"))
    "time" (flit "17.0000042330833").
Proof.
  split; [vm_compute; reflexivity|].
  apply (process_message_passes_unmapped_through (init feet_settings)
           "time=17.0000042330833 altitude=100.0" "time"
           (flit "17.0000042330833"));
    vm_compute; reflexivity.
Defined.
End ConverterProperties.
Section UnitProperties.
Import PyFloat Converter.

Lemma elem_of_concat_map {A B} (f : A -> list B) (l : list A) x y :
  x ∈ l -> y ∈ f x -> y ∈ concat (map f l).
Proof.
  intros Hx Hy. induction l as [|a l IH].
  - apply elem_of_nil in Hx. contradiction.
  - cbn [map concat]. apply elem_of_app.
    apply elem_of_cons in Hx as [->|Hx]; [left; exact Hy|right; exact (IH Hx)].
Qed.

Lemma category_rule_unrecognized category target v :
  Spec.recognized category target = false ->
  Spec.category_rule category target v = (v, false).
Proof.
  unfold Spec.recognized, Spec.category_rule.
  destruct target as [| |u]; try reflexivity.
  intros H. apply orb_false_elim in H as [_ H].
  apply bool_decide_eq_false in H.
  destruct (Spec.table_factor category u) as [f|]; [|reflexivity].
  exfalso. apply H. eauto.
Qed.

(** The variables recorded as converted are those of the entries the
    resolution converts, and they are counted one by one. *)
Lemma emitted_info_spec self msg :
  info_variables_converted (emitted_info self msg) =
    fst <$> Spec.converted_entries (conversion_settings self) (frame_of msg) /\
  info_conversions_applied (emitted_info self msg) =
    Z.of_nat (length (info_variables_converted (emitted_info self msg))).
Proof.
  destruct (apply_conversions_fst self (frame_of msg) (nodup_keys_frame msg))
    as (_ & H2 & H3).
  unfold emitted_info. split; [exact H3|].
  rewrite H2, H3, length_fmap. reflexivity.
Qed.

Lemma not_converted_not_listed self msg k v :
  PyDict.get k (frame_of msg) = Some v ->
  snd (Spec.resolve (conversion_settings self) k v) = false ->
  k ∉ info_variables_converted (emitted_info self msg).
Proof.
  intros Hget Hres Hin.
  rewrite (proj1 (emitted_info_spec self msg)) in Hin.
  apply list_elem_of_fmap in Hin as ([k' v'] & Hk & Hin). cbn [fst] in Hk. subst k'.
  unfold Spec.converted_entries in Hin.
  apply list_elem_of_filter in Hin as [Hconv Hin].
  apply (elem_get_nodup _ _ _ (nodup_keys_frame msg)) in Hin.
  rewrite Hget in Hin. injection Hin as <-.
  unfold Spec.is_converted in Hconv. cbn [fst snd] in Hconv. congruence.
Qed.

Lemma converter_total self msg :
  Re.findall msg <> [] ->
  conversions_applied (out_converter (process_message self msg)) =
  conversions_applied self + info_conversions_applied (emitted_info self msg).
Proof.
  intros Hne. destruct (process_message_pairs self msg Hne) as (_ & _ & Hc & _).
  rewrite Hc.
  destruct (Z.ltb_spec 0 (info_conversions_applied (emitted_info self msg)))
    as [Hlt|Hge]; [reflexivity|].
  rewrite (proj2 (emitted_info_spec self msg)) in *. lia.
Qed.

(** C8, as stated, fails on the warning: with conversions disabled a
    target unit that is neither the source unit nor a supported target
    leaves the value unchanged and uncounted, but nothing is logged. *)
Lemma unknown_unit_silent_when_disabled :
  let self := init disabled_yards_settings in
  let msg := "altitude=100.0" in
  let r := process_message self msg in
  PyDict.get "altitude" (frame_of msg) = Some (flit "100.0") /\
  variable_mappings !! "altitude" = Some "altitude" /\
  Py.get (conversion_settings self) "altitude" = Py.VStr "yards" /\
  Py.truthy (Py.VStr "yards") = true /\
  Spec.recognized "altitude" (Py.VStr "yards") = false /\
  out_message r = "altitude=100" +:+ PyStr.CRLF /\
  out_log r = [] /\
  ~ (Spec.unknown_unit_warning "altitude" (Py.VStr "yards") ∈ out_log r).
Proof.
  assert (Hlog : out_log (process_message (init disabled_yards_settings)
                            "altitude=100.0") = [])
    by (vm_compute; reflexivity).
  cbv zeta. rewrite Hlog.
  repeat (split; [vm_compute; reflexivity|]).
  apply not_elem_of_nil.
Qed.

(** C8, amended.  With conversions enabled, a variable whose category
    is configured with a target unit that is neither the source unit
    nor a supported target keeps its value; the warning of its category
    is logged; the variable is not listed as converted and the
    conversions-applied counters count the listed variables only.  With
    conversions disabled every value is kept, nothing is counted, and
    the conversion logs nothing. *)
Theorem unknown_unit_is_noop :
  (forall self msg k v category target,
      PyDict.get k (frame_of msg) = Some v ->
      variable_mappings !! k = Some category ->
      Spec.enabled (conversion_settings self) = true ->
      Py.get (conversion_settings self) category = target ->
      Py.truthy target = true ->
      Spec.recognized category target = false ->
      let r := process_message self msg in
      PyDict.get k (emitted self msg) = Some v /\
      Spec.emits (out_message r) k v /\
      (Spec.unknown_unit_warning category target ∈ out_log r) /\
      out_info r = InfoOk (emitted_info self msg) /\
      (k ∉ info_variables_converted (emitted_info self msg)) /\
      info_conversions_applied (emitted_info self msg) =
        Z.of_nat (length (info_variables_converted (emitted_info self msg))) /\
      conversions_applied (out_converter r) =
        conversions_applied self +
        Z.of_nat (length (info_variables_converted (emitted_info self msg)))) /\
  (forall self msg,
      Spec.enabled (conversion_settings self) = false ->
      emitted self msg = frame_of msg /\
      info_variables_converted (emitted_info self msg) = [] /\
      info_conversions_applied (emitted_info self msg) = 0 /\
      snd (_apply_conversions self (frame_of msg)) = []).
Proof.
  split.
  - intros self msg k v category target Hget Hm Hen Ht Htr Hrec r. subst r.
    pose proof (frame_get_findall msg k v Hget) as Hne.
    assert (Hres : Spec.resolve (conversion_settings self) k v = (v, false)).
    { rewrite (resolve_configured _ k v category target); auto.
      apply category_rule_unrecognized. exact Hrec. }
    assert (Hval : PyDict.get k (emitted self msg) = Some v).
    { rewrite get_emitted, Hget. cbn [fmap option_fmap option_map].
      rewrite Hres. reflexivity. }
    destruct (process_message_pairs self msg Hne) as (_ & Hinfo & _ & Hlog).
    split; [exact Hval|].
    split; [apply emits_of_get; assumption|].
    split.
    { rewrite Hlog. apply elem_of_app. right.
      rewrite apply_conversions_snd by exact Hen.
      eapply elem_of_concat_map; [apply get_Some_elem; exact Hget|].
      unfold convert_item. rewrite Hm, Ht, Htr. cbn [negb].
      rewrite bind_snd. apply elem_of_app. left.
      rewrite convert_variable_unknown_log;
        [apply list_elem_of_singleton; reflexivity
        |eapply variable_category; eauto|exact Hrec]. }
    split; [exact Hinfo|].
    split; [eapply not_converted_not_listed; eauto; rewrite Hres; reflexivity|].
    split; [apply emitted_info_spec|].
    rewrite converter_total by exact Hne.
    rewrite (proj2 (emitted_info_spec self msg)). reflexivity.
  - intros self msg Hen.
    assert (Hvars : info_variables_converted (emitted_info self msg) = []).
    { rewrite (proj1 (emitted_info_spec self msg)).
      unfold Spec.converted_entries. rewrite filter_none; [reflexivity|].
      intros [k v] _. unfold Spec.is_converted.
      rewrite resolve_disabled by exact Hen. discriminate. }
    split.
    { rewrite emitted_spec. apply fmap_id_ext. intros [k v].
      unfold Spec.convert_pair. rewrite resolve_disabled by exact Hen.
      reflexivity. }
    split; [exact Hvars|].
    split; [rewrite (proj2 (emitted_info_spec self msg)), Hvars; reflexivity|].
    unfold _apply_conversions.
    change (Py.truthy (Py.get_default (conversion_settings self) "enabled"
                         (Py.VBool true)))
      with (Spec.enabled (conversion_settings self)).
    rewrite Hen. reflexivity.
Qed.

Lemma unknown_unit_is_noop_witness :
  let self := init yards_settings in
  let msg := "altitude=100.0 airspeed=10.0" in
  let r := process_message self msg in
  (PyDict.get "altitude" (frame_of msg) = Some (flit "100.0") /\
   variable_mappings !! "altitude" = Some "altitude" /\
   Spec.enabled (conversion_settings self) = true /\
   Py.get (conversion_settings self) "altitude" = Py.VStr "yards" /\
   Py.truthy (Py.VStr "yards") = true /\
   Spec.recognized "altitude" (Py.VStr "yards") = false) /\
  PyDict.get "altitude" (emitted self msg) = Some (flit "100.0") /\
  (Spec.unknown_unit_warning "altitude" (Py.VStr "yards") ∈ out_log r) /\
  ("altitude" ∉ info_variables_converted (emitted_info self msg)).
Proof.
  cbv zeta.
  assert (H1 : PyDict.get "altitude" (frame_of "altitude=100.0 airspeed=10.0")
               = Some (flit "100.0")) by (vm_compute; reflexivity).
  assert (H2 : variable_mappings !! "altitude" = Some "altitude")
    by (vm_compute; reflexivity).
  assert (H3 : Spec.enabled (conversion_settings (init yards_settings)) = true)
    by (vm_compute; reflexivity).
  assert (H4 : Py.get (conversion_settings (init yards_settings)) "altitude"
               = Py.VStr "yards") by (vm_compute; reflexivity).
  assert (H5 : Py.truthy (Py.VStr "yards") = true) by reflexivity.
  assert (H6 : Spec.recognized "altitude" (Py.VStr "yards") = false)
    by (vm_compute; reflexivity).
  split; [repeat split; assumption|].
  destruct (proj1 unknown_unit_is_noop (init yards_settings)
              "altitude=100.0 airspeed=10.0" "altitude" (flit "100.0")
              "altitude" (Py.VStr "yards") H1 H2 H3 H4 H5 H6)
    as (Hval & _ & Hlog & _ & Hnot & _).
  repeat split; assumption.
Defined.

Lemma resolve_identity k v :
  Spec.resolve Spec.identity_settings k v = (v, false).
Proof.
  unfold Spec.resolve, Spec.configured.
  destruct (variable_mappings !! k) as [c|] eqn:Hm;
    [|destruct (Spec.enabled _); reflexivity].
  apply variable_category in Hm. unfold categories in Hm.
  repeat (apply elem_of_cons in Hm as [->|Hm]); [..|apply elem_of_nil in Hm; contradiction];
    vm_compute; reflexivity.
Qed.

(** C6.  Under the settings that name the source unit of every
    category, the emitted dictionary is the frame itself: same keys in
    the same order with the same values, serialized as CRLF-terminated
    lines with values to 15 significant digits (a message without a
    pair is returned as it is); no conversion is counted. *)
Theorem identity_settings_reformat_only :
  forall self msg,
    conversion_settings self = Spec.identity_settings ->
    let r := process_message self msg in
    (Re.findall msg = [] -> out_message r = msg) /\
    (Re.findall msg <> [] -> out_message r = Spec.serialize (frame_of msg)) /\
    emitted self msg = frame_of msg /\
    info_get_applied (out_info r) = 0 /\
    out_converter r = self.
Proof.
  intros self msg Hs r. subst r.
  assert (He : emitted self msg = frame_of msg).
  { rewrite emitted_spec, Hs. apply fmap_id_ext. intros [k v].
    unfold Spec.convert_pair. rewrite resolve_identity. reflexivity. }
  assert (Hvars : info_variables_converted (emitted_info self msg) = []).
  { rewrite (proj1 (emitted_info_spec self msg)), Hs.
    unfold Spec.converted_entries. rewrite filter_none; [reflexivity|].
    intros [k v] _. unfold Spec.is_converted. rewrite resolve_identity.
    discriminate. }
  assert (Hn : info_conversions_applied (emitted_info self msg) = 0).
  { rewrite (proj2 (emitted_info_spec self msg)), Hvars. reflexivity. }
  destruct (Re.findall msg) as [|p ps] eqn:Hf.
  - rewrite (process_message_no_pairs self msg Hf).
    repeat split; try reflexivity; [congruence|exact He].
  - assert (Hne : Re.findall msg <> []) by (rewrite Hf; discriminate).
    destruct (process_message_pairs self msg Hne) as (Hout & Hinfo & Hc & _).
    split; [congruence|].
    split; [intros _; rewrite Hout, He; reflexivity|].
    split; [exact He|].
    split; [rewrite Hinfo; exact Hn|].
    rewrite Hc, Hn. reflexivity.
Qed.

Lemma identity_settings_reformat_only_witness :
  let self := init Spec.identity_settings in
  let msg := "time=1.0 airspeed=30.50 altitude=1e3 vario=-2.5" in
  let r := process_message self msg in
  (Re.findall msg = [] -> out_message r = msg) /\
  (Re.findall msg <> [] -> out_message r = Spec.serialize (frame_of msg)) /\
  emitted self msg = frame_of msg /\
  info_get_applied (out_info r) = 0 /\
  out_converter r = self.
Proof.
  apply (identity_settings_reformat_only (init Spec.identity_settings)
           "time=1.0 airspeed=30.50 altitude=1e3 vario=-2.5").
  reflexivity.
Defined.
End UnitProperties.
Section FrameProperties.
Import PyFloat Converter.

(** C2.  For an input with at least one pair, the returned text is the
    serialization, one CRLF-terminated [key=value] line per entry with
    the value to 15 significant digits, of the frame with every entry
    resolved; the keys of the frame are the captured identifiers in
    their original order (the order of first occurrence), and the frame
    is the list of captured pairs when no identifier repeats.  The
    end-to-end scenario yields the stated text with two conversions. *)
Theorem process_message_serializes_frame :
  (forall self msg,
      Re.findall msg <> [] ->
      let r := process_message self msg in
      out_message r =
        Spec.serialize (Spec.convert_pair (conversion_settings self) <$> frame_of msg) /\
      PyDict.keys (frame_of msg) = Spec.first_occurrences (fst <$> Re.findall msg) /\
      (forall k, PyDict.get k (frame_of msg) =
                 parse_value <$> Spec.last_value k (Re.findall msg)) /\
      (NoDup (fst <$> Re.findall msg) ->
       frame_of msg = (fun kv => (fst kv, parse_value (snd kv))) <$> Re.findall msg)) /\
  out_message (process_message (init scenario_settings) scenario_input)
    = scenario_output /\
  info_get_applied (out_info (process_message (init scenario_settings) scenario_input))
    = 2.
Proof.
  split; [|split; vm_compute; reflexivity].
  intros self msg Hne r. subst r.
  destruct (process_message_pairs self msg Hne) as (Hout & _).
  split; [rewrite Hout, emitted_spec; reflexivity|].
  split; [apply keys_frame|].
  split; [intros k; apply get_frame|].
  apply frame_nodup.
Qed.

Lemma process_message_serializes_frame_witness :
  Re.findall scenario_input <> [] /\
  out_message (process_message (init scenario_settings) scenario_input) =
    Spec.serialize
      (Spec.convert_pair scenario_settings <$> frame_of scenario_input) /\
  PyDict.keys (frame_of scenario_input) = ["time"; "airspeed"; "altitude"].
Proof.
  assert (Hne : Re.findall scenario_input <> []) by (vm_compute; discriminate).
  split; [exact Hne|].
  destruct (proj1 process_message_serializes_frame
              (init scenario_settings) scenario_input Hne)
    as (Hout & Hkeys & _).
  split; [exact Hout|].
  rewrite Hkeys. vm_compute. reflexivity.
Defined.

Lemma first_occurrences_length (l : list string) :
  (length (Spec.first_occurrences l) <= length l)%nat.
Proof.
  induction l as [|x l IH]; cbn [Spec.first_occurrences length]; [lia|].
  pose proof (length_filter (fun y => y <> x) (Spec.first_occurrences l)). lia.
Qed.

Lemma first_occurrences_shorter (l : list string) k :
  (1 < length (filter (fun x => x = k) l))%nat ->
  (length (Spec.first_occurrences l) < length l)%nat.
Proof.
  induction l as [|x l IH]; cbn [Spec.first_occurrences length].
  - rewrite filter_nil. cbn [length]. lia.
  - rewrite filter_cons. destruct (decide (x = k)) as [->|Hne].
    + cbn [length]. intros Hlen.
      assert (Hin : k ∈ l).
      { destruct (filter (fun x => x = k) l) as [|y f] eqn:Hf;
          [cbn [length] in Hlen; lia|].
        assert (Hy : y ∈ filter (fun x => x = k) l)
          by (rewrite Hf; apply elem_of_cons; left; reflexivity).
        apply list_elem_of_filter in Hy as [-> Hy]. exact Hy. }
      apply first_occurrences_elem in Hin.
      pose proof (length_filter_lt (fun y => y <> k)
                    (Spec.first_occurrences l) k Hin) as Hlt.
      pose proof (first_occurrences_length l).
      specialize (Hlt ltac:(tauto)). lia.
    + intros Hlen. specialize (IH Hlen).
      pose proof (length_filter (fun y => y <> x) (Spec.first_occurrences l)).
      lia.
Qed.

Lemma nodup_filter_length (l : list string) k :
  NoDup l -> k ∈ l -> length (filter (fun x => x = k) l) = 1%nat.
Proof.
  induction l as [|x l IH]; intros Hnd Hin.
  - apply elem_of_nil in Hin. contradiction.
  - apply NoDup_cons in Hnd as [Hx Hnd]. rewrite filter_cons.
    destruct (decide (x = k)) as [->|Hne].
    + cbn [length]. f_equal.
      rewrite filter_none; [reflexivity|]. intros y Hy ->. contradiction.
    + apply IH; [exact Hnd|].
      apply elem_of_cons in Hin as [->|Hin]; [congruence|exact Hin].
Qed.

(** C10.  When an identifier is captured more than once, the emitted
    dictionary holds it exactly once, at the place of its first
    occurrence among the identifiers, with the value resolved from its
    last pair; the emitted dictionary, which the returned text
    serializes, is then shorter than the list of captured pairs. *)
Theorem repeated_identifier_collapses :
  forall self msg k,
    (1 < length (filter (fun x => x = k) (fst <$> Re.findall msg)))%nat ->
    let r := process_message self msg in
    out_message r = Spec.serialize (emitted self msg) /\
    PyDict.keys (emitted self msg) =
      Spec.first_occurrences (fst <$> Re.findall msg) /\
    length (filter (fun x => x = k) (PyDict.keys (emitted self msg))) = 1%nat /\
    PyDict.get k (emitted self msg) =
      (fun s => fst (Spec.resolve (conversion_settings self) k (parse_value s)))
        <$> Spec.last_value k (Re.findall msg) /\
    is_Some (Spec.last_value k (Re.findall msg)) /\
    (length (emitted self msg) < length (Re.findall msg))%nat.
Proof.
  intros self msg k Hrep r. subst r.
  assert (Hne : Re.findall msg <> []).
  { intros Hnil. rewrite Hnil in Hrep. cbn in Hrep. lia. }
  assert (Hin : k ∈ fst <$> Re.findall msg).
  { destruct (filter (fun x => x = k) (fst <$> Re.findall msg)) as [|y f] eqn:Hf;
      [cbn [length] in Hrep; lia|].
    assert (Hy : y ∈ filter (fun x => x = k) (fst <$> Re.findall msg))
      by (rewrite Hf; apply elem_of_cons; left; reflexivity).
    apply list_elem_of_filter in Hy as [-> Hy]. exact Hy. }
  destruct (process_message_pairs self msg Hne) as (Hout & _).
  assert (Hkeys : PyDict.keys (emitted self msg) =
                  Spec.first_occurrences (fst <$> Re.findall msg))
    by (rewrite keys_emitted; apply keys_frame).
  split; [exact Hout|].
  split; [exact Hkeys|].
  split.
  { rewrite Hkeys. apply nodup_filter_length.
    - apply first_occurrences_nodup.
    - apply first_occurrences_elem. exact Hin. }
  split.
  { rewrite get_emitted, get_frame.
    destruct (Spec.last_value k (Re.findall msg)); reflexivity. }
  split; [apply last_value_elem; exact Hin|].
  assert (Hlen : length (emitted self msg) = length (PyDict.keys (emitted self msg)))
    by (unfold PyDict.keys; rewrite length_fmap; reflexivity).
  rewrite Hlen, Hkeys.
  pose proof (first_occurrences_shorter _ k Hrep) as Hlt.
  rewrite length_fmap in Hlt. exact Hlt.
Qed.

Lemma repeated_identifier_collapses_witness :
  let self := init feet_settings in
  let msg := "altitude=1.0 time=5 altitude=100.0" in
  (1 < length (filter (fun x => x = "altitude") (fst <$> Re.findall msg)))%nat /\
  out_message (process_message self msg) =
    "altitude=328.084" +:+ PyStr.CRLF +:+ "time=5" +:+ PyStr.CRLF /\
  PyDict.keys (emitted self msg) = ["altitude"; "time"] /\
  (length (emitted self msg) < length (Re.findall msg))%nat.
Proof.
  assert (Hrep : (1 < length (filter (fun x => x = "altitude")
                    (fst <$> Re.findall "altitude=1.0 time=5 altitude=100.0")))%nat)
    by (vm_compute; lia).
  split; [exact Hrep|].
  destruct (repeated_identifier_collapses (init feet_settings)
              "altitude=1.0 time=5 altitude=100.0" "altitude" Hrep)
    as (Hout & Hkeys & _ & _ & _ & Hlen).
  split; [rewrite Hout; vm_compute; reflexivity|].
  split; [rewrite Hkeys; vm_compute; reflexivity|].
  exact Hlen.
Defined.
End FrameProperties.

(* ===================================================================== *)
(** * Properties of the bridge *)
(* ===================================================================== *)

Section StartProperties.
Import Bridge.

(** C4, as stated, fails on the return value: with the inbound port
    in use [start] returns [None], the very value it returns when
    everything has started, and no exception either. *)
Lemma start_does_not_return_failure :
  let failed := start_return env_bind_fails Spec.identity_settings bridge0 in
  let started := start_return env_ok Spec.identity_settings bridge0 in
  running (start_bridge env_bind_fails Spec.identity_settings bridge0) = false /\
  running (start_bridge env_ok Spec.identity_settings bridge0) = true /\
  ~ Spec.returns_failure failed /\
  failed = started.
Proof.
  vm_compute. repeat split; try reflexivity.
  intros [H|[e H]]; discriminate.
Qed.

(** C4, amended.  When the bind of the inbound port fails in [start]
    of a stopped bridge, [start] returns [None]; the bridge is left
    stopped, with an error count of one, the receiver not running and
    the monitoring task untouched; the sender has only been closed: it
    was not started and holds no open socket. *)
Theorem start_bind_failure_leaves_stopped :
  forall env conversions self e,
    running self = false ->
    recv_socket env = None ->
    recv_bind env = Some e ->
    Py.caught_by [Py.OSError] e = true ->
    start_return env conversions self = Py.Ok Py.VNone /\
    let self' := start_bridge env conversions self in
    running self' = false /\
    error_count self' = 1 /\
    Receiver.running (udp_receiver self') = false /\
    udp_sender self' = fst (Sender.close (udp_sender self)) /\
    Sender.socket (udp_sender self') <> Some SockOpen /\
    Sender.connected (udp_sender self') = false /\
    main_task self' = main_task self.
Proof.
  intros env conversions self e Hrun Hsock Hbind He.
  unfold start_return, start_bridge, start.
  rewrite Hrun. unfold Receiver.start_receiving. rewrite Hsock, Hbind, He.
  unfold stop, Log.bind, Log.emit, Log.ret. cbn [fst snd negb running set_running
    set_counters set_error_count set_receiver set_sender udp_receiver
    udp_sender error_count main_task].
  destruct (Sender.close (udp_sender self)) as [sender' l] eqn:Hclose.
  cbn [fst snd running error_count udp_receiver udp_sender main_task].
  repeat split.
  - change (Sender.socket sender' <> Some SockOpen).
    unfold Sender.close in Hclose.
    destruct (Sender.socket (udp_sender self)) eqn:Hs;
      injection Hclose as <- _; cbn [Sender.socket Sender.set_connected Sender.set_socket];
      congruence.
  - change (Sender.connected sender' = false).
    unfold Sender.close in Hclose.
    destruct (Sender.socket (udp_sender self));
      injection Hclose as <- _; reflexivity.
Qed.

Lemma start_bind_failure_leaves_stopped_witness :
  (running bridge0 = false /\
   recv_socket env_bind_fails = None /\
   recv_bind env_bind_fails = Some address_in_use /\
   Py.caught_by [Py.OSError] address_in_use = true) /\
  start_return env_bind_fails Spec.identity_settings bridge0 = Py.Ok Py.VNone /\
  running (start_bridge env_bind_fails Spec.identity_settings bridge0) = false /\
  error_count (start_bridge env_bind_fails Spec.identity_settings bridge0) = 1.
Proof.
  split; [repeat split|].
  destruct (start_bind_failure_leaves_stopped env_bind_fails
              Spec.identity_settings bridge0 address_in_use
              eq_refl eq_refl eq_refl eq_refl) as (Hret & Hrun & Herr & _).
  split; [exact Hret|]. split; [exact Hrun|exact Herr].
Defined.
End StartProperties.

Section DecodeProperties.
Import Bridge.

Lemma is_ok_emit bs r : is_ok r -> is_ok (Utf8.emit_bytes bs r).
Proof. destruct r; simpl; tauto. Qed.

(** Under [errors='ignore'] decoding never raises. *)
Lemma decode_ignore_ok_bounded n : forall data,
  (String.length data <= n)%nat -> is_ok (Utf8.decode Utf8.Ignore data).
Proof.
  induction n as [|n IH]; intros data Hlen.
  - destruct data; [exact I|cbn [String.length] in Hlen; lia].
  - destruct data as [|c s1]; [exact I|].
    cbn [String.length] in Hlen.
    assert (H1 : is_ok (Utf8.decode Utf8.Ignore s1)) by (apply IH; lia).
    cbn [Utf8.decode]. unfold Utf8.on_error.
    repeat match goal with
      | |- is_ok (if ?b then _ else _) => destruct b
      | |- is_ok (Utf8.emit_bytes _ _) => apply is_ok_emit
      | |- is_ok (Py.Ok _) => exact I
      | |- is_ok (match ?s with EmptyString => _ | String _ _ => _ end) =>
          destruct s; cbn [String.length] in Hlen
      | |- is_ok (Utf8.decode Utf8.Ignore _) =>
          apply IH; cbn [String.length]; lia
      end.
Qed.

Lemma decode_ignore_total data :
  exists text, Utf8.decode Utf8.Ignore data = Py.Ok text.
Proof.
  pose proof (decode_ignore_ok_bounded (String.length data) data (le_n _)) as H.
  destruct (Utf8.decode Utf8.Ignore data) as [text|e]; [eauto|contradiction].
Qed.

Lemma decode_ignore_eq data :
  Utf8.decode Utf8.Ignore data = Py.Ok (decode_ignore data).
Proof.
  unfold decode_ignore. destruct (decode_ignore_total data) as [t ->].
  reflexivity.
Qed.

(** C5, as stated, fails: a datagram that is not valid UTF-8 is
    decoded with its ill-formed byte left out, given to the handler,
    converted and forwarded; no error is counted or logged. *)
Lemma invalid_utf8_datagram_is_forwarded :
  Utf8.decode Utf8.Strict bad_datagram = Py.Raise Utf8.decode_error /\
  Utf8.decode Utf8.Ignore bad_datagram = Py.Ok "altitude=100.0" /\
  messages_processed after_bad_datagram = 1 /\
  messages_forwarded after_bad_datagram = 1 /\
  Sender.wire (udp_sender after_bad_datagram)
    = ["altitude=328.084" +:+ PyStr.CRLF] /\
  Receiver.messages_received (udp_receiver after_bad_datagram) = 1 /\
  Receiver.error_count (udp_receiver after_bad_datagram) = 0 /\
  error_count after_bad_datagram = 0 /\
  Forall (fun rec => Log.lvl rec <> Log.ERROR)
    (snd (receive_events [Receiver.Datagram bad_datagram (Py.Ok 18)]
            running_bridge)).
Proof.
  vm_compute. repeat split; try reflexivity.
  repeat constructor; discriminate.
Qed.

End DecodeProperties.

Section HandlerProperties.
Import Bridge.

Lemma logs_error_app_r e l1 l2 : logs_error e l2 -> logs_error e (l1 ++ l2).
Proof.
  intros (rec & Hin & H). exists rec. split; [|exact H].
  apply elem_of_app. right; exact Hin.
Qed.

Lemma logs_error_app_l e l1 l2 : logs_error e l1 -> logs_error e (l1 ++ l2).
Proof.
  intros (rec & Hin & H). exists rec. split; [|exact H].
  apply elem_of_app. left; exact Hin.
Qed.

Lemma logs_error_cons e rec l : logs_error e l -> logs_error e (rec :: l).
Proof.
  intros (rec' & Hin & H). exists rec'. split; [|exact H].
  apply elem_of_cons. right; exact Hin.
Qed.

Lemma logs_error_here e rec l :
  Log.lvl rec = Log.ERROR -> Log.Err e ∈ Log.text rec ->
  logs_error e (rec :: l).
Proof.
  intros Hl Ht. exists rec. split; [apply elem_of_cons; left; reflexivity|].
  split; assumption.
Qed.

Ltac elem_here :=
  apply elem_of_cons; first [left; reflexivity | right; elem_here].

Ltac find_error :=
  first [ apply logs_error_here; [reflexivity|cbn [Log.text]; elem_here]
        | apply logs_error_cons; find_error
        | apply logs_error_app_r; find_error ].

(** An exception of [sendto] inside the handler: either the handler
    returns, having logged it and counted an error, or it leaves the
    handler, with no counter lowered. *)
Lemma handle_udp_data_raise self data e :
  Sender.socket (udp_sender self) <> None ->
  forall r self' l,
    _handle_udp_data (Py.Raise e) data self = (r, self', l) ->
    (r = Py.Ok tt /\ logs_error e l /\
     error_count self' + Sender.error_count (udp_sender self') >
     error_count self + Sender.error_count (udp_sender self)) \/
    (r = Py.Raise e /\
     error_count self' = error_count self /\
     Sender.error_count (udp_sender self') = Sender.error_count (udp_sender self)).
Proof.
  intros Hsock r self' l. unfold _handle_udp_data, Log.bind.
  destruct (Converter.process_message _ data) as [[[m i] c] lc].
  destruct (0 <? Converter.info_get_applied i);
    unfold Log.bind, Log.emit, Log.ret, Sender.send_message;
    cbn [fst snd udp_sender set_converter set_counters];
    destruct (Sender.socket (udp_sender self)) as [sk|] eqn:Hs;
    try contradiction;
    destruct e as [cls msg]; destruct cls;
    cbn; intros [= <- <- <-]; cbn;
    first
      [ right; repeat split; reflexivity
      | left; split; [reflexivity|]; split; [find_error|lia] ].
Qed.
End HandlerProperties.

Section LoopProperties.
Import Bridge.

Ltac elem_here :=
  apply elem_of_cons; first [left; reflexivity | right; elem_here].

Lemma receive_loop_cons {W X} (cb : option (Receiver.callback (W:=W) (X:=X)))
      ev evs self w self' w' l :
  Receiver.receive_iteration cb ev self w = (Alive, self', w', l) ->
  Receiver._receive_loop cb (ev :: evs) self w =
  Log.bind (tt, l) (fun _ => Receiver._receive_loop cb evs self' w').
Proof.
  intros H. cbn [Receiver._receive_loop]. unfold Log.bind at 1. rewrite H.
  unfold Log.bind. reflexivity.
Qed.

(** The receiver's turn when its callback raises. *)
Lemma receive_iteration_callback_raises {W X}
      (cb : Receiver.callback (W:=W) (X:=X)) data x self w e w' l :
  Receiver.running self = true ->
  data <> "" ->
  cb x (decode_ignore data) w = (Py.Raise e, w', l) ->
  Receiver.receive_iteration (Some cb) (Receiver.Datagram data x) self w =
  (Alive,
   Receiver.count_error
     (Receiver.count_message (Z.of_nat (String.length data)) self),
   w', l ++ [callback_error e]).
Proof.
  intros Hrun Hne Hcb. unfold Receiver.receive_iteration.
  rewrite Hrun. cbn [negb].
  destruct (String.eqb_spec data ""); [contradiction|].
  rewrite decode_ignore_eq. unfold Log.bind. rewrite Hcb.
  reflexivity.
Qed.

(** C9.  Whatever exception the callback of the receiver raises for a
    datagram, the receiver catches it, logs it at level ERROR, counts
    it, and goes on with the events that follow.  For the handler of
    the bridge and any exception raised while it forwards: the turn
    ends with the receive thread alive and still running, the
    exception logged at level ERROR and an error counter of the
    pipeline raised, and the loop goes on with the events that
    follow. *)
Theorem handler_exception_never_stops_loop :
  (forall (W X : Type) (cb : Receiver.callback (W:=W) (X:=X))
          data x self w e w' l evs,
      Receiver.running self = true ->
      data <> "" ->
      cb x (decode_ignore data) w = (Py.Raise e, w', l) ->
      let self' :=
        Receiver.count_error
          (Receiver.count_message (Z.of_nat (String.length data)) self) in
      Receiver.receive_iteration (Some cb) (Receiver.Datagram data x) self w
        = (Alive, self', w', l ++ [callback_error e]) /\
      Receiver.running self' = true /\
      Receiver.error_count self' = Receiver.error_count self + 1 /\
      Receiver._receive_loop (Some cb) (Receiver.Datagram data x :: evs) self w
        = Log.bind (tt, l ++ [callback_error e])
            (fun _ => Receiver._receive_loop (Some cb) evs self' w')) /\
  (forall (self : UDPMiddlewareBridge) (r : Receiver.t) data e evs,
      Receiver.running r = true ->
      data <> "" ->
      Sender.socket (udp_sender self) <> None ->
      exists r' self' l,
        Receiver.receive_iteration (Some _handle_udp_data)
          (Receiver.Datagram data (Py.Raise e)) r self = (Alive, r', self', l) /\
        Receiver.running r' = true /\
        logs_error e l /\
        errors_counted r' self' > errors_counted r self /\
        Receiver._receive_loop (Some _handle_udp_data)
          (Receiver.Datagram data (Py.Raise e) :: evs) r self
        = Log.bind (tt, l)
            (fun _ => Receiver._receive_loop (Some _handle_udp_data) evs r' self')).
Proof.
  split.
  - intros W X cb data x self w e w' l evs Hrun Hne Hcb self'.
    pose proof (receive_iteration_callback_raises cb data x self w e w' l
                  Hrun Hne Hcb) as Hit.
    split; [exact Hit|]. split; [exact Hrun|]. split; [reflexivity|].
    apply receive_loop_cons. exact Hit.
  - intros self r data e evs Hrun Hne Hsock.
    destruct (_handle_udp_data (Py.Raise e) (decode_ignore data) self)
      as [[res self'] l] eqn:Hh.
    destruct (handle_udp_data_raise self (decode_ignore data) e Hsock
                res self' l Hh) as [(-> & Hlog & Hcnt)|(-> & Hb & Hs)].
    + assert (Hit :
        Receiver.receive_iteration (Some _handle_udp_data)
          (Receiver.Datagram data (Py.Raise e)) r self =
        (Alive, Receiver.count_message (Z.of_nat (String.length data)) r,
         self', l)).
      { unfold Receiver.receive_iteration. rewrite Hrun. cbn [negb].
        destruct (String.eqb_spec data ""); [contradiction|].
        rewrite decode_ignore_eq. unfold Log.bind. rewrite Hh.
        cbn [Log.ret]. rewrite app_nil_r. reflexivity. }
      eexists _, self', l. split; [exact Hit|].
      split; [exact Hrun|]. split; [exact Hlog|].
      split; [unfold errors_counted; cbn [Receiver.count_message Receiver.error_count]; lia|].
      apply receive_loop_cons. exact Hit.
    + pose proof (receive_iteration_callback_raises _handle_udp_data data
                    (Py.Raise e) r self e self' l Hrun Hne Hh) as Hit.
      eexists _, self', _. split; [exact Hit|].
      split; [exact Hrun|]. split.
      { apply logs_error_app_r. apply logs_error_here; [reflexivity|].
        cbn [Log.text callback_error]. elem_here. }
      split.
      { unfold errors_counted.
        cbn [Receiver.count_error Receiver.count_message Receiver.error_count].
        lia. }
      apply receive_loop_cons. exact Hit.
Qed.

Lemma handler_exception_never_stops_loop_witness :
  (Receiver.running (udp_receiver running_bridge) = true /\
   "altitude=100.0" <> "" /\
   Sender.socket (udp_sender running_bridge) <> None) /\
  exists r' self' l,
    Receiver.receive_iteration (Some _handle_udp_data)
      (Receiver.Datagram "altitude=100.0" (Py.Raise overflow))
      (udp_receiver running_bridge) running_bridge = (Alive, r', self', l) /\
    Receiver.running r' = true /\
    logs_error overflow l /\
    errors_counted r' self' >
    errors_counted (udp_receiver running_bridge) running_bridge.
Proof.
  assert (H1 : Receiver.running (udp_receiver running_bridge) = true)
    by (vm_compute; reflexivity).
  assert (H2 : "altitude=100.0" <> "") by discriminate.
  assert (H3 : Sender.socket (udp_sender running_bridge) <> None)
    by (vm_compute; discriminate).
  split; [repeat split; assumption|].
  destruct (proj2 handler_exception_never_stops_loop running_bridge
              (udp_receiver running_bridge) "altitude=100.0" overflow []
              H1 H2 H3) as (r' & self' & l & Hit & Hrun & Hlog & Hcnt & _).
  exists r', self', l. repeat split; assumption.
Defined.
End LoopProperties.

Section ForwardProperties.
Import Bridge.

(** The bridge's handler on a datagram whose [sendto] succeeds. *)
Lemma handle_udp_data_forwards self text n :
  Sender.socket (udp_sender self) <> None ->
  exists self' l,
    _handle_udp_data (Py.Ok n) text self = (Py.Ok tt, self', l) /\
    Sender.wire (udp_sender self') =
      Sender.wire (udp_sender self) ++
      [out_message (Converter.process_message (unit_converter self) text)] /\
    messages_processed self' = messages_processed self + 1 /\
    messages_forwarded self' = messages_forwarded self + 1 /\
    error_count self' = error_count self /\
    Sender.error_count (udp_sender self') = Sender.error_count (udp_sender self).
Proof.
  intros Hsock. unfold _handle_udp_data, Log.bind, out_message.
  cbn [unit_converter set_counters].
  destruct (Converter.process_message (unit_converter self) text)
    as [[[m i] c] lc].
  destruct (0 <? Converter.info_get_applied i);
    unfold Log.bind, Log.emit, Log.ret, Sender.send_message;
    cbn [fst snd udp_sender set_converter set_counters];
    destruct (Sender.socket (udp_sender self)) as [sk|] eqn:Hs;
    try contradiction;
    cbn; eexists _, _; repeat split.
Qed.

(** C5, amended.  Every non-empty datagram, valid UTF-8 or not, is
    decoded without failure under [errors='ignore'], counted as
    received with its length in bytes, and given to the callback as
    the decoded text; when the callback returns, the receiver's error
    count is unchanged and the records of the turn are those of the
    callback.  With the handler of the bridge, an open sender and a
    [sendto] that succeeds, the text converted from the decoded
    datagram is forwarded and no error is counted. *)
Theorem datagram_is_decoded_and_handled :
  (forall (W X : Type) (cb : Receiver.callback (W:=W) (X:=X))
          data x self w,
      Receiver.running self = true ->
      data <> "" ->
      Utf8.decode Utf8.Ignore data = Py.Ok (decode_ignore data) /\
      forall w' l,
        cb x (decode_ignore data) w = (Py.Ok tt, w', l) ->
        Receiver.receive_iteration (Some cb) (Receiver.Datagram data x) self w =
        (Alive,
         Receiver.count_message (Z.of_nat (String.length data)) self, w', l)) /\
  (forall (self : UDPMiddlewareBridge) (r : Receiver.t) data n,
      Receiver.running r = true ->
      data <> "" ->
      Sender.socket (udp_sender self) <> None ->
      exists self' l,
        Receiver.receive_iteration (Some _handle_udp_data)
          (Receiver.Datagram data (Py.Ok n)) r self =
        (Alive, Receiver.count_message (Z.of_nat (String.length data)) r,
         self', l) /\
        Sender.wire (udp_sender self') =
          Sender.wire (udp_sender self) ++
          [out_message (Converter.process_message (unit_converter self)
                          (decode_ignore data))] /\
        messages_forwarded self' = messages_forwarded self + 1 /\
        errors_counted (Receiver.count_message (Z.of_nat (String.length data)) r)
          self' = errors_counted r self).
Proof.
  assert (Hgen : forall (W X : Type) (cb : Receiver.callback (W:=W) (X:=X))
                   data x self w w' l,
             Receiver.running self = true ->
             data <> "" ->
             cb x (decode_ignore data) w = (Py.Ok tt, w', l) ->
             Receiver.receive_iteration (Some cb) (Receiver.Datagram data x) self w =
             (Alive,
              Receiver.count_message (Z.of_nat (String.length data)) self, w', l)).
  { intros W X cb data x self w w' l Hrun Hne Hcb.
    unfold Receiver.receive_iteration.
    rewrite Hrun. cbn [negb].
    destruct (String.eqb_spec data ""); [contradiction|].
    rewrite decode_ignore_eq. unfold Log.bind. rewrite Hcb.
    cbn [Log.ret]. rewrite app_nil_r. reflexivity. }
  split.
  - intros W X cb data x self w Hrun Hne.
    split; [apply decode_ignore_eq|].
    intros w' l Hcb. apply Hgen; assumption.
  - intros self r data n Hrun Hne Hsock.
    destruct (handle_udp_data_forwards self (decode_ignore data) n Hsock)
      as (self' & l & Hh & Hwire & _ & Hfwd & Herr & Hserr).
    exists self', l. split; [apply Hgen; assumption|].
    split; [exact Hwire|]. split; [exact Hfwd|].
    unfold errors_counted.
    cbn [Receiver.count_message Receiver.error_count]. lia.
Qed.

Lemma datagram_is_decoded_and_handled_witness :
  (Receiver.running (udp_receiver running_bridge) = true /\
   bad_datagram <> "" /\
   Sender.socket (udp_sender running_bridge) <> None) /\
  exists self' l,
    Receiver.receive_iteration (Some _handle_udp_data)
      (Receiver.Datagram bad_datagram (Py.Ok 18))
      (udp_receiver running_bridge) running_bridge =
    (Alive,
     Receiver.count_message (Z.of_nat (String.length bad_datagram))
       (udp_receiver running_bridge), self', l) /\
    Sender.wire (udp_sender self') = ["altitude=328.084" +:+ PyStr.CRLF].
Proof.
  assert (H1 : Receiver.running (udp_receiver running_bridge) = true)
    by (vm_compute; reflexivity).
  assert (H2 : bad_datagram <> "") by (vm_compute; discriminate).
  assert (H3 : Sender.socket (udp_sender running_bridge) <> None)
    by (vm_compute; discriminate).
  split; [repeat split; assumption|].
  destruct (proj2 datagram_is_decoded_and_handled running_bridge
              (udp_receiver running_bridge) bad_datagram 18 H1 H2 H3)
    as (self' & l & Hit & Hwire & _).
  exists self', l. split; [exact Hit|].
  rewrite Hwire. vm_compute. reflexivity.
Defined.
End ForwardProperties.

(* ===================================================================== *)
(** * Settings updates and conversions in flight *)
(* ===================================================================== *)

Section SnapshotProperties.
Import PyFloat Converter Interleaving.

(** Two variables of one category are resolved alike under any one
    settings dictionary. *)
Lemma same_category_same_resolution s k1 k2 category v :
  variable_mappings !! k1 = Some category ->
  variable_mappings !! k2 = Some category ->
  Spec.resolve s k1 v = Spec.resolve s k2 v.
Proof.
  intros H1 H2. unfold Spec.resolve, Spec.configured. rewrite H1, H2.
  reflexivity.
Qed.

(** C3, as stated, fails: an update that takes effect between two
    iterations of the loop leaves the first pair under the old target
    unit and the second under the new one, which no snapshot of the
    schedule, old or new, produces; indeed no settings dictionary at
    all produces it. *)
Lemma update_mid_conversion_mixes_units :
  text_after update_between_pairs meters_settings two_altitudes
    = Some ("altitude=100" +:+ PyStr.CRLF +:+ "height=328.084" +:+ PyStr.CRLF) /\
  text_under meters_settings two_altitudes
    = "altitude=100" +:+ PyStr.CRLF +:+ "height=100" +:+ PyStr.CRLF /\
  text_under feet_settings two_altitudes
    = "altitude=328.084" +:+ PyStr.CRLF +:+ "height=328.084" +:+ PyStr.CRLF /\
  snapshots meters_settings update_between_pairs
    = [meters_settings; feet_settings] /\
  ~ Spec.single_snapshot meters_settings update_between_pairs two_altitudes /\
  (forall s,
      result_of (fst (run update_between_pairs
                        (init meters_settings, Entry two_altitudes)))
      <> Some (fst (_apply_conversions (init s) two_altitudes))).
Proof.
  assert (H1 : text_after update_between_pairs meters_settings two_altitudes
               = Some ("altitude=100" +:+ PyStr.CRLF +:+ "height=328.084" +:+ PyStr.CRLF))
    by (vm_compute; reflexivity).
  assert (H2 : text_under meters_settings two_altitudes
               = "altitude=100" +:+ PyStr.CRLF +:+ "height=100" +:+ PyStr.CRLF)
    by (vm_compute; reflexivity).
  assert (H3 : text_under feet_settings two_altitudes
               = "altitude=328.084" +:+ PyStr.CRLF +:+ "height=328.084" +:+ PyStr.CRLF)
    by (vm_compute; reflexivity).
  assert (H4 : snapshots meters_settings update_between_pairs
               = [meters_settings; feet_settings]) by reflexivity.
  assert (Hall : forall s,
             result_of (fst (run update_between_pairs
                               (init meters_settings, Entry two_altitudes)))
             <> Some (fst (_apply_conversions (init s) two_altitudes))).
  { intros s Hres.
    assert (Hmix :
      fst <$> result_of (fst (run update_between_pairs
                                (init meters_settings, Entry two_altitudes)))
      = Some [ ("altitude", flit "100.0");
               ("height", mul (flit "100.0") (flit "3.28084")) ])
      by (vm_compute; reflexivity).
    rewrite Hres in Hmix. cbn [fmap option_fmap option_map] in Hmix.
    assert (Hnd : NoDup (PyDict.keys two_altitudes)).
    { apply NoDup_ListNoDup. unfold two_altitudes.
      cbn [PyDict.keys fmap list_fmap fst].
      repeat constructor; cbn [In]; intuition discriminate. }
    rewrite (proj1 (apply_conversions_fst (init s) two_altitudes Hnd)) in Hmix.
    unfold two_altitudes in Hmix.
    cbn [fmap list_fmap conversion_settings init] in Hmix.
    unfold Spec.convert_pair in Hmix. cbn [fst snd] in Hmix.
    rewrite (same_category_same_resolution s "height" "altitude" "altitude")
      in Hmix by (vm_compute; reflexivity).
    pose proof (f_equal (fun o => match o with
                                  | Some ((_, a) :: _) => Some a
                                  | _ => None
                                  end) Hmix) as Ha.
    pose proof (f_equal (fun o => match o with
                                  | Some (_ :: (_, b) :: _) => Some b
                                  | _ => None
                                  end) Hmix) as Hh.
    cbv beta iota in Ha, Hh. rewrite Ha in Hh.
    apply (f_equal (fmap format_15g)) in Hh.
    vm_compute in Hh. discriminate Hh. }
  repeat (split; [assumption|]).
  split; [|exact Hall].
  intros (s & _ & Hres). exact (Hall s Hres).
Qed.

Lemma run_app a b cfg :
  fst (run (a ++ b) cfg) = fst (run b (fst (run a cfg))).
Proof.
  unfold run. rewrite !for_each_fst, fold_left_app, <- !for_each_fst.
  reflexivity.
Qed.

Lemma last_nonempty {A} (x : A) (l : list A) d d' :
  List.last (x :: l) d = List.last (x :: l) d'.
Proof.
  revert x. induction l as [|y l IH]; intros x; [reflexivity|].
  change (List.last (y :: l) d = List.last (y :: l) d'). apply IH.
Qed.

Lemma run_cons a schedule cfg :
  fst (run (a :: schedule) cfg) = fst (run schedule (fst (step cfg a))).
Proof. unfold run. cbn [Log.for_each]. apply bind_fst. Qed.

Lemma step_update self c s :
  fst (step (self, c) (Update s)) =
  (Build s (conversions_applied self) (variables_converted self), c).
Proof. reflexivity. Qed.

Lemma step_convert self c :
  fst (step (self, c) Convert) = (self, fst (convert_step self c)).
Proof. unfold step. rewrite bind_fst. reflexivity. Qed.

Lemma run_updates updates self c :
  fst (run (Update <$> updates) (self, c)) =
  (Build (List.last updates (conversion_settings self))
         (conversions_applied self) (variables_converted self), c).
Proof.
  revert self. induction updates as [|s updates IH]; intros self.
  - destruct self; reflexivity.
  - cbn [fmap list_fmap]. rewrite run_cons, step_update, IH.
    cbn [conversion_settings conversions_applied variables_converted].
    destruct updates as [|g updates]; [reflexivity|].
    rewrite (last_nonempty g updates s (conversion_settings self)).
    reflexivity.
Qed.

Lemma run_converts_returned n self st :
  fst (run (repeat Convert n) (self, Return st)) = (self, Return st).
Proof.
  induction n as [|n IH]; [reflexivity|].
  cbn [repeat]. rewrite run_cons, step_convert. exact IH.
Qed.

Lemma run_converts_loop self todo : forall st n,
  (length todo < n)%nat ->
  fst (run (repeat Convert n) (self, Loop todo st)) =
  (self,
   Return (fold_left
             (fun st x => fst (convert_item (conversion_settings self) st x))
             todo st)).
Proof.
  induction todo as [|x todo IH]; intros st n Hn;
    (destruct n as [|n]; [cbn [length] in Hn; lia|]);
    cbn [repeat]; rewrite run_cons, step_convert.
  - apply run_converts_returned.
  - cbn [convert_step]. rewrite bind_fst. cbn [Log.ret fst fold_left].
    apply IH. cbn [length] in Hn. lia.
Qed.

Lemma run_converts_entry self data n :
  (length data + 1 < n)%nat ->
  fst (run (repeat Convert n) (self, Entry data)) =
  (self, Return (fst (_apply_conversions self data))).
Proof.
  intros Hn. destruct n as [|n]; [lia|].
  cbn [repeat]. rewrite run_cons, step_convert.
  unfold _apply_conversions. cbn [convert_step].
  destruct (Py.truthy (Py.get_default (conversion_settings self) "enabled"
                         (Py.VBool true))); cbn [negb Log.ret fst].
  - rewrite run_converts_loop by lia. rewrite for_each_fst. reflexivity.
  - apply run_converts_returned.
Qed.

(** C3, amended.  A settings update replaces the dictionary the
    converter reads in one step.  When the updates take effect before
    the converting thread tests the enable flag or after it has handled
    the last pair, however many there are, every pair of the message
    is converted under one snapshot: the dictionary current when the
    conversion began. *)
Theorem conversion_without_interleaved_update :
  forall self data before after n,
    (length data + 1 < n)%nat ->
    let current :=
      Build (List.last before (conversion_settings self))
            (conversions_applied self) (variables_converted self) in
    result_of
      (fst (run ((Update <$> before) ++ repeat Convert n ++ (Update <$> after))
              (self, Entry data)))
    = Some (fst (_apply_conversions current data)).
Proof.
  intros self data before after n Hn current.
  rewrite run_app, run_updates. fold current.
  rewrite run_app, run_converts_entry by exact Hn.
  rewrite run_updates. reflexivity.
Qed.

Lemma conversion_without_interleaved_update_witness :
  (length two_altitudes + 1 < 4)%nat /\
  result_of
    (fst (run ((Update <$> [feet_settings]) ++ repeat Convert 4
                 ++ (Update <$> [meters_settings]))
            (init meters_settings, Entry two_altitudes)))
  = Some (fst (_apply_conversions (init feet_settings) two_altitudes)).
Proof.
  assert (Hn : (length two_altitudes + 1 < 4)%nat) by (cbn; lia).
  split; [exact Hn|].
  apply (conversion_without_interleaved_update (init meters_settings)
           two_altitudes [feet_settings] [meters_settings] 4 Hn).
Defined.
End SnapshotProperties.

Section MatcherFacts.
Import PyStr Re.

Lemma take_str_app (w rest : string) :
  take_str (String.length w) (w +:+ rest) = w.
Proof.
  induction w as [|c w IH]; [destruct rest; reflexivity|].
  simpl. rewrite IH. reflexivity.
Qed.

Lemma matched_app (w rest : string) : matched (w +:+ rest) rest = w.
Proof.
  unfold matched, consumed. rewrite str_length_app.
  replace (String.length w + String.length rest - String.length rest)%nat
    with (String.length w) by lia.
  apply take_str_app.
Qed.

Lemma consumed_app (w rest : string) :
  consumed (w +:+ rest) rest = String.length w.
Proof. unfold consumed. rewrite str_length_app. lia. Qed.

Lemma star_match_sound {A} p s (k : string -> option A) x :
  star_match p s k = Some x ->
  exists w rest, s = w +:+ rest /\ all_chars p w = true /\ k rest = Some x.
Proof.
  induction s as [|c s IH]; cbn [star_match]; intros H.
  - exists "", "". auto.
  - destruct (p c) eqn:Hp.
    + destruct (star_match p s k) as [r|] eqn:Hs.
      * injection H as <-. destruct (IH eq_refl) as (w & rest & -> & Hw & Hk).
        exists (String c w), rest. cbn [all_chars String.append].
        rewrite Hp, Hw. auto.
      * exists "", (String c s). auto.
    + exists "", (String c s). auto.
Qed.

Lemma re_match_sound {A} r : forall s (k : string -> option A) x,
  re_match r s k = Some x ->
  exists w rest, s = w +:+ rest /\ lang r w /\ k rest = Some x.
Proof.
  induction r as [p|r1 IH1 r2 IH2|r IH|p|p]; intros s k x H; cbn [re_match] in H.
  - destruct s as [|c s]; [discriminate|]. destruct (p c) eqn:Hp; [|discriminate].
    exists (String c ""), s. cbn [lang String.append]. eauto.
  - apply IH1 in H as (w1 & rest1 & -> & Hw1 & H).
    apply IH2 in H as (w2 & rest2 & -> & Hw2 & H).
    exists (w1 +:+ w2), rest2. rewrite str_app_assoc. cbn [lang]. eauto 8.
  - destruct (re_match r s k) as [y|] eqn:Hr.
    + injection H as <-. apply IH in Hr as (w & rest & -> & Hw & Hk).
      exists w, rest. cbn [lang]. auto.
    + exists "", s. cbn [lang]. auto.
  - apply star_match_sound in H as (w & rest & -> & Hw & Hk).
    exists w, rest. auto.
  - destruct s as [|c s]; [discriminate|]. destruct (p c) eqn:Hp; [|discriminate].
    apply star_match_sound in H as (w & rest & -> & Hw & Hk).
    exists (String c w), rest. cbn [lang all_chars String.append].
    rewrite Hp, Hw. split; [reflexivity|]. split; [|exact Hk].
    split; [discriminate|reflexivity].
Qed.

(** A match of [kv_pattern]: the groups are words of their
    subpatterns, and the subject reads key, [=], value. *)
Lemma kv_match_sound s k v n :
  kv_match s = Some (k, v, n) ->
  lang key_re k /\ lang value_re v /\
  exists rest, s = k +:+ "=" +:+ v +:+ rest /\
    n = (String.length k + 1 + String.length v)%nat.
Proof.
  unfold kv_match. intros H.
  apply re_match_sound in H as (wk & s1 & -> & Hk & H).
  apply re_match_sound in H as (we & s2 & -> & He & H).
  apply re_match_sound in H as (wv & s3 & -> & Hv & H).
  destruct He as (c & -> & Hc). apply Ascii.eqb_eq in Hc. subst c.
  injection H as <- <- <-.
  rewrite !matched_app.
  split; [exact Hk|]. split; [exact Hv|].
  exists s3. split; [reflexivity|].
  unfold consumed. rewrite !str_length_app. cbn [String.length]. lia.
Qed.

Lemma findall_from_sound s : forall skip k v,
  (k, v) ∈ findall_from skip s ->
  exists s' n, kv_match s' = Some (k, v, n).
Proof.
  induction s as [|c s IH]; intros skip k v H; cbn [findall_from] in H.
  - apply elem_of_nil in H. contradiction.
  - destruct skip as [|skip]; [|eauto].
    destruct (kv_match (String c s)) as [[[k' v'] n]|] eqn:Hm; [|eauto].
    apply elem_of_cons in H as [[= -> ->]|H]; eauto.
Qed.
End MatcherFacts.

Section LiteralFacts.
Import PyStr Re PyFloat.

Lemma all_chars_app p (a b : string) :
  all_chars p (a +:+ b) = all_chars p a && all_chars p b.
Proof.
  induction a as [|c a IH]; [reflexivity|].
  simpl. rewrite IH. apply andb_assoc.
Qed.

Lemma read_digits_app d : forall acc n rest,
  all_chars is_digit d = true -> not_ahead Re.is_digit rest ->
  exists acc',
    read_digits acc n (d +:+ rest) = (acc', n + Z.of_nat (String.length d), rest).
Proof.
  induction d as [|c d IH]; intros acc n rest Hd Hr.
  - exists acc. change ("" +:+ rest) with rest.
    cbn [String.length Z.of_nat]. rewrite Z.add_0_r. destruct rest as [|c r]; [reflexivity|].
    cbn [read_digits]. cbn [not_ahead] in Hr. rewrite Hr. reflexivity.
  - cbn [all_chars] in Hd. apply andb_true_iff in Hd as [Hc Hd].
    change (String c d +:+ rest) with (String c (d +:+ rest)).
    cbn [read_digits]. rewrite Hc.
    destruct (IH (10 * acc + digit_val c) (n + 1) rest Hd Hr) as (acc' & ->).
    exists acc'. cbn [String.length]. f_equal. f_equal. lia.
Qed.

Lemma sign_cases c :
  is_sign c = true -> c = "-"%char \/ c = "+"%char.
Proof.
  unfold is_sign. intros H. apply orb_true_iff in H as [H|H];
    apply Ascii.eqb_eq in H; auto.
Qed.

Lemma exp_cases c :
  is_exp c = true -> c = "e"%char \/ c = "E"%char.
Proof.
  unfold is_exp. intros H. apply orb_true_iff in H as [H|H];
    apply Ascii.eqb_eq in H; auto.
Qed.

Lemma digit_not_sign c : is_digit c = true -> is_sign c = false.
Proof.
  intros H. destruct (is_sign c) eqn:Hs; [|reflexivity].
  apply sign_cases in Hs as [->| ->]; vm_compute in H; discriminate.
Qed.

Lemma read_sign_skip c s :
  is_sign c = false -> read_sign (String c s) = (false, String c s).
Proof.
  unfold is_sign. intros H. apply orb_false_elim in H as [H1 H2].
  cbn [read_sign]. rewrite H1, H2. reflexivity.
Qed.

(** An optional sign in front of input that starts with no sign. *)
Lemma read_sign_opt ws rest :
  lang (Opt (Class is_sign)) ws ->
  match rest with String c _ => is_sign c = false | EmptyString => True end ->
  exists neg, read_sign (ws +:+ rest) = (neg, rest).
Proof.
  intros [->|(c & -> & Hc)] Hr.
  - exists false. destruct rest as [|c r]; [reflexivity|].
    apply read_sign_skip. exact Hr.
  - apply sign_cases in Hc as [->| ->]; [exists true|exists false]; reflexivity.
Qed.

Lemma nonempty_head (w rest : string) (P : ascii -> bool) :
  w <> "" -> all_chars P w = true ->
  exists c r, w +:+ rest = String c r /\ P c = true.
Proof.
  destruct w as [|c w]; [congruence|]. intros _ H.
  cbn [all_chars] in H. apply andb_true_iff in H as [H _].
  exists c, (w +:+ rest). auto.
Qed.

Lemma nonempty_length (w : string) : w <> "" -> (0 < String.length w)%nat.
Proof. destruct w; [congruence|]. cbn [String.length]. lia. Qed.

(** [read_exponent] reads a whole exponent part. *)
Lemma read_exponent_word we :
  lang (Seq (Class is_exp) (Seq (Opt (Class is_sign)) (Plus is_digit))) we ->
  exists e, read_exponent we = Some (e, "").
Proof.
  intros (w1 & w2 & -> & (c & -> & Hc) & (ws & wd & -> & Hs & Hne & Hd)).
  change (String c "" +:+ ws +:+ wd) with (String c (ws +:+ wd)).
  cbn [read_exponent]. rewrite Hc.
  destruct (read_sign_opt ws wd Hs) as (neg & ->).
  { destruct (nonempty_head wd "" is_digit Hne Hd) as (c' & r & E & Hc').
    rewrite str_app_nil_r in E. rewrite E. apply digit_not_sign, Hc'. }
  destruct (read_digits_app wd 0 0 "" Hd I) as (e & Hrd).
  rewrite str_app_nil_r in Hrd. rewrite Hrd.
  pose proof (nonempty_length wd Hne) as Hl.
  destruct (Z.ltb_spec 0 (0 + Z.of_nat (String.length wd))) as [_|Hge]; [|lia].
  eauto.
Qed.

Lemma exponent_opt_head we :
  lang (Opt (Seq (Class is_exp) (Seq (Opt (Class is_sign)) (Plus is_digit)))) we ->
  we = "" \/ exists c r, we = String c r /\ is_exp c = true.
Proof.
  intros [->|(w1 & w2 & -> & (c & -> & Hc) & _)]; [auto|].
  right. exists c, w2. auto.
Qed.

Lemma exp_not_digit c : is_exp c = true -> is_digit c = false.
Proof. intros H. apply exp_cases in H as [->| ->]; reflexivity. Qed.

(** [float] accepts every word of group 2 of [kv_pattern]. *)
Lemma of_string_value_word w :
  lang value_re w -> is_Some (of_string w).
Proof.
  intros (ws & w1 & -> & Hs & (wd1 & w2 & -> & Hd1 & (wdot & w3 & -> & Hdot
           & (wd2 & wexp & -> & (Hne2 & Hd2) & Hexp)))).
  cbn [lang] in Hd1.
  pose proof (nonempty_length wd2 Hne2) as Hl2.
  pose proof (exponent_opt_head wexp Hexp) as Hhead.
  assert (Hexp_nd : not_ahead is_digit wexp).
  { destruct Hhead as [->|(c & r & -> & Hc)]; [exact I|].
    cbn [not_ahead]. apply exp_not_digit, Hc. }
  (* what follows the mantissa *)
  assert (Htail : forall neg m tot nf, 0 < tot ->
    is_Some (if 0 <? tot then
               match wexp with
               | EmptyString => Some (of_decimal neg m (- nf))
               | _ =>
                   match read_exponent wexp with
                   | Some (e, EmptyString) => Some (of_decimal neg m (e - nf))
                   | _ => None
                   end
               end
             else None)).
  { intros neg m tot nf Hnf.
    destruct (Z.ltb_spec 0 tot) as [_|]; [|lia].
    destruct Hexp as [->|Hexp]; [eauto|].
    destruct (read_exponent_word wexp Hexp) as (e & ->).
    destruct wexp; eauto. }
  unfold of_string.
  destruct Hdot as [->|(c & -> & Hc)].
  - (* no decimal point: the digits are read in one run *)
    change ("" +:+ wd2 +:+ wexp) with (wd2 +:+ wexp).
    destruct (read_sign_opt ws (wd1 +:+ wd2 +:+ wexp) Hs) as (neg & ->).
    { destruct wd1 as [|c1 wd1].
      - destruct (nonempty_head wd2 wexp is_digit Hne2 Hd2) as (c & r & E & Hc).
        change ("" +:+ wd2 +:+ wexp) with (wd2 +:+ wexp).
        rewrite E. apply digit_not_sign, Hc.
      - cbn [all_chars] in Hd1. apply andb_true_iff in Hd1 as [Hc _].
        apply digit_not_sign, Hc. }
    rewrite <- str_app_assoc.
    destruct (read_digits_app (wd1 +:+ wd2) 0 0 wexp) as (ip & ->);
      [rewrite all_chars_app, Hd1, Hd2; reflexivity|exact Hexp_nd|].
    rewrite str_length_app.
    set (ni := 0 + Z.of_nat (String.length wd1 + String.length wd2)).
    assert (Hni : 0 < ni) by (unfold ni; lia).
    assert (E : match wexp with
                | String "." s2' => read_digits ip 0 s2'
                | _ => (ip, 0, wexp)
                end = (ip, 0, wexp)).
    { destruct Hhead as [->|(c & r & -> & Hc)]; [reflexivity|].
      apply exp_cases in Hc as [->| ->]; reflexivity. }
    rewrite E. apply Htail. lia.
  - (* a decimal point between the two runs of digits *)
    apply Ascii.eqb_eq in Hc. subst c.
    destruct (read_sign_opt ws (wd1 +:+ "." +:+ wd2 +:+ wexp) Hs) as (neg & ->).
    { destruct wd1 as [|c1 wd1]; [reflexivity|].
      cbn [all_chars] in Hd1. apply andb_true_iff in Hd1 as [Hc _].
      apply digit_not_sign, Hc. }
    destruct (read_digits_app wd1 0 0 ("." +:+ wd2 +:+ wexp) Hd1) as (ip & ->);
      [reflexivity|].
    change ("." +:+ wd2 +:+ wexp) with (String "." (wd2 +:+ wexp)).
    cbv iota beta.
    destruct (read_digits_app wd2 ip 0 wexp Hd2 Hexp_nd) as (m & ->).
    apply Htail. lia.
Qed.
End LiteralFacts.

Section CompletenessFacts.
Import PyStr Re.

Lemma star_match_app {A} p w s (k : string -> option A) x :
  all_chars p w = true ->
  star_match p s k = Some x -> star_match p (w +:+ s) k = Some x.
Proof.
  induction w as [|c w IH]; intros Hw Hs; [exact Hs|].
  cbn [all_chars] in Hw. apply andb_true_iff in Hw as [Hc Hw].
  change (String c w +:+ s) with (String c (w +:+ s)).
  cbn [star_match]. rewrite Hc, (IH Hw Hs). reflexivity.
Qed.

Lemma star_match_stop {A} p s (k : string -> option A) :
  not_ahead p s -> star_match p s k = k s.
Proof.
  destruct s as [|c s]; [reflexivity|]. cbn [not_ahead star_match].
  intros ->. reflexivity.
Qed.

(** A greedy run takes the whole word when what follows then
    matches. *)
Lemma star_match_word {A} p w s (k : string -> option A) x :
  all_chars p w = true -> not_ahead p s -> k s = Some x ->
  star_match p (w +:+ s) k = Some x.
Proof.
  intros Hw Hs Hk. apply star_match_app; [exact Hw|].
  rewrite star_match_stop; assumption.
Qed.

Lemma plus_match_word {A} p w s (k : string -> option A) x :
  lang (Plus p) w -> not_ahead p s -> k s = Some x ->
  re_match (Plus p) (w +:+ s) k = Some x.
Proof.
  intros [Hne Hw] Hs Hk. destruct w as [|c w]; [congruence|].
  cbn [all_chars] in Hw. apply andb_true_iff in Hw as [Hc Hw].
  change (String c w +:+ s) with (String c (w +:+ s)).
  cbn [re_match]. rewrite Hc. apply star_match_word; assumption.
Qed.

Lemma re_match_opt {A} r s (k : string -> option A) :
  re_match (Opt r) s k =
  match re_match r s k with Some x => Some x | None => k s end.
Proof. reflexivity. Qed.

Lemma re_match_seq {A} r1 r2 s (k : string -> option A) :
  re_match (Seq r1 r2) s k = re_match r1 s (fun s1 => re_match r2 s1 k).
Proof. reflexivity. Qed.

Lemma re_match_class {A} p c s (k : string -> option A) :
  re_match (Class p) (String c s) k = if p c then k s else None.
Proof. reflexivity. Qed.

Lemma class_no_match {A} p s (k : string -> option A) :
  not_ahead p s -> re_match (Class p) s k = None.
Proof.
  destruct s as [|c s]; [reflexivity|]. cbn [not_ahead re_match].
  intros ->. reflexivity.
Qed.

(** An optional single character: taken when it is there and the rest
    then matches, passed over when it is not there. *)
Lemma opt_class_word {A} p w s (k : string -> option A) x :
  lang (Opt (Class p)) w -> not_ahead p s -> k s = Some x ->
  re_match (Opt (Class p)) (w +:+ s) k = Some x.
Proof.
  intros [->|(c & -> & Hc)] Hs Hk.
  - change ("" +:+ s) with s. rewrite re_match_opt.
    rewrite (class_no_match p s k Hs). exact Hk.
  - change (String c "" +:+ s) with (String c s).
    rewrite re_match_opt, re_match_class, Hc, Hk. reflexivity.
Qed.

Lemma word_head p (w rest : string) :
  w <> "" -> all_chars p w = true ->
  exists c r, w +:+ rest = String c r /\ p c = true.
Proof.
  destruct w as [|c w]; [congruence|]. intros _ H.
  cbn [all_chars] in H. apply andb_true_iff in H as [H _].
  exists c, (w +:+ rest). auto.
Qed.

Lemma digit_is_not_sign c : is_digit c = true -> is_sign c = false.
Proof.
  intros H. destruct (is_sign c) eqn:Hs; [|reflexivity].
  unfold is_sign in Hs. apply orb_true_iff in Hs as [Hs|Hs];
    apply Ascii.eqb_eq in Hs; subst c; vm_compute in H; discriminate.
Qed.

Lemma digit_is_not_dot c : is_digit c = true -> Ascii.eqb "." c = false.
Proof.
  intros H. destruct (Ascii.eqb_spec "." c) as [<-|]; [|reflexivity].
  vm_compute in H; discriminate.
Qed.

Lemma exp_is_ident c : is_exp c = true -> is_ident c = true.
Proof.
  unfold is_exp. intros H. apply orb_true_iff in H as [H|H];
    apply Ascii.eqb_eq in H; subst c; reflexivity.
Qed.

Lemma number_ends_digit rest : number_ends rest -> not_ahead is_digit rest.
Proof.
  destruct rest as [|c r]; [auto|]. cbn [number_ends not_ahead]. unfold is_blank.
  intros H. apply negb_true_iff in H.
  apply orb_false_elim in H as [H _]. apply orb_false_elim in H as [_ H]. exact H.
Qed.

Lemma number_ends_dot rest : number_ends rest -> not_ahead (Ascii.eqb ".") rest.
Proof.
  destruct rest as [|c r]; [auto|]. cbn [number_ends not_ahead]. unfold is_blank.
  intros H. apply negb_true_iff in H.
  apply orb_false_elim in H as [_ H]. rewrite Ascii.eqb_sym. exact H.
Qed.

Lemma number_ends_exp rest : number_ends rest -> not_ahead is_exp rest.
Proof.
  destruct rest as [|c r]; [auto|]. cbn [number_ends not_ahead]. unfold is_blank.
  intros H. apply negb_true_iff in H.
  apply orb_false_elim in H as [H _]. apply orb_false_elim in H as [H _].
  destruct (is_exp c) eqn:E; [|reflexivity].
  apply exp_is_ident in E. congruence.
Qed.

(** The optional exponent part. *)
Lemma exp_match_word {A} we rest (k : string -> option A) x :
  lang (Opt exp_re) we -> number_ends rest -> k rest = Some x ->
  re_match (Opt exp_re) (we +:+ rest) k = Some x.
Proof.
  intros [->|(w1 & w2 & -> & (c & -> & Hc) & (ws & wd & -> & Hs & Hd))] Hr Hk.
  - change ("" +:+ rest) with rest. rewrite re_match_opt.
    unfold exp_re. rewrite re_match_seq.
    rewrite (class_no_match is_exp rest _ (number_ends_exp rest Hr)). exact Hk.
  - rewrite !str_app_assoc.
    change (String c "" +:+ ws +:+ wd +:+ rest) with (String c (ws +:+ wd +:+ rest)).
    assert (E : re_match (Opt (Class is_sign)) (ws +:+ wd +:+ rest)
                  (fun s1 => re_match (Plus is_digit) s1 k) = Some x).
    { apply opt_class_word; [exact Hs| |].
      - destruct Hd as [Hne Hd].
        destruct (word_head is_digit wd rest Hne Hd) as (c' & r & -> & Hc').
        apply digit_is_not_sign, Hc'.
      - apply plus_match_word; [exact Hd|apply number_ends_digit, Hr|exact Hk]. }
    rewrite re_match_opt. unfold exp_re.
    rewrite re_match_seq, re_match_class, Hc.
    rewrite (re_match_seq (Opt (Class is_sign)) (Plus is_digit)), E.
    reflexivity.
Qed.

Lemma exp_head_not_digit we rest :
  lang (Opt exp_re) we -> number_ends rest -> not_ahead is_digit (we +:+ rest).
Proof.
  intros [->|(w1 & w2 & -> & (c & -> & Hc) & _)] Hr.
  - apply number_ends_digit, Hr.
  - change (not_ahead is_digit (String c (w2 +:+ rest))). cbn [not_ahead].
    unfold is_exp in Hc. apply orb_true_iff in Hc as [Hc|Hc];
      apply Ascii.eqb_eq in Hc; subst c; reflexivity.
Qed.

Lemma exp_head_not_dot we rest :
  lang (Opt exp_re) we -> number_ends rest ->
  not_ahead (Ascii.eqb ".") (we +:+ rest).
Proof.
  intros [->|(w1 & w2 & -> & (c & -> & Hc) & _)] Hr.
  - apply number_ends_dot, Hr.
  - change (not_ahead (Ascii.eqb ".") (String c (w2 +:+ rest))). cbn [not_ahead].
    unfold is_exp in Hc. apply orb_true_iff in Hc as [Hc|Hc];
      apply Ascii.eqb_eq in Hc; subst c; reflexivity.
Qed.

Lemma all_chars_snoc p (w : string) :
  w <> "" -> all_chars p w = true ->
  exists w' c, w = w' +:+ String c "" /\ all_chars p w' = true /\ p c = true.
Proof.
  induction w as [|a w IH]; [congruence|]. intros _ H.
  cbn [all_chars] in H. apply andb_true_iff in H as [Ha Hw].
  destruct w as [|b w].
  - exists "", a. auto.
  - destruct (IH ltac:(discriminate) Hw) as (w' & c & E & Hw' & Hc).
    exists (String a w'), c. rewrite E. cbn [all_chars]. rewrite Ha, Hw'. auto.
Qed.

Lemma all_chars_append p (a b : string) :
  all_chars p (a +:+ b) = all_chars p a && all_chars p b.
Proof.
  induction a as [|c a IH]; [reflexivity|].
  change (String c a +:+ b) with (String c (a +:+ b)).
  cbn [all_chars]. rewrite IH. apply andb_assoc.
Qed.

Lemma plus_no_match {A} p s (k : string -> option A) :
  not_ahead p s -> re_match (Plus p) s k = None.
Proof.
  destruct s as [|c s]; [reflexivity|]. cbn [not_ahead re_match].
  intros ->. reflexivity.
Qed.

Lemma re_match_plus {A} p c s (k : string -> option A) :
  re_match (Plus p) (String c s) k = if p c then star_match p s k else None.
Proof. reflexivity. Qed.

Lemma frac_no_match {A} s (k : string -> option A) :
  not_ahead is_digit s -> not_ahead (Ascii.eqb ".") s ->
  re_match frac_re s k = None.
Proof.
  intros Hd Hdot. unfold frac_re, lit.
  rewrite re_match_seq, re_match_opt.
  rewrite (class_no_match _ s _ Hdot).
  rewrite re_match_seq. apply plus_no_match, Hd.
Qed.

Lemma frac_match_digit {A} d s (k : string -> option A) x :
  is_digit d = true -> not_ahead is_digit s ->
  re_match (Opt exp_re) s k = Some x ->
  re_match frac_re (String d s) k = Some x.
Proof.
  intros Hd Hs Hx. unfold frac_re, lit.
  rewrite re_match_seq, re_match_opt, re_match_class.
  rewrite (digit_is_not_dot d Hd).
  rewrite re_match_seq, re_match_plus, Hd.
  rewrite star_match_stop by exact Hs. exact Hx.
Qed.

Lemma frac_match_dot {A} wd s (k : string -> option A) x :
  lang (Plus is_digit) wd -> not_ahead is_digit s ->
  re_match (Opt exp_re) s k = Some x ->
  re_match frac_re (String "." (wd +:+ s)) k = Some x.
Proof.
  intros Hwd Hs Hx. unfold frac_re, lit.
  rewrite re_match_seq, re_match_opt, re_match_class, Ascii.eqb_refl.
  rewrite re_match_seq.
  rewrite (plus_match_word is_digit wd s _ x Hwd Hs Hx). reflexivity.
Qed.

Lemma mantissa_match_word {A} w rest (k : string -> option A) x :
  lang mantissa_re w -> number_ends rest -> k rest = Some x ->
  re_match mantissa_re (w +:+ rest) k = Some x.
Proof.
  intros (wd1 & w2 & -> & Hd1 & (wdot & w3 & -> & Hdot
            & (wd2 & wexp & -> & Hd2 & Hexp))) Hr Hk.
  cbn [lang] in Hd1.
  pose proof (exp_match_word wexp rest k x Hexp Hr Hk) as Hx.
  pose proof (exp_head_not_digit wexp rest Hexp Hr) as Hnd.
  pose proof (exp_head_not_dot wexp rest Hexp Hr) as Hndot.
  unfold mantissa_re. rewrite re_match_seq.
  change (re_match (Star is_digit)) with (star_match (A:=A) is_digit).
  destruct Hdot as [->|(c & -> & Hc)].
  - (* no point: the run of digits gives its last digit back *)
    change ("" +:+ wd2 +:+ wexp) with (wd2 +:+ wexp).
    destruct Hd2 as [Hne2 Hd2].
    assert (Hall : all_chars is_digit (wd1 +:+ wd2) = true)
      by (rewrite all_chars_append, Hd1, Hd2; reflexivity).
    assert (Hne : wd1 +:+ wd2 <> "")
      by (destruct wd1; [exact Hne2|discriminate]).
    destruct (all_chars_snoc is_digit _ Hne Hall) as (w' & d & E & Hw' & Hd).
    rewrite !str_app_assoc. rewrite <- (str_app_assoc wd1 wd2), E.
    rewrite !str_app_assoc.
    apply star_match_app; [exact Hw'|].
    change (String d "" +:+ wexp +:+ rest) with (String d (wexp +:+ rest)).
    cbn [star_match]. rewrite Hd.
    rewrite (star_match_stop is_digit (wexp +:+ rest) _ Hnd).
    rewrite (frac_no_match (wexp +:+ rest) k Hnd Hndot).
    apply frac_match_digit; assumption.
  - apply Ascii.eqb_eq in Hc. subst c.
    rewrite !str_app_assoc.
    apply star_match_word; [exact Hd1|reflexivity|].
    change (String "." "" +:+ wd2 +:+ wexp +:+ rest)
      with (String "."%char (wd2 +:+ wexp +:+ rest)).
    apply frac_match_dot; assumption.
Qed.

Lemma mantissa_head_not_sign w rest :
  lang mantissa_re w -> not_ahead is_sign (w +:+ rest).
Proof.
  intros (wd1 & w2 & -> & Hd1 & (wdot & w3 & -> & Hdot
            & (wd2 & wexp & -> & [Hne2 Hd2] & Hexp))).
  cbn [lang] in Hd1. rewrite !str_app_assoc.
  destruct wd1 as [|c1 wd1].
  - change ("" +:+ wdot +:+ wd2 +:+ wexp +:+ rest)
      with (wdot +:+ wd2 +:+ wexp +:+ rest).
    destruct Hdot as [->|(c & -> & Hc)].
    + change ("" +:+ wd2 +:+ wexp +:+ rest) with (wd2 +:+ wexp +:+ rest).
      destruct (word_head is_digit wd2 (wexp +:+ rest) Hne2 Hd2)
        as (c & r & -> & Hc).
      apply digit_is_not_sign, Hc.
    + apply Ascii.eqb_eq in Hc. subst c. reflexivity.
  - cbn [all_chars] in Hd1. apply andb_true_iff in Hd1 as [Hc _].
    apply digit_is_not_sign, Hc.
Qed.

(** Group 2 takes a whole number when a blank or the end of the input
    follows it. *)
Lemma value_match_word {A} w rest (k : string -> option A) x :
  lang value_re w -> number_ends rest -> k rest = Some x ->
  re_match value_re (w +:+ rest) k = Some x.
Proof.
  intros (ws & wm & -> & Hs & Hm) Hr Hk.
  change value_re with (Seq (Opt (Class is_sign)) mantissa_re).
  rewrite re_match_seq, str_app_assoc.
  exact (opt_class_word is_sign ws (wm +:+ rest)
           (fun s1 => re_match mantissa_re s1 k) x Hs
           (mantissa_head_not_sign wm rest Hm)
           (mantissa_match_word wm rest k x Hm Hr Hk)).
Qed.

Lemma kv_match_pair k v rest :
  well_formed (k, v) -> number_ends rest ->
  kv_match (k +:+ "=" +:+ v +:+ rest) =
  Some (k, v, (String.length k + 1 + String.length v)%nat).
Proof.
  intros [Hk Hv] Hr. cbn [fst snd] in Hk, Hv. unfold kv_match.
  set (s := k +:+ "=" +:+ v +:+ rest).
  assert (E3 : re_match value_re (v +:+ rest)
                 (fun s3 => Some (matched s ("=" +:+ v +:+ rest),
                                  matched (v +:+ rest) s3, consumed s s3))
               = Some (matched s ("=" +:+ v +:+ rest),
                       matched (v +:+ rest) rest, consumed s rest))
    by (apply value_match_word; [exact Hv|exact Hr|reflexivity]).
  assert (E1 : re_match key_re s
                 (fun s1 => re_match (lit "=") s1
                    (fun s2 => re_match value_re s2
                       (fun s3 => Some (matched s s1, matched s2 s3, consumed s s3))))
               = Some (matched s ("=" +:+ v +:+ rest),
                       matched (v +:+ rest) rest, consumed s rest)).
  { unfold s at 1. apply plus_match_word; [exact Hk|reflexivity|].
    change ("=" +:+ v +:+ rest) with (String "="%char (v +:+ rest)).
    unfold lit. rewrite re_match_class, Ascii.eqb_refl. exact E3. }
  rewrite E1. unfold s. rewrite !matched_app.
  unfold consumed. rewrite !str_length_app. cbn [String.length].
  do 3 f_equal. lia.
Qed.

Lemma kv_match_blank c s : is_ident c = false -> kv_match (String c s) = None.
Proof. intros H. unfold kv_match, key_re. rewrite re_match_plus, H. reflexivity. Qed.

Lemma findall_from_skip w : forall s,
  findall_from (String.length w) (w +:+ s) = findall_from 0 s.
Proof.
  induction w as [|c w IH]; intros s; [reflexivity|].
  change (String c w +:+ s) with (String c (w +:+ s)).
  cbn [String.length findall_from]. apply IH.
Qed.

(** After a pair, the scan resumes behind it. *)
Lemma findall_pair k v rest :
  well_formed (k, v) -> number_ends rest ->
  findall (k +:+ "=" +:+ v +:+ rest) = (k, v) :: findall rest.
Proof.
  intros Hwf Hr. pose proof (kv_match_pair k v rest Hwf Hr) as Hm.
  destruct Hwf as [[Hne _] _]. cbn [fst] in Hne.
  destruct k as [|c k]; [congruence|].
  unfold findall.
  change (String c k +:+ "=" +:+ v +:+ rest)
    with (String c (k +:+ "=" +:+ v +:+ rest)) in *.
  cbn [findall_from]. rewrite Hm. f_equal.
  cbn [String.length Nat.add Nat.pred].
  replace (String.length k + 1 + String.length v)%nat
    with (String.length (k +:+ "=" +:+ v)).
  - rewrite <- (findall_from_skip (k +:+ "=" +:+ v) rest).
    rewrite !str_app_assoc. reflexivity.
  - rewrite !str_length_app. cbn [String.length]. lia.
Qed.

(** A blank is passed over. *)
Lemma findall_blank c rest :
  is_blank c = true -> findall (String c rest) = findall rest.
Proof.
  intros H. unfold findall. cbn [findall_from].
  rewrite kv_match_blank; [reflexivity|].
  unfold is_blank in H. apply negb_true_iff in H.
  apply orb_false_elim in H as [H _]. apply orb_false_elim in H as [H _].
  exact H.
Qed.

Lemma findall_blanks w rest :
  all_chars is_blank w = true -> findall (w +:+ rest) = findall rest.
Proof.
  induction w as [|c w IH]; intros H; [reflexivity|].
  cbn [all_chars] in H. apply andb_true_iff in H as [Hc Hw].
  change (String c w +:+ rest) with (String c (w +:+ rest)).
  rewrite findall_blank by exact Hc. apply IH, Hw.
Qed.

Lemma blanks_end_number sep rest :
  sep <> "" -> all_chars is_blank sep = true -> number_ends (sep +:+ rest).
Proof.
  intros Hne H. destruct (word_head is_blank sep rest Hne H) as (c & r & -> & Hc).
  exact Hc.
Qed.

Lemma findall_framed sep pairs :
  sep <> "" -> all_chars is_blank sep = true ->
  Forall well_formed pairs ->
  findall (framed sep pairs) = pairs.
Proof.
  intros Hne Hsep Hwf. induction Hwf as [|[k v] pairs Hkv _ IH]; [reflexivity|].
  cbn [framed]. unfold pair_text. cbn [fst snd].
  rewrite !str_app_assoc.
  rewrite findall_pair;
    [|exact Hkv|apply blanks_end_number; assumption].
  rewrite findall_blanks by exact Hsep. rewrite IH. reflexivity.
Qed.
End CompletenessFacts.

Section SettingsReadFacts.
Import PyFloat Converter.

Lemma for_each_ext {A X} (f g : A -> X -> Log.Logged A) (xs : list X) (a : A) :
  (forall a x, f a x = g a x) -> Log.for_each f xs a = Log.for_each g xs a.
Proof.
  intros H. revert a. induction xs as [|x xs IH]; intros a; [reflexivity|].
  cbn [Log.for_each]. rewrite H. unfold Log.bind.
  destruct (g a x) as [a' l]. rewrite IH. reflexivity.
Qed.

Lemma convert_item_agree s s' st item :
  (forall category, category ∈ categories -> Py.get s category = Py.get s' category) ->
  convert_item s st item = convert_item s' st item.
Proof.
  intros H. destruct st as [cd info], item as [k v]. unfold convert_item.
  destruct (variable_mappings !! k) as [c|] eqn:Hm; [|reflexivity].
  rewrite (H c) by (eapply variable_category; eauto). reflexivity.
Qed.

Lemma apply_conversions_agree self self' data :
  settings_agree (conversion_settings self) (conversion_settings self') ->
  _apply_conversions self data = _apply_conversions self' data.
Proof.
  intros [Hen Hcat]. unfold _apply_conversions.
  change (Py.truthy (Py.get_default (conversion_settings self) "enabled"
                       (Py.VBool true)))
    with (Spec.enabled (conversion_settings self)).
  change (Py.truthy (Py.get_default (conversion_settings self') "enabled"
                       (Py.VBool true)))
    with (Spec.enabled (conversion_settings self')).
  rewrite Hen. destruct (Spec.enabled (conversion_settings self')); cbn [negb];
    [|reflexivity].
  apply for_each_ext. intros a x. apply convert_item_agree, Hcat.
Qed.

Lemma process_message_agree self self' msg :
  settings_agree (conversion_settings self) (conversion_settings self') ->
  out_message (process_message self msg) = out_message (process_message self' msg) /\
  out_info (process_message self msg) = out_info (process_message self' msg) /\
  out_log (process_message self msg) = out_log (process_message self' msg).
Proof.
  intros Hag.
  unfold process_message.
  destruct (Re.findall msg) as [|p ps]; [repeat split|].
  unfold out_message, out_info, out_log, Log.bind, Log.ret.
  destruct (PyDict.comprehension _convert_value (p :: ps)) as [d l1].
  rewrite (apply_conversions_agree self self' d Hag).
  destruct (_apply_conversions self' d) as [[cd info] l2].
  cbn [fst snd]. repeat split.
Qed.
End SettingsReadFacts.

Section ConverterLogFacts.
Import PyFloat Converter.

Lemma for_each_snd_in {A X} (body : A -> X -> Log.Logged A)
      (item_log : X -> list Log.record) (xs : list X) (a : A) :
  (forall a x, x ∈ xs -> snd (body a x) = item_log x) ->
  snd (Log.for_each body xs a) = concat (map item_log xs).
Proof.
  revert a; induction xs as [|x xs IH]; intros a Hlog;
    cbn [Log.for_each map concat]; [reflexivity|].
  rewrite bind_snd, Hlog by (apply elem_of_cons; left; reflexivity).
  rewrite IH; [reflexivity|].
  intros a' x' Hx. apply Hlog. apply elem_of_cons. right. exact Hx.
Qed.

Lemma concat_nil_map {X} (xs : list X) :
  concat (map (fun _ : X => @nil Log.record) xs) = [].
Proof. induction xs as [|x xs IH]; [reflexivity|exact IH]. Qed.

Lemma convert_value_silent v :
  is_Some (of_string v) -> snd (_convert_value v) = [].
Proof. intros [x Hx]. unfold _convert_value. rewrite Hx. reflexivity. Qed.
End ConverterLogFacts.

Section ParserProperties.
Import PyStr Re PyFloat Converter.

Lemma findall_from_occurs s : forall skip k v,
  (k, v) ∈ findall_from skip s ->
  well_formed (k, v) /\
  exists before after, s = before +:+ pair_text (k, v) +:+ after.
Proof.
  induction s as [|c s IH]; intros skip k v H; cbn [findall_from] in H.
  - apply elem_of_nil in H. contradiction.
  - assert (Hrec : forall skip', (k, v) ∈ findall_from skip' s ->
              well_formed (k, v) /\
              exists before after,
                String c s = before +:+ pair_text (k, v) +:+ after).
    { intros skip' H'. destruct (IH skip' k v H') as (Hwf & b & a & E).
      split; [exact Hwf|]. exists (String c b), a. rewrite E. reflexivity. }
    destruct skip as [|skip]; [|eauto].
    destruct (kv_match (String c s)) as [[[k' v'] n]|] eqn:Hm; [|eauto].
    apply elem_of_cons in H as [[= -> ->]|H]; [|eauto].
    apply kv_match_sound in Hm as (Hk & Hv & rest & E & _).
    split; [split; assumption|].
    exists "", rest. rewrite E. unfold pair_text. cbn [fst snd].
    rewrite !str_app_assoc. reflexivity.
Qed.

Lemma findall_pairs_parse msg :
  Forall (fun kv =>
            well_formed kv /\
            (exists before after, msg = before +:+ pair_text kv +:+ after) /\
            is_Some (of_string (snd kv)) /\
            snd (_convert_value (snd kv)) = [])
         (findall msg).
Proof.
  apply Forall_forall. intros [k v] Hin.
  destruct (findall_from_occurs msg 0 k v Hin) as (Hwf & Hocc).
  pose proof (of_string_value_word v (proj2 Hwf)) as Hf.
  repeat split; try apply Hwf; try assumption.
  apply convert_value_silent, Hf.
Qed.

(** Building the dictionary of a message logs nothing. *)
Lemma comprehension_silent msg :
  snd (PyDict.comprehension _convert_value (findall msg)) = [].
Proof.
  pose proof (findall_pairs_parse msg) as H.
  unfold PyDict.comprehension.
  rewrite (for_each_snd_in _ (fun _ => [])); [apply concat_nil_map|].
  intros d [k v] Hin. rewrite bind_snd.
  rewrite Forall_forall in H. destruct (H _ Hin) as (_ & _ & _ & Hs).
  cbn [snd] in Hs. rewrite Hs. reflexivity.
Qed.

(** X1.  Whatever the message, each pair that [kv_pattern.findall]
    captures is an identifier and a number that stand in the message as
    [identifier=number], and [float] accepts the number: the fallback
    of [_convert_value] for a [ValueError] is never taken, and building
    the dictionary of a message logs nothing. *)
Theorem findall_captures_identifiers_and_floats :
  forall msg,
    Forall (fun kv =>
              well_formed kv /\
              (exists before after, msg = before +:+ pair_text kv +:+ after) /\
              is_Some (of_string (snd kv)) /\
              snd (_convert_value (snd kv)) = [])
           (findall msg) /\
    snd (PyDict.comprehension _convert_value (findall msg)) = [].
Proof.
  intros msg. split; [apply findall_pairs_parse|apply comprehension_silent].
Qed.

Lemma well_formed_of_match s k v n :
  kv_match s = Some (k, v, n) -> well_formed (k, v).
Proof.
  intros H. apply kv_match_sound in H as (Hk & Hv & _). split; assumption.
Qed.

Lemma findall_joined sep pairs :
  sep <> "" -> all_chars is_blank sep = true ->
  Forall well_formed pairs ->
  findall (join sep (map pair_text pairs)) = pairs.
Proof.
  intros Hne Hsep Hwf. induction Hwf as [|[k v] pairs Hkv Hrest IH]; [reflexivity|].
  destruct pairs as [|kv' pairs].
  - cbn [map join]. unfold pair_text. cbn [fst snd].
    rewrite <- (str_app_nil_r (k +:+ "=" +:+ v)). rewrite !str_app_assoc.
    rewrite findall_pair; [reflexivity|exact Hkv|exact I].
  - change (join sep (map pair_text ((k, v) :: kv' :: pairs)))
      with (pair_text (k, v) +:+ sep +:+ join sep (map pair_text (kv' :: pairs))).
    unfold pair_text at 1. cbn [fst snd]. rewrite !str_app_assoc.
    rewrite findall_pair;
      [|exact Hkv|apply blanks_end_number; assumption].
    rewrite findall_blanks by exact Hsep. rewrite IH. reflexivity.
Qed.

(** X2.  A message that gives each pair a line of its own, an
    identifier, [=] and a number, the lines separated or ended by a
    separator of blanks (CRLF, LF, spaces), is parsed into exactly its
    pairs, in order. *)
Theorem findall_recovers_the_pairs_of_lines :
  forall sep pairs,
    sep <> "" -> all_chars is_blank sep = true ->
    Forall well_formed pairs ->
    findall (framed sep pairs) = pairs /\
    findall (join sep (map pair_text pairs)) = pairs.
Proof.
  intros sep pairs Hne Hsep Hwf. split.
  - apply findall_framed; assumption.
  - apply findall_joined; assumption.
Qed.

Lemma findall_recovers_the_pairs_of_lines_witness :
  findall (framed CRLF [("time", "17.0000042330833"); ("vario", "-2.5e-1");
                        ("ax", ".5")])
  = [("time", "17.0000042330833"); ("vario", "-2.5e-1"); ("ax", ".5")] /\
  findall (join CRLF (map pair_text
             [("time", "17.0000042330833"); ("vario", "-2.5e-1"); ("ax", ".5")]))
  = [("time", "17.0000042330833"); ("vario", "-2.5e-1"); ("ax", ".5")].
Proof.
  apply (findall_recovers_the_pairs_of_lines CRLF
           [("time", "17.0000042330833"); ("vario", "-2.5e-1"); ("ax", ".5")]).
  - discriminate.
  - vm_compute. reflexivity.
  - apply Forall_cons_2; [|apply Forall_cons_2; [|apply Forall_cons_2;
                                                    [|apply Forall_nil_2]]].
    + apply (well_formed_of_match "time=17.0000042330833" _ _ 21%nat).
      vm_compute. reflexivity.
    + apply (well_formed_of_match "vario=-2.5e-1" _ _ 13%nat).
      vm_compute. reflexivity.
    + apply (well_formed_of_match "ax=.5" _ _ 5%nat).
      vm_compute. reflexivity.
Defined.
End ParserProperties.

Section ConverterLogProperties.
Import PyFloat Converter.

Ltac find_elem :=
  repeat (apply elem_of_cons; first [left; reflexivity | right]).

Ltac split_cat H :=
  unfold categories in H;
  repeat (apply elem_of_cons in H as [->|H]); [..|apply elem_of_nil in H; contradiction].

(** The recognized targets, category by category. *)
Lemma recognized_cases category target :
  category ∈ categories ->
  Spec.recognized category target = true ->
  (category, target) ∈
    [ ("altitude", Py.VStr "meters"); ("altitude", Py.VStr "feet");
      ("speed", Py.VStr "mps"); ("speed", Py.VStr "kmh");
      ("speed", Py.VStr "knots");
      ("vario", Py.VStr "mps"); ("vario", Py.VStr "fpm");
      ("acceleration", Py.VStr "mps2"); ("acceleration", Py.VStr "fps2") ].
Proof.
  intros Hc Hrec. destruct target as [| b | u]; try discriminate.
  unfold Spec.recognized in Hrec.
  apply orb_true_iff in Hrec as [Hrec|Hrec]; apply bool_decide_eq_true in Hrec.
  - split_cat Hc; vm_compute in Hrec; injection Hrec as <-;
      find_elem.
  - destruct Hrec as [f Hf]. rewrite table_factor_eq in Hf.
    split_cat Hc;
      repeat match type of Hf with
        | context [String.eqb ?a u] =>
            destruct (String.eqb_spec a u);
            [subst u; find_elem; vm_compute in Hf; discriminate Hf|]
        end;
      vm_compute in Hf; discriminate Hf.
Qed.

(** A recognized target unit: no record. *)
Lemma convert_variable_recognized_log variable value category target :
  category ∈ categories ->
  Spec.recognized category target = true ->
  snd (_convert_variable variable value category target) = [].
Proof.
  intros Hc Hrec. pose proof (recognized_cases category target Hc Hrec) as H.
  unfold _convert_variable. rewrite bind_snd.
  repeat (apply elem_of_cons in H as [H|H];
          [injection H as -> ->;
           cbn [String.eqb Ascii.eqb Bool.eqb];
           unfold _convert_altitude, _convert_speed, _convert_vario,
             _convert_acceleration, scaled;
           cbn [Py.eq_str String.eqb Ascii.eqb Bool.eqb];
           rewrite ?factor_altitude, ?factor_kmh, ?factor_knots, ?factor_fpm,
             ?factor_fps2;
           reflexivity|]).
  apply elem_of_nil in H. contradiction.
Qed.

Lemma convert_item_log settings st item :
  snd (convert_item settings st item) = item_log settings item.
Proof.
  destruct st as [cd info], item as [k v].
  unfold convert_item, item_log, Spec.configured. cbn [fst snd].
  destruct (variable_mappings !! k) as [c|] eqn:Hm; [|reflexivity].
  pose proof (variable_category k c Hm) as Hc.
  destruct (Py.truthy (Py.get settings c)) eqn:Ht; cbn [negb]; [|reflexivity].
  rewrite bind_snd.
  pose proof (convert_variable_fst k v c (Py.get settings c) Hc) as Hf.
  destruct (Spec.recognized c (Py.get settings c)) eqn:Hrec.
  - rewrite (convert_variable_recognized_log k v c _ Hc Hrec).
    destruct (_convert_variable k v c (Py.get settings c)) as [[v' a] l].
    cbn [fst snd] in *. rewrite <- Hf. cbn [fst snd].
    destruct a; reflexivity.
  - rewrite (convert_variable_unknown_log k v c _ Hc Hrec).
    rewrite (category_rule_unrecognized c _ v Hrec) in Hf.
    destruct (_convert_variable k v c (Py.get settings c)) as [[v' a] l].
    cbn [fst snd] in *. injection Hf as -> ->. reflexivity.
Qed.

Lemma frame_of_no_pairs msg : Re.findall msg = [] -> frame_of msg = [].
Proof. intros H. unfold frame_of. rewrite H. reflexivity. Qed.

Lemma apply_conversions_log self data :
  snd (_apply_conversions self data) =
  if Spec.enabled (conversion_settings self)
  then concat (map (item_log (conversion_settings self)) data)
  else [].
Proof.
  unfold _apply_conversions.
  change (Py.truthy (Py.get_default (conversion_settings self) "enabled"
                       (Py.VBool true)))
    with (Spec.enabled (conversion_settings self)).
  destruct (Spec.enabled (conversion_settings self)); cbn [negb]; [|reflexivity].
  apply for_each_snd. intros a x. apply convert_item_log.
Qed.

Lemma process_message_log self msg :
  out_log (process_message self msg) =
  if Spec.enabled (conversion_settings self)
  then concat (map (item_log (conversion_settings self)) (frame_of msg))
  else [].
Proof.
  destruct (Re.findall msg) as [|p ps] eqn:Hf.
  - rewrite process_message_no_pairs by exact Hf.
    rewrite frame_of_no_pairs by exact Hf.
    destruct (Spec.enabled (conversion_settings self)); reflexivity.
  - assert (Hne : Re.findall msg <> []) by (rewrite Hf; discriminate).
    destruct (process_message_pairs self msg Hne) as (_ & _ & _ & ->).
    rewrite comprehension_silent.
    apply apply_conversions_log.
Qed.

Lemma item_log_levels settings item :
  Forall (fun rec => Log.lvl rec = Log.DEBUG \/ Log.lvl rec = Log.WARNING)
         (item_log settings item).
Proof.
  unfold item_log. destruct (Spec.configured settings (fst item)) as [[c t]|];
    [|constructor].
  destruct (Spec.recognized c t).
  - destruct (snd (Spec.category_rule c t (snd item))); [|constructor].
    apply Forall_cons_2; [left; reflexivity|constructor].
  - apply Forall_cons_2; [right; reflexivity|constructor].
Qed.

(** X3.  The log of [process_message] is known line for line: with
    conversions enabled, one record for each entry of the frame that is
    converted, one warning for each entry whose category has an
    unknown target, in the order of the frame, and nothing else; with
    conversions disabled, nothing.  No record is an error. *)
Theorem process_message_logs_conversions_and_unknown_units :
  forall self msg,
    out_log (process_message self msg) =
      (if Spec.enabled (conversion_settings self)
       then concat (map (item_log (conversion_settings self)) (frame_of msg))
       else []) /\
    Forall (fun rec => Log.lvl rec = Log.DEBUG \/ Log.lvl rec = Log.WARNING)
           (out_log (process_message self msg)).
Proof.
  intros self msg. split; [apply process_message_log|].
  rewrite process_message_log.
  destruct (Spec.enabled (conversion_settings self)); [|constructor].
  induction (frame_of msg) as [|item d IH]; [constructor|].
  cbn [map concat]. apply Forall_app. split; [apply item_log_levels|exact IH].
Qed.
End ConverterLogProperties.

Section ConverterRecordFacts.
Import PyFloat Converter.

Lemma set_notin {V} k (v : V) (d : PyDict.dict V) :
  k ∉ PyDict.keys d -> PyDict.set k v d = d ++ [(k, v)].
Proof.
  unfold PyDict.keys. induction d as [|[k' v'] d IH]; [reflexivity|].
  cbn [fmap list_fmap fst]. rewrite not_elem_of_cons. intros [Hne Hnot].
  cbn [PyDict.set app]. destruct (String.eqb_spec k k'); [congruence|].
  rewrite IH by exact Hnot. reflexivity.
Qed.

Lemma resolve_enabled s k v :
  Spec.enabled s = true ->
  Spec.resolve s k v =
  match Spec.configured s k with
  | Some (c, t) => Spec.category_rule c t v
  | None => (v, false)
  end.
Proof. intros H. unfold Spec.resolve. rewrite H. reflexivity. Qed.

Lemma converted_entry_mapped s k v :
  Spec.is_converted s (k, v) = true ->
  exists c u f,
    variable_mappings !! k = Some c /\ Py.get s c = Py.VStr u /\
    Spec.table_factor c u = Some f /\
    Spec.resolve s k v = (mul v f, true) /\ Spec.enabled s = true.
Proof.
  unfold Spec.is_converted, Spec.resolve. cbn [fst snd].
  destruct (Spec.enabled s); [|discriminate].
  destruct (Spec.configured s k) as [[c t]|] eqn:Hcfg; [|discriminate].
  apply configured_category in Hcfg as (Hm & -> & _).
  unfold Spec.category_rule.
  destruct (Py.get s c) as [| b | u] eqn:Hg; try discriminate.
  destruct (Spec.table_factor c u) as [f|] eqn:Hf; [|discriminate].
  intros _. exists c, u, f. auto.
Qed.
Lemma item_effect_unconverted s st item :
  Spec.enabled s = true ->
  Spec.is_converted s item <> true ->
  item_effect s st item = st.
Proof.
  intros Hen Hc. unfold Spec.is_converted in Hc.
  rewrite (resolve_enabled s _ _ Hen) in Hc.
  unfold item_effect.
  destruct (Spec.configured s (fst item)) as [[c t]|]; [|reflexivity].
  destruct (snd (Spec.category_rule c t (snd item))); [congruence|reflexivity].
Qed.

Lemma item_effect_converted s cd info k v :
  Spec.is_converted s (k, v) = true ->
  item_effect s (cd, info) (k, v) =
  (PyDict.set k (fst (Spec.resolve s k v)) cd,
   MkRecord (info_conversions_applied info + 1)
            (info_variables_converted info ++ [k])
            (PyDict.set k (snd (detail_entry s (k, v)))
               (info_conversions_detail info))).
Proof.
  intros Hc. destruct (converted_entry_mapped s k v Hc)
    as (c & u & f & Hm & Hget & Hf & Hres & Hen).
  unfold item_effect, detail_entry. cbn [fst snd].
  assert (Hcfg : Spec.configured s k = Some (c, Py.VStr u)).
  { unfold Spec.configured. rewrite Hm, Hget.
    rewrite (table_factor_truthy c u f Hf). reflexivity. }
  rewrite Hcfg, Hres, Hm. change (default "" (Some c)) with c.
  cbn [fst snd]. rewrite Hget.
  unfold Spec.category_rule. rewrite Hf. reflexivity.
Qed.

(** The details of the loop, from a record whose details do not name
    the keys still to visit. *)
Lemma loop_details s (xs : list (string * float)) : forall cd info,
  Spec.enabled s = true ->
  NoDup (PyDict.keys xs) ->
  (forall k, k ∈ PyDict.keys xs -> k ∉ PyDict.keys (info_conversions_detail info)) ->
  info_conversions_detail (snd (fold_left (item_effect s) xs (cd, info))) =
  info_conversions_detail info ++
  (detail_entry s <$> filter (fun kv => Spec.is_converted s kv = true) xs).
Proof.
  induction xs as [|[k v] xs IH]; intros cd info Hen Hnd Hdis.
  - rewrite filter_nil. cbn [fold_left snd]. symmetry. apply app_nil_r.
  - unfold PyDict.keys in Hnd. cbn [fmap list_fmap fst] in Hnd.
    apply NoDup_cons in Hnd as [Hk Hnd].
    assert (Hk0 : k ∉ PyDict.keys (info_conversions_detail info))
      by (apply Hdis; apply elem_of_cons; left; reflexivity).
    rewrite filter_cons. cbn [fold_left].
    destruct (decide (Spec.is_converted s (k, v) = true)) as [Hc|Hc].
    + rewrite (item_effect_converted s cd info k v Hc).
      rewrite IH; [|exact Hen|exact Hnd|].
      * cbn [info_conversions_detail fmap list_fmap].
        rewrite set_notin by exact Hk0. rewrite <- app_assoc.
        reflexivity.
      * intros k' Hk'. cbn [info_conversions_detail].
        rewrite set_notin by exact Hk0.
        unfold PyDict.keys. rewrite fmap_app. cbn [fmap list_fmap fst].
        rewrite elem_of_app, list_elem_of_singleton.
        intros [Hin| ->].
        -- apply (Hdis k'); [apply elem_of_cons; right; exact Hk'|exact Hin].
        -- apply Hk. exact Hk'.
    + rewrite (item_effect_unconverted s (cd, info) (k, v) Hen Hc).
      apply IH; [exact Hen|exact Hnd|].
      intros k' Hk'. apply Hdis. apply elem_of_cons. right. exact Hk'.
Qed.

Lemma apply_conversions_detail self (data : list (string * float)) :
  NoDup (PyDict.keys data) ->
  info_conversions_detail (snd (fst (_apply_conversions self data))) =
  detail_entry (conversion_settings self)
    <$> Spec.converted_entries (conversion_settings self) data.
Proof.
  intros Hnd. unfold _apply_conversions, Spec.converted_entries.
  set (s := conversion_settings self).
  change (Py.truthy (Py.get_default s "enabled" (Py.VBool true)))
    with (Spec.enabled s).
  destruct (Spec.enabled s) eqn:Hen; cbn [negb].
  - rewrite for_each_fst.
    rewrite (fold_left_ext _ (item_effect s)) by (intros; apply convert_item_fst).
    rewrite (loop_details s data data empty_record Hen Hnd); [reflexivity|].
    intros k _. apply not_elem_of_nil.
  - cbn [Log.ret fst snd empty_record info_conversions_detail].
    rewrite filter_none; [reflexivity|].
    intros [k v] _. unfold Spec.is_converted.
    rewrite resolve_disabled by exact Hen. discriminate.
Qed.

Lemma converted_entries_keys s (d : list (string * float)) :
  NoDup (PyDict.keys d) -> NoDup (fst <$> Spec.converted_entries s d).
Proof.
  unfold Spec.converted_entries, PyDict.keys.
  induction d as [|[k v] d IH]; [constructor|].
  cbn [fmap list_fmap fst]. intros Hnd. apply NoDup_cons in Hnd as [Hk Hnd].
  rewrite filter_cons. destruct (decide _); [|exact (IH Hnd)].
  cbn [fmap list_fmap fst]. apply NoDup_cons. split; [|exact (IH Hnd)].
  intros Hin. apply Hk. apply list_elem_of_fmap in Hin as ([k' v'] & -> & Hin).
  apply list_elem_of_filter in Hin as [_ Hin].
  apply (list_elem_of_fmap_2 fst) in Hin. exact Hin.
Qed.

End ConverterRecordFacts.

Section ConverterSwitchProperties.
Import PyFloat Converter.

Lemma logged_eq {A} (r : Log.Logged A) a l : fst r = a -> snd r = l -> r = (a, l).
Proof. destruct r. cbn. intros -> ->. reflexivity. Qed.

Lemma apply_conversions_disabled self data :
  Spec.enabled (conversion_settings self) = false ->
  _apply_conversions self data = Log.ret (data, empty_record).
Proof.
  intros Hen. unfold _apply_conversions.
  change (Py.truthy (Py.get_default (conversion_settings self) "enabled"
                       (Py.VBool true)))
    with (Spec.enabled (conversion_settings self)).
  rewrite Hen. reflexivity.
Qed.

(** X4.  The enable flag is a master switch: with a false flag a
    message with pairs comes back as its frame, serialized, whatever
    the target units are; the record counts no conversion, the
    statistics stay as they are and nothing is logged. *)
Theorem disabled_conversions_only_reformat :
  forall self msg,
    Spec.enabled (conversion_settings self) = false ->
    Re.findall msg <> [] ->
    process_message self msg =
    (Spec.serialize (frame_of msg), InfoOk empty_record, self, []).
Proof.
  intros self msg Hen Hne.
  destruct (process_message_pairs self msg Hne) as (Hm & Hi & Hc & Hl).
  unfold emitted, emitted_info in *.
  rewrite (apply_conversions_disabled self _ Hen) in *.
  cbn [Log.ret fst snd empty_record info_conversions_applied] in *.
  rewrite comprehension_silent in Hl.
  unfold out_message, out_info, out_converter, out_log in *.
  destruct (process_message self msg) as [[[m i] c] l]. cbn [fst snd] in *.
  subst. reflexivity.
Qed.

Lemma disabled_conversions_only_reformat_witness :
  process_message (init disabled_yards_settings) "altitude=100.0 airspeed=30.5" =
  (Spec.serialize (frame_of "altitude=100.0 airspeed=30.5"),
   InfoOk empty_record, init disabled_yards_settings, []).
Proof.
  apply (disabled_conversions_only_reformat (init disabled_yards_settings)
           "altitude=100.0 airspeed=30.5").
  - vm_compute. reflexivity.
  - vm_compute. discriminate.
Defined.

(** X5.  A category without a target, its key missing from the
    settings or holding [None] or the empty string, is not converted:
    each of its variables is emitted with the parsed value, is not
    listed as converted and leaves no record in the log. *)
Theorem category_without_target_passes_through :
  forall self msg k v category,
    PyDict.get k (frame_of msg) = Some v ->
    variable_mappings !! k = Some category ->
    Py.truthy (Py.get (conversion_settings self) category) = false ->
    PyDict.get k (emitted self msg) = Some v /\
    (k ∉ info_variables_converted (emitted_info self msg)) /\
    item_log (conversion_settings self) (k, v) = [].
Proof.
  intros self msg k v category Hget Hm Ht.
  assert (Hcfg : Spec.configured (conversion_settings self) k = None)
    by (unfold Spec.configured; rewrite Hm, Ht; reflexivity).
  assert (Hres : Spec.resolve (conversion_settings self) k v = (v, false)).
  { unfold Spec.resolve. rewrite Hcfg.
    destruct (Spec.enabled (conversion_settings self)); reflexivity. }
  split; [|split].
  - rewrite get_emitted, Hget. cbn [fmap option_fmap option_map].
    rewrite Hres. reflexivity.
  - apply (not_converted_not_listed self msg k v Hget). rewrite Hres. reflexivity.
  - unfold item_log. cbn [fst]. rewrite Hcfg. reflexivity.
Qed.

Lemma category_without_target_passes_through_witness :
  PyDict.get "vario" (frame_of "vario=-2.5 altitude=100.0") = Some (flit "-2.5") /\
  PyDict.get "vario" (emitted (init yards_settings) "vario=-2.5 altitude=100.0")
  = Some (flit "-2.5") /\
  ("vario" ∉ info_variables_converted
               (emitted_info (init yards_settings) "vario=-2.5 altitude=100.0")) /\
  item_log (conversion_settings (init yards_settings)) ("vario", flit "-2.5") = [].
Proof.
  split; [vm_compute; reflexivity|].
  apply (category_without_target_passes_through (init yards_settings)
           "vario=-2.5 altitude=100.0" "vario" (flit "-2.5") "vario");
    vm_compute; reflexivity.
Defined.

(** X6.  What [process_message] returns and logs depends on the
    settings only through the enable flag and the targets of the four
    categories: the statistics of the converter and any other key of
    the dictionary have no influence, and a dictionary without the key
    [enabled] converts as one that enables. *)
Theorem process_message_reads_five_settings :
  forall self self' msg,
    settings_agree (conversion_settings self) (conversion_settings self') ->
    out_message (process_message self msg) = out_message (process_message self' msg) /\
    out_info (process_message self msg) = out_info (process_message self' msg) /\
    out_log (process_message self msg) = out_log (process_message self' msg).
Proof. intros self self' msg. apply process_message_agree. Qed.

Lemma process_message_reads_five_settings_witness :
  let msg := "altitude=100.0 airspeed=30.5" in
  let self := Build (delete "enabled" feet_settings) 7 {["vario"]} in
  let self' := init (<["theme" := Py.VStr "dark"]> feet_settings) in
  out_message (process_message self msg) = out_message (process_message self' msg) /\
  out_info (process_message self msg) = out_info (process_message self' msg) /\
  out_log (process_message self msg) = out_log (process_message self' msg).
Proof.
  cbv zeta.
  apply (process_message_reads_five_settings
           (Build (delete "enabled" feet_settings) 7 {["vario"]})
           (init (<["theme" := Py.VStr "dark"]> feet_settings))).
  split; [vm_compute; reflexivity|].
  intros category Hc. unfold categories in Hc.
  repeat (apply elem_of_cons in Hc as [->|Hc]; [vm_compute; reflexivity|]).
  apply elem_of_nil in Hc. contradiction.
Defined.
End ConverterSwitchProperties.

Section StatisticsProperties.
Import PyFloat Converter.

Lemma out_info_variables self msg :
  info_variables (out_info (process_message self msg)) =
  fst <$> Spec.converted_entries (conversion_settings self) (frame_of msg).
Proof.
  destruct (Re.findall msg) as [|p ps] eqn:Hf.
  - rewrite process_message_no_pairs by exact Hf.
    rewrite frame_of_no_pairs by exact Hf. reflexivity.
  - assert (Hne : Re.findall msg <> []) by (rewrite Hf; discriminate).
    destruct (process_message_pairs self msg Hne) as (_ & -> & _).
    cbn [info_variables]. apply emitted_info_spec.
Qed.

Lemma out_info_applied self msg :
  info_get_applied (out_info (process_message self msg)) =
  Z.of_nat (length (info_variables (out_info (process_message self msg)))).
Proof.
  destruct (Re.findall msg) as [|p ps] eqn:Hf.
  - rewrite process_message_no_pairs by exact Hf. reflexivity.
  - assert (Hne : Re.findall msg <> []) by (rewrite Hf; discriminate).
    destruct (process_message_pairs self msg Hne) as (_ & -> & _).
    cbn [info_variables info_get_applied]. apply emitted_info_spec.
Qed.

Lemma info_variables_nodup self msg :
  NoDup (info_variables (out_info (process_message self msg))).
Proof.
  rewrite out_info_variables. apply converted_entries_keys, nodup_keys_frame.
Qed.

Lemma info_variables_supported self msg v :
  v ∈ info_variables (out_info (process_message self msg)) ->
  v ∈ supported_variables.
Proof.
  rewrite out_info_variables. intros Hin.
  apply list_elem_of_fmap in Hin as ([k x] & -> & Hin).
  apply list_elem_of_filter in Hin as [Hc _].
  destruct (converted_entry_mapped _ k x Hc) as (c & _ & _ & Hm & _).
  cbn [fst]. apply elem_of_list_to_map_2 in Hm.
  apply (list_elem_of_fmap_2 fst) in Hm. exact Hm.
Qed.

(** The converter after one message, field by field. *)
Lemma out_converter_fields self msg :
  let r := process_message self msg in
  conversion_settings (out_converter r) = conversion_settings self /\
  conversions_applied (out_converter r) =
    conversions_applied self + info_get_applied (out_info r) /\
  variables_converted (out_converter r) =
    variables_converted self ∪ list_to_set (info_variables (out_info r)).
Proof.
  cbv zeta. destruct (Re.findall msg) as [|p ps] eqn:Hf.
  - rewrite process_message_no_pairs by exact Hf.
    cbn [out_converter out_info Log.ret fst snd info_get_applied info_variables
         list_to_set].
    split; [reflexivity|]. split; [lia|].
    rewrite (right_id_L ∅ (∪)). reflexivity.
  - assert (Hne : Re.findall msg <> []) by (rewrite Hf; discriminate).
    pose proof (out_info_applied self msg) as Hn.
    destruct (process_message_pairs self msg Hne) as (_ & Hi & Hc & _).
    rewrite Hi in *. rewrite Hc. cbn [info_get_applied info_variables] in *.
    destruct (Z.ltb_spec 0 (info_conversions_applied (emitted_info self msg)))
      as [Hlt|Hge]; [repeat split|].
    assert (E : info_variables_converted (emitted_info self msg) = [])
      by (destruct (info_variables_converted (emitted_info self msg));
          [reflexivity|cbn [length] in Hn; lia]).
    rewrite E in *. cbn [length list_to_set] in *.
    split; [reflexivity|]. split; [lia|].
    rewrite (right_id_L ∅ (∪)). reflexivity.
Qed.

(** X7.  [process_message] keeps the settings of the converter, adds
    the conversions of the message to the running total and the
    converted variables to the set of the variables seen; the set
    never loses a variable. *)
Theorem process_message_accumulates_statistics :
  forall self msg,
    let before := get_statistics self in
    let r := process_message self msg in
    let after := get_statistics (out_converter r) in
    current_settings after = current_settings before /\
    total_conversions_applied after =
      total_conversions_applied before + info_get_applied (out_info r) /\
    total_conversions_applied before <= total_conversions_applied after /\
    variables_converted (out_converter r) =
      variables_converted self ∪ list_to_set (info_variables (out_info r)) /\
    unique_variables_converted before <= unique_variables_converted after.
Proof.
  intros self msg. cbv zeta.
  destruct (out_converter_fields self msg) as (Hs & Ha & Hv).
  unfold get_statistics.
  cbn [current_settings total_conversions_applied unique_variables_converted].
  split; [exact Hs|]. split; [exact Ha|]. split.
  - rewrite Ha, out_info_applied. lia.
  - split; [exact Hv|]. rewrite Hv. apply inj_le, subseteq_size.
    apply union_subseteq_l.
Qed.

Lemma process_all_snoc self msgs msg :
  process_all self (msgs ++ [msg]) =
  out_converter (process_message (process_all self msgs) msg).
Proof. unfold process_all. rewrite fold_left_app. reflexivity. Qed.

Lemma process_all_settings self msgs :
  conversion_settings (process_all self msgs) = conversion_settings self.
Proof.
  induction msgs as [|msg msgs IH] using rev_ind; [reflexivity|].
  rewrite process_all_snoc.
  rewrite (proj1 (out_converter_fields _ msg)). exact IH.
Qed.

Lemma settings_agree_refl s s' :
  s = s' -> settings_agree s s'.
Proof. intros ->. split; reflexivity. Qed.

Lemma conversions_of_eq self msg :
  info_get_applied (out_info (process_message self msg)) =
  conversions_of (conversion_settings self) msg.
Proof.
  unfold conversions_of.
  destruct (process_message_agree self
              (init (conversion_settings self)) msg) as (_ & -> & _);
    [apply settings_agree_refl; reflexivity|reflexivity].
Qed.

Lemma foldr_add_snoc (l : list Z) (x : Z) :
  foldr Z.add 0 (l ++ [x]) = foldr Z.add 0 l + x.
Proof.
  induction l as [|y l IH]; cbn [app foldr]; [lia|]. rewrite IH. lia.
Qed.

Lemma supported_variables_nodup : NoDup supported_variables.
Proof.
  unfold supported_variables.
  repeat (apply NoDup_cons; split;
          [intros H; repeat (apply elem_of_cons in H as [H|H]; [discriminate H|]);
           apply elem_of_nil in H; exact H|]).
  apply NoDup_nil. exact I.
Qed.

(** What a run of messages keeps true of the statistics. *)
Lemma run_invariant s msgs :
  let c := process_all (init s) msgs in
  conversions_applied c = foldr Z.add 0 (conversions_of s <$> msgs) /\
  Z.of_nat (size (variables_converted c)) <= conversions_applied c /\
  variables_converted c ⊆ list_to_set supported_variables.
Proof.
  cbv zeta. induction msgs as [|msg msgs IH] using rev_ind.
  - cbn. split; [reflexivity|]. split.
    + rewrite size_empty. reflexivity.
    + apply empty_subseteq.
  - destruct IH as (I1 & I2 & I3).
    rewrite process_all_snoc.
    set (c := process_all (init s) msgs) in *.
    destruct (out_converter_fields c msg) as (_ & Ha & Hv).
    pose proof (out_info_applied c msg) as Hn.
    pose proof (info_variables_nodup c msg) as Hnd.
    split; [|split].
    + rewrite Ha, fmap_app.
      change (conversions_of s <$> [msg]) with [conversions_of s msg].
      rewrite foldr_add_snoc, I1, conversions_of_eq. unfold c. rewrite process_all_settings.
      reflexivity.
    + rewrite Ha, Hv, Hn.
      rewrite <- (size_list_to_set (C:=gset string) _ Hnd).
      pose proof (size_union_alt (variables_converted c)
                    (list_to_set (info_variables (out_info (process_message c msg)))))
        as Hu.
      pose proof (subseteq_size
                    (list_to_set (info_variables (out_info (process_message c msg)))
                       ∖ variables_converted c)
                    (list_to_set (info_variables (out_info (process_message c msg))))
                    ltac:(apply subseteq_difference_l; reflexivity)) as Hd.
      lia.
    + rewrite Hv. apply union_least; [exact I3|].
      intros v Hin. apply elem_of_list_to_set in Hin.
      apply elem_of_list_to_set. eapply info_variables_supported. exact Hin.
Qed.

(** X8.  After [reset_statistics] and any run of messages the
    statistics are sound (a new converter is in the state that
    [reset_statistics] leaves): the settings are those the converter
    had, the total is the sum of the conversions that the messages
    count one by one, and the variables seen are supported variables,
    no more in number than the total nor than the thirteen
    supported. *)
Theorem statistics_of_a_run_are_sound :
  forall self msgs,
    let s := conversion_settings self in
    let st := get_statistics (process_all (fst (reset_statistics self)) msgs) in
    fst (reset_statistics (init s)) = init s /\
    current_settings st = s /\
    total_conversions_applied st = foldr Z.add 0 (conversions_of s <$> msgs) /\
    unique_variables_converted st <= total_conversions_applied st /\
    unique_variables_converted st <= 13 /\
    Forall (fun v => v ∈ stat_supported_variables st)
           (stat_variables_converted st).
Proof.
  intros self msgs. cbv zeta.
  change (fst (reset_statistics self)) with (init (conversion_settings self)).
  set (s := conversion_settings self).
  destruct (run_invariant s msgs) as (I1 & I2 & I3). cbv zeta in *.
  unfold get_statistics.
  cbn [current_settings total_conversions_applied unique_variables_converted
       stat_supported_variables stat_variables_converted].
  split; [reflexivity|].
  split; [apply process_all_settings|]. split; [exact I1|].
  split; [exact I2|]. split.
  - apply subseteq_size in I3.
    rewrite (size_list_to_set _ supported_variables_nodup) in I3.
    change (length supported_variables) with 13%nat in I3. lia.
  - apply Forall_forall. intros v Hin. apply elem_of_elements in Hin.
    apply I3 in Hin. apply elem_of_list_to_set in Hin. exact Hin.
Qed.
End StatisticsProperties.

Section ConvertibleProperties.
Import PyFloat Converter.

Lemma filter_fst_fmap {A B} (P : A -> Prop) `{!forall x, Decision (P x)}
      (l : list (A * B)) :
  fst <$> filter (fun kv => P (fst kv)) l = filter P (fst <$> l).
Proof.
  induction l as [|[a b] l IH]; [reflexivity|].
  rewrite filter_cons. cbn [fmap list_fmap fst]. rewrite filter_cons.
  cbn [fst]. destruct (decide (P a)); cbn [fmap list_fmap fst];
    rewrite <- IH; reflexivity.
Qed.

Lemma filter_equiv {A} (P Q : A -> Prop) `{!forall x, Decision (P x)}
      `{!forall x, Decision (Q x)} (l : list A) :
  (forall x, x ∈ l -> (P x <-> Q x)) -> filter P l = filter Q l.
Proof.
  induction l as [|a l IH]; intros Hpq; [reflexivity|].
  rewrite !filter_cons.
  assert (Ha : P a <-> Q a) by (apply Hpq; apply elem_of_cons; left; reflexivity).
  rewrite IH by (intros x Hx; apply Hpq; apply elem_of_cons; right; exact Hx).
  destruct (decide (P a)), (decide (Q a)); tauto || reflexivity.
Qed.

Lemma filter_comm {A} (P Q : A -> Prop) `{!forall x, Decision (P x)}
      `{!forall x, Decision (Q x)} (l : list A) :
  filter P (filter Q l) = filter Q (filter P l).
Proof.
  rewrite !list_filter_filter. apply filter_equiv. intros x _. tauto.
Qed.

Lemma first_occurrences_filter (P : string -> Prop)
      `{!forall x, Decision (P x)} (l : list string) :
  Spec.first_occurrences (filter P l) = filter P (Spec.first_occurrences l).
Proof.
  induction l as [|x l IH]; [reflexivity|].
  rewrite filter_cons. cbn [Spec.first_occurrences].
  destruct (decide (P x)) as [Hx|Hx].
  - cbn [Spec.first_occurrences]. rewrite filter_cons, decide_True by exact Hx.
    rewrite IH, filter_comm. reflexivity.
  - rewrite filter_cons, decide_False by exact Hx.
    rewrite IH, filter_comm. symmetry.
    apply filter_all. intros y Hy ->.
    apply list_elem_of_filter in Hy as [Hy _]. contradiction.
Qed.

Lemma map_is_fmap {A B} (f : A -> B) (l : list A) : map f l = f <$> l.
Proof. induction l as [|a l IH]; [reflexivity|]. cbn. rewrite IH. reflexivity. Qed.

Lemma convertible_spec msg :
  get_convertible_variables msg =
  filter (fun var => is_Some (variable_mappings !! var)) (fst <$> Re.findall msg).
Proof. unfold get_convertible_variables. rewrite map_is_fmap. reflexivity. Qed.

Lemma all_converting_iff s k v :
  all_converting s ->
  Spec.is_converted s (k, v) = true <-> is_Some (variable_mappings !! k).
Proof.
  intros [Hen Hall]. split.
  - intros Hc. destruct (converted_entry_mapped s k v Hc) as (c & _ & _ & Hm & _).
    rewrite Hm. eauto.
  - intros [c Hm].
    destruct (Hall c (variable_category k c Hm)) as (u & Hg & f & Hf).
    unfold Spec.is_converted. cbn [fst snd].
    rewrite (resolve_configured s k v c (Py.VStr u) Hen Hm Hg
               (table_factor_truthy c u f Hf)).
    unfold Spec.category_rule. rewrite Hf. reflexivity.
Qed.

Lemma listed_variables_convertible self msg v :
  v ∈ info_variables (out_info (process_message self msg)) ->
  v ∈ get_convertible_variables msg.
Proof.
  rewrite out_info_variables, convertible_spec. intros Hin.
  apply list_elem_of_fmap in Hin as ([k x] & -> & Hin).
  apply list_elem_of_filter in Hin as [Hc Hin]. cbn [fst].
  apply list_elem_of_filter. split.
  - destruct (converted_entry_mapped _ k x Hc) as (c & _ & _ & Hm & _).
    rewrite Hm. eauto.
  - apply (list_elem_of_fmap_2 fst) in Hin. cbn [fst] in Hin.
    change (k ∈ PyDict.keys (frame_of msg)) in Hin.
    rewrite keys_frame in Hin.
    exact (proj1 (first_occurrences_elem _ _) Hin).
Qed.

(** X9.  [get_convertible_variables] and [process_message] agree: the
    variables that a record lists as converted are among the
    convertible variables of the message; a message with none has no
    conversion under any settings; and when every category has a
    target of the factor table, the record lists exactly the
    convertible variables, each once, in the order of their first
    occurrence. *)
Theorem convertible_variables_are_those_converted :
  forall self msg,
    Forall (fun v => v ∈ get_convertible_variables msg)
           (info_variables (out_info (process_message self msg))) /\
    (get_convertible_variables msg = [] ->
     info_get_applied (out_info (process_message self msg)) = 0) /\
    (all_converting (conversion_settings self) ->
     info_variables (out_info (process_message self msg)) =
     Spec.first_occurrences (get_convertible_variables msg)).
Proof.
  intros self msg.
  assert (H1 : Forall (fun v => v ∈ get_convertible_variables msg)
                 (info_variables (out_info (process_message self msg))))
    by (apply Forall_forall; intros v; apply listed_variables_convertible).
  split; [exact H1|]. split.
  - intros Hnil. rewrite out_info_applied.
    destruct (info_variables (out_info (process_message self msg))) as [|v l];
      [reflexivity|].
    apply Forall_cons in H1 as [Hv _]. rewrite Hnil in Hv.
    apply elem_of_nil in Hv. contradiction.
  - intros Hall. rewrite out_info_variables, convertible_spec.
    rewrite first_occurrences_filter, <- keys_frame.
    unfold Spec.converted_entries, PyDict.keys.
    rewrite <- filter_fst_fmap. f_equal.
    apply filter_equiv. intros [k v] _. cbn [fst].
    apply all_converting_iff, Hall.
Qed.

Lemma imperial_settings_convert_all : all_converting imperial_settings.
Proof.
  split; [vm_compute; reflexivity|].
  intros category Hc. unfold categories in Hc.
  repeat (apply elem_of_cons in Hc as [->|Hc];
          [eexists; split; [vm_compute; reflexivity|vm_compute; eauto]|]).
  apply elem_of_nil in Hc. contradiction.
Qed.

Lemma convertible_variables_are_those_converted_witness :
  get_convertible_variables "note=1 time=2.5" = [] /\
  info_get_applied
    (out_info (process_message (init imperial_settings) "note=1 time=2.5")) = 0 /\
  info_variables
    (out_info (process_message (init imperial_settings)
                 "vario=1 time=2 altitude=3 vario=4")) =
  Spec.first_occurrences (get_convertible_variables "vario=1 time=2 altitude=3 vario=4").
Proof.
  split; [vm_compute; reflexivity|]. split.
  - apply (proj1 (proj2 (convertible_variables_are_those_converted
                           (init imperial_settings) "note=1 time=2.5"))).
    vm_compute. reflexivity.
  - apply (proj2 (proj2 (convertible_variables_are_those_converted
                           (init imperial_settings)
                           "vario=1 time=2 altitude=3 vario=4"))).
    exact imperial_settings_convert_all.
Defined.
End ConvertibleProperties.

Section RecordProperties.
Import PyFloat Converter.

Lemma out_info_ok self msg i :
  out_info (process_message self msg) = InfoOk i ->
  Re.findall msg <> [] /\ i = emitted_info self msg.
Proof.
  intros H. destruct (Re.findall msg) as [|p ps] eqn:Hf.
  - rewrite process_message_no_pairs in H by exact Hf. discriminate H.
  - assert (Hne : Re.findall msg <> []) by (rewrite Hf; discriminate).
    destruct (process_message_pairs self msg Hne) as (_ & Hi & _).
    rewrite Hi in H. injection H as <-. split; [discriminate|reflexivity].
Qed.

Lemma emitted_info_detail self msg :
  info_conversions_detail (emitted_info self msg) =
  detail_entry (conversion_settings self)
    <$> Spec.converted_entries (conversion_settings self) (frame_of msg).
Proof. apply apply_conversions_detail, nodup_keys_frame. Qed.

(** X10.  The record that comes with a converted message is
    consistent: the counter is the number of the listed variables; no
    variable is listed twice; the listed variables are, in the order of
    the frame, the keys of the details; and each detail holds the
    parsed value of its variable, the emitted value, which is the
    parsed value times the factor of the table, the category of the
    variable and the target the settings give to the category. *)
Theorem conversion_record_is_consistent :
  forall self msg i,
    out_info (process_message self msg) = InfoOk i ->
    info_conversions_applied i = Z.of_nat (length (info_variables_converted i)) /\
    NoDup (info_variables_converted i) /\
    PyDict.keys (info_conversions_detail i) = info_variables_converted i /\
    sublist (info_variables_converted i) (PyDict.keys (frame_of msg)) /\
    Forall (fun kd =>
              PyDict.get (fst kd) (frame_of msg) = Some (original_value (snd kd)) /\
              PyDict.get (fst kd) (emitted self msg)
                = Some (converted_value (snd kd)) /\
              variable_mappings !! fst kd = Some (conversion_type (snd kd)) /\
              target_unit (snd kd) =
                Py.get (conversion_settings self) (conversion_type (snd kd)) /\
              exists u factor,
                target_unit (snd kd) = Py.VStr u /\
                Spec.table_factor (conversion_type (snd kd)) u = Some factor /\
                converted_value (snd kd) = mul (original_value (snd kd)) factor)
           (info_conversions_detail i).
Proof.
  intros self msg i Hi. apply out_info_ok in Hi as [_ ->].
  set (s := conversion_settings self).
  destruct (emitted_info_spec self msg) as (Hv & Hn). fold s in Hv.
  pose proof (emitted_info_detail self msg) as Hd. fold s in Hd.
  split; [exact Hn|]. split.
  { rewrite Hv. apply converted_entries_keys, nodup_keys_frame. }
  split.
  { rewrite Hv, Hd. unfold PyDict.keys. rewrite <- list_fmap_compose.
    reflexivity. }
  split.
  { rewrite Hv. unfold PyDict.keys, Spec.converted_entries.
    apply fmap_sublist, sublist_filter. }
  rewrite Hd. apply Forall_fmap, Forall_forall. intros [k v] Hin.
  unfold Spec.converted_entries in Hin.
  apply list_elem_of_filter in Hin as [Hc Hin].
  apply (elem_get_nodup _ _ _ (nodup_keys_frame msg)) in Hin.
  destruct (converted_entry_mapped s k v Hc) as (c & u & f & Hm & Hg & Hf & Hr & _).
  unfold detail_entry, compose. cbn [fst snd original_value converted_value
    conversion_type target_unit].
  rewrite Hm, Hr. change (default "" (Some c)) with c. cbn [fst].
  split; [exact Hin|]. split.
  { rewrite get_emitted, Hin. cbn [fmap option_fmap option_map]. fold s.
    rewrite Hr. reflexivity. }
  split; [reflexivity|]. split; [reflexivity|].
  exists u, f. auto.
Qed.

Lemma conversion_record_is_consistent_witness :
  let i := emitted_info (init scenario_settings) scenario_input in
  out_info (process_message (init scenario_settings) scenario_input) = InfoOk i /\
  info_conversions_applied i = 2 /\
  PyDict.keys (info_conversions_detail i) = ["airspeed"; "altitude"].
Proof.
  cbv zeta. split; [vm_compute; reflexivity|].
  destruct (conversion_record_is_consistent (init scenario_settings)
              scenario_input (emitted_info (init scenario_settings) scenario_input))
    as (Hn & _ & Hk & _); [vm_compute; reflexivity|].
  split.
  - rewrite Hn. vm_compute. reflexivity.
  - rewrite Hk. vm_compute. reflexivity.
Defined.
End RecordProperties.

Section SettingsProperties.
Import PyFloat Converter.

Lemma append_if_nil cond msg errors :
  Settings.append_if cond msg errors = [] <-> cond = false /\ errors = [].
Proof.
  unfold Settings.append_if. destruct cond.
  - split; [|intros [H _]; discriminate H].
    intros H. destruct errors; discriminate H.
  - tauto.
Qed.

Lemma get_report k section section_errors (errors : PyDict.dict (list string)) :
  PyDict.get k (Settings.report section section_errors errors) = None <->
  PyDict.get k errors = None /\ (k = section -> section_errors = []).
Proof.
  unfold Settings.report. destruct section_errors as [|e l].
  - tauto.
  - destruct (String.eqb_spec section k) as [->|Hne].
    + rewrite get_set_eq. split; [discriminate|].
      intros [_ H]. specialize (H eq_refl). discriminate H.
    + rewrite get_set_ne by exact Hne. split; [|tauto].
      intros H. split; [exact H|]. intros ->. contradiction.
Qed.

Lemma not_available_false category v :
  Settings.not_available category v = false <-> unit_ok category v.
Proof.
  unfold Settings.not_available, unit_ok. destruct v as [| b | u].
  - split; [discriminate|]. intros (u & H & _). discriminate H.
  - split; [discriminate|]. intros (u & H & _). discriminate H.
  - rewrite negb_false_iff, bool_decide_eq_true. split.
    + intros H. eauto.
    + intros (u' & [= <-] & H). exact H.
Qed.

Lemma network_errors_nil (n : Settings.NetworkSettings) :
  Settings.append_if (negb (bool_decide (Settings.output_host n <> "")))
    "Output host cannot be empty"
    (Settings.append_if (Settings.input_port n =? Settings.output_port n)
       "Input and output ports cannot be the same"
       (Settings.append_if
          ((Settings.output_port n <=? 0) || (65535 <? Settings.output_port n))
          "Output port must be between 1 and 65535"
          (Settings.append_if
             ((Settings.input_port n <=? 0) || (65535 <? Settings.input_port n))
             "Input port must be between 1 and 65535" []))) = []
  <-> network_ok n.
Proof.
  rewrite !append_if_nil. unfold network_ok.
  rewrite negb_false_iff, bool_decide_eq_true, Z.eqb_neq, !orb_false_iff,
    !Z.leb_gt, !Z.ltb_ge.
  intuition lia.
Qed.

Lemma conversion_errors_nil (c : Settings.UnitConversionSettings) :
  Settings.append_if (Settings.not_available "acceleration" (Settings.acceleration c))
    ("Invalid acceleration unit: " +:+ Settings.str_of (Settings.acceleration c))
    (Settings.append_if (Settings.not_available "vario" (Settings.vario c))
       ("Invalid vario unit: " +:+ Settings.str_of (Settings.vario c))
       (Settings.append_if (Settings.not_available "speed" (Settings.speed c))
          ("Invalid speed unit: " +:+ Settings.str_of (Settings.speed c))
          (Settings.append_if
             (Settings.not_available "altitude" (Settings.altitude c))
             ("Invalid altitude unit: " +:+ Settings.str_of (Settings.altitude c))
             []))) = []
  <-> conversions_ok c.
Proof.
  rewrite !append_if_nil, !not_available_false. unfold conversions_ok. tauto.
Qed.

Lemma logging_errors_nil (l : Settings.LogSettings) :
  Settings.append_if (Settings.max_log_size_mb l <=? 0)
    "Maximum log size must be positive"
    (Settings.append_if (Settings.max_log_files l <=? 0)
       "Maximum log files must be positive"
       (Settings.append_if
          (Settings.log_to_file l &&
           match Settings.log_file_path l with
           | Some p => String.eqb p ""
           | None => true
           end)
          "Log file path must be specified when logging to file" [])) = []
  <-> logging_ok l.
Proof.
  rewrite !append_if_nil, !Z.leb_gt. unfold logging_ok.
  destruct (Settings.log_to_file l), (Settings.log_file_path l) as [p|];
    cbn [andb].
  - destruct (String.eqb_spec p "") as [->|Hne].
    + split; [intros (_ & _ & H & _); discriminate H|].
      intros (H & _). destruct (H eq_refl) as (p & [= <-] & Hp). congruence.
    + split; [|tauto]. intros (H1 & H2 & _). split; [|tauto]. eauto.
  - split; [intros (_ & _ & H & _); discriminate H|].
    intros (H & _). destruct (H eq_refl) as (p & Hp & _). discriminate Hp.
  - split; [|tauto]. intros (H1 & H2 & _). split; [discriminate|tauto].
  - split; [|tauto]. intros (H1 & H2 & _). split; [discriminate|tauto].
Qed.

Lemma validate_sections st :
  (PyDict.get "network" (Settings.validate st) = None
   <-> network_ok (Settings.network st)) /\
  (PyDict.get "conversions" (Settings.validate st) = None
   <-> conversions_ok (Settings.conversions st)) /\
  (PyDict.get "logging" (Settings.validate st) = None
   <-> logging_ok (Settings.logging st)).
Proof.
  unfold Settings.validate. cbv zeta. rewrite !get_report.
  rewrite <- network_errors_nil, <- conversion_errors_nil, <- logging_errors_nil.
  cbn [PyDict.get].
  repeat split; try tauto; try (intros; discriminate);
    intros H; repeat split; try reflexivity; try (intros; discriminate);
    intros _; exact H.
Qed.
End SettingsProperties.

Section ValidateProperties.
Import PyFloat Converter.

Lemma report_nil section section_errors (errors : PyDict.dict (list string)) :
  Settings.report section section_errors errors = [] <->
  section_errors = [] /\ errors = [].
Proof.
  unfold Settings.report. destruct section_errors as [|e l]; [tauto|].
  split; [|intros [H _]; discriminate H].
  destruct errors as [|[k v] d]; cbn [PyDict.set]; [discriminate|].
  destruct (String.eqb section k); discriminate.
Qed.

(** X11.  [validate] reports a section exactly when the section breaks
    one of its rules: ports from 1 to 65535 that differ and a host
    that is not empty; for each category a unit of
    [get_conversion_units]; a log file path when logging to a file and
    positive limits.  It returns the empty dictionary exactly for
    settings that keep them all. *)
Theorem validate_reports_the_sections_that_break_a_rule :
  forall st,
    (PyDict.get "network" (Settings.validate st) = None
     <-> network_ok (Settings.network st)) /\
    (PyDict.get "conversions" (Settings.validate st) = None
     <-> conversions_ok (Settings.conversions st)) /\
    (PyDict.get "logging" (Settings.validate st) = None
     <-> logging_ok (Settings.logging st)) /\
    (Settings.validate st = []
     <-> network_ok (Settings.network st) /\
         conversions_ok (Settings.conversions st) /\
         logging_ok (Settings.logging st)).
Proof.
  intros st. destruct (validate_sections st) as (Hn & Hc & Hl).
  split; [exact Hn|]. split; [exact Hc|]. split; [exact Hl|].
  unfold Settings.validate. cbv zeta. rewrite !report_nil.
  rewrite network_errors_nil, conversion_errors_nil, logging_errors_nil.
  tauto.
Qed.

Lemma unit_ok_recognized category v :
  category ∈ categories -> unit_ok category v ->
  Spec.recognized category v = true.
Proof.
  intros Hc (u & -> & Hu). unfold categories in Hc.
  repeat (apply elem_of_cons in Hc as [->|Hc];
          [vm_compute in Hu;
           repeat (apply elem_of_cons in Hu as [->|Hu]; [vm_compute; reflexivity|]);
           apply elem_of_nil in Hu; contradiction|]).
  apply elem_of_nil in Hc. contradiction.
Qed.

Lemma recognized_unit_ok category v :
  category ∈ categories -> Spec.recognized category v = true ->
  unit_ok category v.
Proof.
  intros Hc Hrec. pose proof (recognized_cases category v Hc Hrec) as H.
  repeat (apply elem_of_cons in H as [H|H];
          [injection H as -> ->; eexists; split; [reflexivity|];
           vm_compute;
           repeat (apply elem_of_cons; first [left; reflexivity | right])|]).
  apply elem_of_nil in H. contradiction.
Qed.

Lemma conversion_dict_get st category :
  category ∈ categories ->
  Py.get (Bridge.conversion_dict st) category =
  Settings.get_conversions st category.
Proof.
  intros Hc. unfold categories in Hc.
  repeat (apply elem_of_cons in Hc as [->|Hc]; [reflexivity|]).
  apply elem_of_nil in Hc. contradiction.
Qed.

Lemma conversions_ok_field st category :
  category ∈ categories ->
  conversions_ok (Settings.conversions st) ->
  unit_ok category (Settings.get_conversions st category).
Proof.
  intros Hc (H1 & H2 & H3 & H4). unfold categories in Hc.
  repeat (apply elem_of_cons in Hc as [->|Hc]; [assumption|]).
  apply elem_of_nil in Hc. contradiction.
Qed.

Lemma item_log_recognized s item :
  (forall category, category ∈ categories ->
     Py.truthy (Py.get s category) = true ->
     Spec.recognized category (Py.get s category) = true) ->
  Forall (fun rec => Log.lvl rec = Log.DEBUG) (item_log s item).
Proof.
  intros H. unfold item_log.
  destruct (Spec.configured s (fst item)) as [[c t]|] eqn:Hcfg; [|constructor].
  apply configured_category in Hcfg as (Hm & -> & Ht).
  rewrite (H c (variable_category _ c Hm) Ht).
  destruct (snd (Spec.category_rule c (Py.get s c) (snd item))); [|constructor].
  apply Forall_cons_2; [reflexivity|constructor].
Qed.

(** X12.  Settings whose conversions section passes [validate] never
    make the converter warn: whatever the message, the converter that
    [_init_components] builds from them logs nothing but the records of
    the conversions it applies. *)
Theorem validated_conversions_never_warn :
  forall st msg,
    PyDict.get "conversions" (Settings.validate st) = None ->
    Forall (fun rec => Log.lvl rec = Log.DEBUG)
           (out_log (process_message
                       (Bridge.unit_converter
                          (Bridge.bridge (Bridge._init_components (Bridge.create st))))
                       msg)).
Proof.
  intros st msg Hv.
  apply (proj1 (proj1 (proj2 (validate_sections st)))) in Hv.
  change (Bridge.unit_converter (Bridge.bridge (Bridge._init_components (Bridge.create st))))
    with (init (Bridge.conversion_dict st)).
  rewrite process_message_log.
  destruct (Spec.enabled _); [|constructor].
  induction (frame_of msg) as [|item d IH]; [constructor|].
  cbn [map concat]. apply Forall_app. split; [|exact IH].
  apply item_log_recognized. intros c Hc _.
  change (conversion_settings (init (Bridge.conversion_dict st)))
    with (Bridge.conversion_dict st).
  rewrite (conversion_dict_get st c Hc).
  apply unit_ok_recognized; [exact Hc|]. apply conversions_ok_field; assumption.
Qed.

Lemma validated_conversions_never_warn_witness :
  Forall (fun rec => Log.lvl rec = Log.DEBUG)
         (out_log (process_message
                     (Bridge.unit_converter
                        (Bridge.bridge
                           (Bridge._init_components (Bridge.create Settings.defaults))))
                     "altitude=100.0 airspeed=30.5")).
Proof.
  apply (validated_conversions_never_warn Settings.defaults
           "altitude=100.0 airspeed=30.5").
  vm_compute. reflexivity.
Defined.

(** X13.  The settings and the converter agree on the units: for each
    category, the units that [get_conversion_units] offers are exactly
    the targets that [_convert_variable] takes without a warning, and
    the factors of [get_conversion_factors] are those of the
    converter. *)
Theorem offered_units_are_the_units_converted :
  forall category u variable value,
    category ∈ categories ->
    (u ∈ default [] (Settings.get_conversion_units !! category)
     <-> snd (_convert_variable variable value category (Py.VStr u)) = []) /\
    Settings.get_conversion_factors = conversion_factors.
Proof.
  intros category u variable value Hc. split; [|reflexivity]. split.
  - intros Hu. apply convert_variable_recognized_log; [exact Hc|].
    apply unit_ok_recognized; [exact Hc|]. exists u. auto.
  - intros Hlog.
    destruct (Spec.recognized category (Py.VStr u)) eqn:Hrec.
    + destruct (recognized_unit_ok category _ Hc Hrec) as (u' & [= <-] & Hu).
      exact Hu.
    + rewrite (convert_variable_unknown_log variable value category _ Hc Hrec)
        in Hlog.
      discriminate Hlog.
Qed.

Lemma offered_units_are_the_units_converted_witness :
  ("knots" ∈ default [] (Settings.get_conversion_units !! "speed")
   <-> snd (_convert_variable "airspeed" (flit "30.5") "speed" (Py.VStr "knots")) = [])
  /\ Settings.get_conversion_factors = conversion_factors.
Proof.
  apply (offered_units_are_the_units_converted "speed" "knots" "airspeed"
           (flit "30.5")).
  unfold categories. apply elem_of_cons. right. apply elem_of_cons. left.
  reflexivity.
Defined.
End ValidateProperties.

Section SetProperties.
Import PyFloat Converter.

Lemma field_of_name key f :
  Settings.field_of key = Some f -> key = field_name f.
Proof.
  unfold Settings.field_of.
  repeat match goal with
    | |- context [String.eqb key ?b] =>
        destruct (String.eqb_spec key b); [intros [= <-]; assumption|]
    end.
  discriminate.
Qed.

Lemma getattr_setattr_same c f v :
  Settings.getattr (Settings.setattr c f v) f = v.
Proof. destruct f; reflexivity. Qed.

Lemma getattr_setattr_other c f f' v :
  f <> f' -> Settings.getattr (Settings.setattr c f v) f' = Settings.getattr c f'.
Proof. destruct f, f'; intros H; try reflexivity; congruence. Qed.

Lemma get_after_set st key value key' :
  Settings.get_conversions (snd (Settings.set_conversions st key value)) key' =
  if decide (key' = key /\ is_Some (Settings.field_of key))
  then Settings.typed_value (Settings.get_conversions st key) value
  else Settings.get_conversions st key'.
Proof.
  unfold Settings.set_conversions, Settings.get_conversions.
  destruct (Settings.field_of key) as [f|] eqn:Hf; cbn [snd].
  - destruct (Settings.field_of key') as [f'|] eqn:Hf';
      cbn [Settings.conversions Settings.set_conversions_section].
    + destruct (String.eqb_spec key' key) as [->|Hne].
      * rewrite Hf in Hf'. injection Hf' as <-.
        rewrite getattr_setattr_same, decide_True by eauto. reflexivity.
      * rewrite getattr_setattr_other, decide_False; [reflexivity|tauto|].
        intros <-. apply field_of_name in Hf, Hf'. congruence.
    + rewrite decide_False; [reflexivity|].
      intros [-> _]. congruence.
  - rewrite decide_False; [reflexivity|].
    intros [_ [x Hx]]. discriminate Hx.
Qed.

Lemma set_other_sections st key value :
  let st' := snd (Settings.set_conversions st key value) in
  Settings.network st' = Settings.network st /\
  Settings.logging st' = Settings.logging st /\
  Settings.ui st' = Settings.ui st /\
  Settings.version st' = Settings.version st /\
  Settings.first_run st' = Settings.first_run st.
Proof.
  cbv zeta. unfold Settings.set_conversions.
  destruct (Settings.field_of key); repeat split.
Qed.



Lemma update_fold_get (new : PyDict.dict Py.value) : forall st key,
  key ∉ PyDict.keys new ->
  Settings.get_conversions
    (fold_left (fun s kv => snd (Settings.set_conversions s (fst kv) (snd kv)))
       new st) key =
  Settings.get_conversions st key.
Proof.
  induction new as [|[k v] new IH]; intros st key Hnot; [reflexivity|].
  unfold PyDict.keys in Hnot. cbn [fmap list_fmap fst] in Hnot.
  apply not_elem_of_cons in Hnot as [Hne Hnot].
  cbn [fold_left fst snd]. rewrite IH by exact Hnot.
  rewrite get_after_set, decide_False; [reflexivity|tauto].
Qed.

Lemma update_fold_set (new : PyDict.dict Py.value) : forall st key value,
  NoDup (PyDict.keys new) -> (key, value) ∈ new ->
  is_Some (Settings.field_of key) ->
  Settings.get_conversions
    (fold_left (fun s kv => snd (Settings.set_conversions s (fst kv) (snd kv)))
       new st) key =
  Settings.typed_value (Settings.get_conversions st key) value.
Proof.
  induction new as [|[k v] new IH]; intros st key value Hnd Hin Hf.
  - apply elem_of_nil in Hin. contradiction.
  - unfold PyDict.keys in Hnd. cbn [fmap list_fmap fst] in Hnd.
    apply NoDup_cons in Hnd as [Hk Hnd]. cbn [fold_left fst snd].
    apply elem_of_cons in Hin as [[= -> ->]|Hin].
    + rewrite update_fold_get by exact Hk.
      rewrite get_after_set, decide_True by auto. reflexivity.
    + rewrite (IH _ key value Hnd Hin Hf).
      rewrite get_after_set, decide_False; [reflexivity|].
      intros [-> _]. apply Hk. apply (list_elem_of_fmap_2 fst) in Hin. exact Hin.
Qed.

Lemma update_fold_sections (new : PyDict.dict Py.value) : forall st,
  let st' := fold_left
               (fun s kv => snd (Settings.set_conversions s (fst kv) (snd kv)))
               new st in
  Settings.network st' = Settings.network st /\
  Settings.logging st' = Settings.logging st /\
  Settings.ui st' = Settings.ui st.
Proof.
  induction new as [|[k v] new IH]; intros st; [repeat split|].
  cbv zeta. cbn [fold_left fst snd].
  destruct (IH (snd (Settings.set_conversions st k v))) as (H1 & H2 & H3).
  destruct (set_other_sections st k v) as (G1 & G2 & G3 & _).
  cbv zeta in *. rewrite H1, H2, H3. auto.
Qed.

(** X15.  [update_conversion_settings] stores the new values in the
    settings object as [set] does, leaves the keys it is not given
    and the other sections as they are, and hands the converter the
    dictionary of the five conversion settings: afterwards the
    converter converts as a new one with these settings would, and
    its statistics, the sockets and the counters of the bridge are
    untouched. *)
Theorem update_conversion_settings_reaches_the_converter :
  forall new m msg,
    let m' := fst (Bridge.update_conversion_settings new m) in
    let c' := Bridge.unit_converter (Bridge.bridge m') in
    conversion_settings c' = Bridge.conversion_dict (Bridge.settings m') /\
    (forall key, key ∉ PyDict.keys new ->
       Settings.get_conversions (Bridge.settings m') key =
       Settings.get_conversions (Bridge.settings m) key) /\
    (NoDup (PyDict.keys new) ->
     forall key value, (key, value) ∈ new -> is_Some (Settings.field_of key) ->
       Settings.get_conversions (Bridge.settings m') key =
       Settings.typed_value (Settings.get_conversions (Bridge.settings m) key) value) /\
    Settings.network (Bridge.settings m') = Settings.network (Bridge.settings m) /\
    out_message (process_message c' msg) =
      out_message (process_message
                     (init (Bridge.conversion_dict (Bridge.settings m'))) msg) /\
    conversions_applied c' =
      conversions_applied (Bridge.unit_converter (Bridge.bridge m)) /\
    variables_converted c' =
      variables_converted (Bridge.unit_converter (Bridge.bridge m)) /\
    Bridge.bridge m' = Bridge.set_converter c' (Bridge.bridge m).
Proof.
  intros new m msg. cbv zeta.
  unfold Bridge.update_conversion_settings, update_settings.
  unfold Log.bind, Log.emit, Log.ret.
  cbn [fst snd Bridge.settings Bridge.bridge Bridge.unit_converter
       Bridge.set_converter conversion_settings conversions_applied
       variables_converted].
  split; [reflexivity|].
  split; [intros key Hk; apply update_fold_get, Hk|].
  split; [intros Hnd key value Hin Hf; apply update_fold_set; assumption|].
  split; [apply update_fold_sections|].
  split; [|repeat split].
  apply process_message_agree, settings_agree_refl. reflexivity.
Qed.

Lemma update_conversion_settings_reaches_the_converter_witness :
  let m := Bridge.create Settings.defaults in
  let m' := fst (Bridge.update_conversion_settings
                   [("altitude", Py.VStr "feet"); ("speed", Py.VStr "knots")] m) in
  Settings.get_conversions (Bridge.settings m') "vario" = Py.VStr "mps" /\
  Settings.get_conversions (Bridge.settings m') "altitude" = Py.VStr "feet" /\
  conversion_settings (Bridge.unit_converter (Bridge.bridge m')) =
    Bridge.conversion_dict (Bridge.settings m').
Proof.
  cbv zeta.
  destruct (update_conversion_settings_reaches_the_converter
              [("altitude", Py.VStr "feet"); ("speed", Py.VStr "knots")]
              (Bridge.create Settings.defaults) "")
    as (H1 & H2 & H3 & _).
  split; [|split; [|exact H1]].
  - rewrite H2; [reflexivity|].
    intros H. repeat (apply elem_of_cons in H as [H|H]; [discriminate H|]).
    apply elem_of_nil in H. exact H.
  - assert (Hnd : NoDup (PyDict.keys [("altitude", Py.VStr "feet");
                                      ("speed", Py.VStr "knots")]))
      by (apply (bool_decide_unpack _); vm_compute; exact I).
    rewrite (H3 Hnd "altitude" (Py.VStr "feet"));
      [reflexivity| |vm_compute; eauto].
    apply elem_of_cons. left. reflexivity.
Defined.
End SetProperties.

Section ReceiverProperties.
Import Bridge.

(** One turn of the loop on a datagram, whatever the callback does. *)
Lemma receive_iteration_datagram {W X}
      (cb : option (Receiver.callback (W:=W) (X:=X))) data x self w :
  Receiver.running self = true ->
  let r := Receiver.receive_iteration cb (Receiver.Datagram data x) self w in
  loop_status r = Alive /\
  Receiver.running (loop_receiver r) = true /\
  Receiver.socket (loop_receiver r) = Receiver.socket self /\
  Receiver.messages_received (loop_receiver r) =
    Receiver.messages_received self + (if String.eqb data "" then 0 else 1) /\
  Receiver.bytes_received (loop_receiver r) =
    Receiver.bytes_received self +
    (if String.eqb data "" then 0 else Z.of_nat (String.length data)) /\
  Receiver.error_count self <= Receiver.error_count (loop_receiver r)
    <= Receiver.error_count self + (if String.eqb data "" then 0 else 1).
Proof.
  intros Hrun. cbv zeta. unfold Receiver.receive_iteration. rewrite Hrun.
  cbn [negb]. destruct (String.eqb data "") eqn:He.
  - unfold loop_status, loop_receiver. cbn [Log.ret fst snd].
    repeat split; try assumption; lia.
  - rewrite decode_ignore_eq. destruct cb as [cb|].
    + unfold Log.bind. destruct (cb x (decode_ignore data) w) as [[res w'] l].
      destruct res as [u|e]; unfold loop_status, loop_receiver;
        cbn [Log.ret Log.emit fst snd Receiver.count_message Receiver.count_error
             Receiver.running Receiver.socket Receiver.messages_received
             Receiver.bytes_received Receiver.error_count];
        repeat split; try assumption; lia.
    + unfold loop_status, loop_receiver.
      cbn [Log.ret fst snd Receiver.count_message
           Receiver.running Receiver.socket Receiver.messages_received
           Receiver.bytes_received Receiver.error_count].
      repeat split; try assumption; lia.
Qed.

Lemma receive_loop_step {W X} (cb : option (Receiver.callback (W:=W) (X:=X)))
      ev evs self w :
  loop_status (Receiver.receive_iteration cb ev self w) = Alive ->
  let r1 := Receiver.receive_iteration cb ev self w in
  let r := Receiver._receive_loop cb (ev :: evs) self w in
  let r2 := Receiver._receive_loop cb evs (loop_receiver r1) (loop_world r1) in
  loop_status r = loop_status r2 /\
  loop_receiver r = loop_receiver r2 /\
  loop_world r = loop_world r2 /\
  snd r = snd r1 ++ snd r2.
Proof.
  cbv zeta. cbn [Receiver._receive_loop]. unfold Log.bind.
  unfold loop_status, loop_receiver, loop_world.
  destruct (Receiver.receive_iteration cb ev self w) as [[[st self'] w'] l].
  cbn [fst snd]. intros ->.
  destruct (Receiver._receive_loop cb evs self' w') as [[[st2 self2] w2] l2].
  cbn [fst snd]. repeat split.
Qed.

Lemma payloads_cons {X} (ev : Receiver.event X) evs :
  payloads (ev :: evs) =
  match ev with
  | Receiver.Datagram data _ => if String.eqb data "" then [] else [data]
  | Receiver.RecvRaise _ _ => []
  end ++ payloads evs.
Proof. reflexivity. Qed.

Lemma total_bytes_app l1 l2 : total_bytes (l1 ++ l2) = total_bytes l1 + total_bytes l2.
Proof.
  unfold total_bytes. induction l1 as [|d l1 IH]; cbn [app map foldr]; [lia|].
  rewrite IH. lia.
Qed.

(** X16.  The receiver counts what it takes up: along any run of
    datagrams, with any callback or none, the receive thread stays
    alive and running; every datagram that is not empty is counted
    once with its length in bytes, whether the callback returns or
    raises and whether the bytes are valid UTF-8 or not; empty
    datagrams are not counted; and the error counter rises by no more
    than the number of the datagrams taken up. *)
Theorem receiver_counts_every_datagram :
  forall (W X : Type) (cb : option (Receiver.callback (W:=W) (X:=X)))
         evs self w,
    Receiver.running self = true ->
    only_datagrams evs ->
    let r := Receiver._receive_loop cb evs self w in
    loop_status r = Alive /\
    Receiver.running (loop_receiver r) = true /\
    Receiver.socket (loop_receiver r) = Receiver.socket self /\
    Receiver.messages_received (loop_receiver r) =
      Receiver.messages_received self + Z.of_nat (length (payloads evs)) /\
    Receiver.bytes_received (loop_receiver r) =
      Receiver.bytes_received self + total_bytes (payloads evs) /\
    Receiver.error_count self <= Receiver.error_count (loop_receiver r)
      <= Receiver.error_count self + Z.of_nat (length (payloads evs)).
Proof.
  intros W X cb evs. induction evs as [|ev evs IH]; intros self w Hrun Hd.
  - cbv zeta. unfold loop_status, loop_receiver. cbn.
    repeat split; try assumption; lia.
  - apply Forall_cons in Hd as [Hev Hd]. destruct ev as [data x|e s]; [|contradiction].
    destruct (receive_iteration_datagram cb data x self w Hrun)
      as (Hst & Hrun1 & Hsock1 & Hm1 & Hb1 & He1).
    destruct (receive_loop_step cb (Receiver.Datagram data x) evs self w Hst)
      as (E1 & E2 & _).
    cbv zeta. rewrite E1, E2.
    specialize (IH _ (loop_world (Receiver.receive_iteration cb
                                    (Receiver.Datagram data x) self w)) Hrun1 Hd).
    cbv zeta in IH. destruct IH as (I1 & I2 & I3 & I4 & I5 & I6).
    rewrite payloads_cons, length_app, total_bytes_app.
    split; [exact I1|]. split; [exact I2|]. split; [congruence|].
    destruct (String.eqb data "");
      cbn [length total_bytes map foldr] in *; repeat split; lia.
Qed.

Lemma receiver_counts_every_datagram_witness :
  let r := Receiver._receive_loop (Some _handle_udp_data)
             [Receiver.Datagram bad_datagram (Py.Ok 18);
              Receiver.Datagram "" (Py.Ok 0);
              Receiver.Datagram "altitude=100.0" (Py.Raise overflow)]
             (udp_receiver running_bridge) running_bridge in
  loop_status r = Alive /\
  Receiver.messages_received (loop_receiver r) = 2 /\
  Receiver.bytes_received (loop_receiver r) = 29.
Proof.
  cbv zeta.
  destruct (receiver_counts_every_datagram _ _ (Some _handle_udp_data)
              [Receiver.Datagram bad_datagram (Py.Ok 18);
               Receiver.Datagram "" (Py.Ok 0);
               Receiver.Datagram "altitude=100.0" (Py.Raise overflow)]
              (udp_receiver running_bridge) running_bridge)
    as (H1 & _ & _ & H4 & H5 & _).
  - vm_compute. reflexivity.
  - repeat (apply Forall_cons_2; [exact I|]). apply Forall_nil_2.
  - split; [exact H1|]. split.
    + rewrite H4. vm_compute. reflexivity.
    + rewrite H5. vm_compute. reflexivity.
Defined.
End ReceiverProperties.

Section AccountingProperties.
Import Bridge.

(** What one call of the handler does to the bridge, in the three ways
    it can end: forwarded; not forwarded and counted by the bridge or
    by the sender; or left by an exception that the handler does not
    catch. *)
Lemma handle_udp_data_step env data self :
  let r := _handle_udp_data env data self in
  let self' := snd (fst r) in
  let p := Converter.process_message (unit_converter self) data in
  messages_processed self' = messages_processed self + 1 /\
  udp_receiver self' = udp_receiver self /\
  running self' = running self /\
  unit_converter self' = out_converter p /\
  Sender.socket (udp_sender self') = Sender.socket (udp_sender self) /\
  messages_converted self' =
    messages_converted self +
    (if 0 <? Converter.info_get_applied (out_info p) then 1 else 0) /\
  ((fst (fst r) = Py.Ok tt /\
    (exists n, env = Py.Ok n) /\ Sender.socket (udp_sender self) <> None /\
    messages_forwarded self' = messages_forwarded self + 1 /\
    error_count self' = error_count self /\
    Sender.error_count (udp_sender self') = Sender.error_count (udp_sender self) /\
    Sender.messages_sent (udp_sender self') =
      Sender.messages_sent (udp_sender self) + 1 /\
    Sender.wire (udp_sender self') =
      Sender.wire (udp_sender self) ++ [out_message p])
   \/
   (fst (fst r) = Py.Ok tt /\
    messages_forwarded self' = messages_forwarded self /\
    error_count self' = error_count self + 1 /\
    Sender.messages_sent (udp_sender self') = Sender.messages_sent (udp_sender self) /\
    Sender.wire (udp_sender self') = Sender.wire (udp_sender self))
   \/
   (exists e, fst (fst r) = Py.Raise e /\ env = Py.Raise e /\
    messages_forwarded self' = messages_forwarded self /\
    error_count self' = error_count self /\
    Sender.error_count (udp_sender self') = Sender.error_count (udp_sender self) /\
    Sender.messages_sent (udp_sender self') = Sender.messages_sent (udp_sender self) /\
    Sender.wire (udp_sender self') = Sender.wire (udp_sender self))).
Proof.
  cbv zeta. unfold _handle_udp_data, Log.bind, out_message, out_info, out_converter.
  cbn [unit_converter set_counters].
  destruct (Converter.process_message (unit_converter self) data)
    as [[[m i] c] lc].
  cbn [fst snd].
  destruct (0 <? Converter.info_get_applied i);
    unfold Log.bind, Log.emit, Log.ret, Sender.send_message;
    cbn [fst snd udp_sender set_converter set_counters];
    destruct (Sender.socket (udp_sender self)) as [sk|] eqn:Hs;
    [destruct env as [n|[cls msg]]; [|destruct cls] | |
     destruct env as [n|[cls msg]]; [|destruct cls] | ];
    cbn;
    (split; [reflexivity|]); (split; [reflexivity|]); (split; [reflexivity|]);
    (split; [reflexivity|]); (split; [try rewrite Hs; reflexivity|]);
    (split; [lia|]);
    first
      [ left; split; [reflexivity|]; split; [eauto|]; split; [discriminate|];
        repeat split; reflexivity
      | right; left; repeat split; reflexivity
      | right; right; eexists; repeat split; reflexivity ].
Qed.

(** One turn of the receive thread of the bridge on a datagram that is
    not empty. *)
Lemma receive_iteration_handler data x r b :
  Receiver.running r = true -> data <> "" ->
  let h := _handle_udp_data x (decode_ignore data) b in
  let res := Receiver.receive_iteration (Some _handle_udp_data)
               (Receiver.Datagram data x) r b in
  loop_status res = Alive /\
  loop_world res = snd (fst h) /\
  Receiver.running (loop_receiver res) = true /\
  Receiver.error_count (loop_receiver res) =
    Receiver.error_count r +
    (match fst (fst h) with Py.Ok _ => 0 | Py.Raise _ => 1 end).
Proof.
  intros Hrun Hne. cbv zeta. unfold Receiver.receive_iteration.
  rewrite Hrun. cbn [negb].
  destruct (String.eqb_spec data ""); [contradiction|].
  rewrite decode_ignore_eq. unfold Log.bind.
  destruct (_handle_udp_data x (decode_ignore data) b) as [[res b'] l].
  destruct res as [u|e]; unfold loop_status, loop_receiver, loop_world;
    cbn [Log.ret Log.emit fst snd Receiver.count_message Receiver.count_error
         Receiver.running Receiver.error_count];
    repeat split; try assumption; lia.
Qed.

Lemma receive_iteration_empty {W X}
      (cb : option (Receiver.callback (W:=W) (X:=X))) x r w :
  Receiver.running r = true ->
  Receiver.receive_iteration cb (Receiver.Datagram "" x) r w = (Alive, r, w, []).
Proof.
  intros Hrun. unfold Receiver.receive_iteration. rewrite Hrun. reflexivity.
Qed.

(** X17.  The counters of the bridge account for every message: along
    any run of datagrams, each datagram taken up is processed once, and
    it is then forwarded or counted as one error, by the bridge or, when
    an exception leaves the handler, by the receiver; the sender has
    sent one datagram for each message counted as forwarded; and the
    settings of the converter are not changed by the traffic. *)
Theorem bridge_accounts_for_every_message :
  forall evs r b,
    Receiver.running r = true ->
    only_datagrams evs ->
    let res := Receiver._receive_loop (Some _handle_udp_data) evs r b in
    let r' := loop_receiver res in
    let b' := loop_world res in
    messages_processed b' =
      messages_processed b + Z.of_nat (length (payloads evs)) /\
    unaccounted r' b' = unaccounted r b /\
    Sender.messages_sent (udp_sender b') - messages_forwarded b' =
      Sender.messages_sent (udp_sender b) - messages_forwarded b /\
    Z.of_nat (length (Sender.wire (udp_sender b'))) - messages_forwarded b' =
      Z.of_nat (length (Sender.wire (udp_sender b))) - messages_forwarded b /\
    messages_forwarded b <= messages_forwarded b' /\
    messages_converted b <= messages_converted b'
      <= messages_converted b + Z.of_nat (length (payloads evs)) /\
    Converter.conversion_settings (unit_converter b') =
      Converter.conversion_settings (unit_converter b).
Proof.
  induction evs as [|ev evs IH]; intros r b Hrun Hd.
  - cbv zeta. unfold loop_receiver, loop_world. cbn.
    repeat split; lia.
  - apply Forall_cons in Hd as [Hev Hd]. destruct ev as [data x|e s]; [|contradiction].
    destruct (String.eqb_spec data "") as [->|Hne].
    + pose proof (receive_iteration_empty (Some _handle_udp_data) x r b Hrun) as Hit.
      destruct (receive_loop_step (Some _handle_udp_data)
                  (Receiver.Datagram "" x) evs r b) as (_ & E2 & E3 & _);
        [rewrite Hit; reflexivity|].
      cbv zeta. rewrite E2, E3, Hit.
      unfold loop_receiver, loop_world. cbn [fst snd].
      exact (IH r b Hrun Hd).
    + destruct (receive_iteration_handler data x r b Hrun Hne)
        as (Hst & Hw & Hrun1 & Herr1).
      destruct (receive_loop_step (Some _handle_udp_data)
                  (Receiver.Datagram data x) evs r b Hst) as (_ & E2 & E3 & _).
      cbv zeta. rewrite E2, E3.
      set (res1 := Receiver.receive_iteration (Some _handle_udp_data)
                     (Receiver.Datagram data x) r b) in *.
      specialize (IH (loop_receiver res1) (loop_world res1) Hrun1 Hd).
      cbv zeta in IH. destruct IH as (I1 & I2 & I3 & I4 & I5 & I6 & I7).
      rewrite payloads_cons.
      destruct (String.eqb_spec data ""); [contradiction|].
      cbn [app length]. rewrite Nat2Z.inj_succ.
      destruct (handle_udp_data_step x (decode_ignore data) b)
        as (Hp & _ & _ & Hc & _ & Hcv & Hcases).
      cbv zeta in Hp, Hc, Hcv, Hcases.
      rewrite Hw in *. unfold unaccounted in *.
      assert (Hset : Converter.conversion_settings
                       (unit_converter (snd (fst (_handle_udp_data x
                                                    (decode_ignore data) b)))) =
                     Converter.conversion_settings (unit_converter b)).
      { rewrite Hc. apply out_converter_fields. }
      assert (Hlen : forall (l : list string) (a : string),
                       Z.of_nat (length (l ++ [a])) = Z.of_nat (length l) + 1)
        by (intros l a; rewrite length_app; cbn [length]; lia).
      destruct (0 <? Converter.info_get_applied _) in Hcv;
        destruct Hcases as [(Hr & _ & _ & Hf & He & _ & Hs & Hwire)
                           |[(Hr & Hf & He & Hs & Hwire)
                            |(e & Hr & _ & Hf & He & _ & Hs & Hwire)]];
        rewrite Hr in Herr1; rewrite ?Hwire, ?Hlen in *;
        repeat split; try lia; congruence.
Qed.

Lemma bridge_accounts_for_every_message_witness :
  let res := Receiver._receive_loop (Some _handle_udp_data)
               [Receiver.Datagram "altitude=100.0" (Py.Ok 18);
                Receiver.Datagram "altitude=100.0" (Py.Raise address_in_use);
                Receiver.Datagram "altitude=100.0" (Py.Raise overflow)]
               (udp_receiver running_bridge) running_bridge in
  messages_processed (loop_world res) = 3 /\
  messages_processed (loop_world res) =
    messages_forwarded (loop_world res) + error_count (loop_world res)
    + Receiver.error_count (loop_receiver res).
Proof.
  cbv zeta.
  destruct (bridge_accounts_for_every_message
              [Receiver.Datagram "altitude=100.0" (Py.Ok 18);
               Receiver.Datagram "altitude=100.0" (Py.Raise address_in_use);
               Receiver.Datagram "altitude=100.0" (Py.Raise overflow)]
              (udp_receiver running_bridge) running_bridge)
    as (H1 & H2 & _).
  - vm_compute. reflexivity.
  - repeat (apply Forall_cons_2; [exact I|]). apply Forall_nil_2.
  - split; [rewrite H1; vm_compute; reflexivity|].
    unfold unaccounted in H2.
    assert (H0 : messages_processed running_bridge - messages_forwarded running_bridge
                 - error_count running_bridge
                 - Receiver.error_count (udp_receiver running_bridge) = 0)
      by (vm_compute; reflexivity).
    lia.
Defined.
End AccountingProperties.

Section PipelineProperties.
Import Bridge.

Lemma forwarded_text_eq c data :
  out_message (Converter.process_message c (decode_ignore data)) =
  forwarded_text (Converter.conversion_settings c) data.
Proof.
  unfold forwarded_text.
  apply process_message_agree, settings_agree_refl. reflexivity.
Qed.

(** X18.  The pipeline keeps the order and loses nothing: when the
    sender holds a socket and every [sendto] succeeds, the datagrams
    given to the wire along a run are, in the order of arrival, the
    conversions of the decoded datagrams under the settings of the
    converter, one for each datagram that is not empty; all are
    counted as forwarded and no error counter moves. *)
Theorem datagrams_are_forwarded_in_order :
  forall evs r b,
    Receiver.running r = true ->
    Sender.socket (udp_sender b) <> None ->
    all_sent evs ->
    let res := Receiver._receive_loop (Some _handle_udp_data) evs r b in
    let r' := loop_receiver res in
    let b' := loop_world res in
    Sender.wire (udp_sender b') =
      Sender.wire (udp_sender b) ++
      map (forwarded_text (Converter.conversion_settings (unit_converter b)))
          (payloads evs) /\
    messages_forwarded b' =
      messages_forwarded b + Z.of_nat (length (payloads evs)) /\
    error_count b' = error_count b /\
    Receiver.error_count r' = Receiver.error_count r /\
    Sender.error_count (udp_sender b') = Sender.error_count (udp_sender b).
Proof.
  induction evs as [|ev evs IH]; intros r b Hrun Hsock Hd.
  - cbv zeta. unfold loop_receiver, loop_world. cbn.
    rewrite app_nil_r. repeat split; lia.
  - apply Forall_cons in Hd as [Hev Hd].
    destruct ev as [data [n|e]|e s]; try contradiction.
    destruct (String.eqb_spec data "") as [->|Hne].
    + pose proof (receive_iteration_empty (Some _handle_udp_data) (Py.Ok n) r b Hrun)
        as Hit.
      destruct (receive_loop_step (Some _handle_udp_data)
                  (Receiver.Datagram "" (Py.Ok n)) evs r b) as (_ & E2 & E3 & _);
        [rewrite Hit; reflexivity|].
      cbv zeta. rewrite E2, E3, Hit.
      unfold loop_receiver, loop_world. cbn [fst snd].
      exact (IH r b Hrun Hsock Hd).
    + destruct (receive_iteration_handler data (Py.Ok n) r b Hrun Hne)
        as (Hst & Hw & Hrun1 & Herr1).
      destruct (receive_loop_step (Some _handle_udp_data)
                  (Receiver.Datagram data (Py.Ok n)) evs r b Hst)
        as (_ & E2 & E3 & _).
      cbv zeta. rewrite E2, E3.
      set (res1 := Receiver.receive_iteration (Some _handle_udp_data)
                     (Receiver.Datagram data (Py.Ok n)) r b) in *.
      destruct (handle_udp_data_forwards b (decode_ignore data) n Hsock)
        as (b1 & l1 & Hh & Hwire & _ & Hfwd & Hberr & Hserr).
      destruct (handle_udp_data_step (Py.Ok n) (decode_ignore data) b)
        as (_ & _ & _ & Hc & Hs & _).
      cbv zeta in Hc, Hs. rewrite Hh in *. cbn [fst snd] in *.
      assert (Hsock1 : Sender.socket (udp_sender (loop_world res1)) <> None)
        by (rewrite Hw, Hs; exact Hsock).
      specialize (IH (loop_receiver res1) (loop_world res1) Hrun1 Hsock1 Hd).
      cbv zeta in IH. destruct IH as (I1 & I2 & I3 & I4 & I5).
      rewrite Hw in *. rewrite payloads_cons.
      destruct (String.eqb_spec data ""); [contradiction|].
      cbn [app length map]. rewrite Nat2Z.inj_succ.
      assert (Hset : Converter.conversion_settings (unit_converter b1) =
                     Converter.conversion_settings (unit_converter b))
        by (rewrite Hc; apply out_converter_fields).
      rewrite Hset in I1. rewrite forwarded_text_eq in Hwire.
      split; [rewrite I1, Hwire, <- app_assoc; reflexivity|].
      repeat split; lia.
Qed.

Lemma datagrams_are_forwarded_in_order_witness :
  let res := Receiver._receive_loop (Some _handle_udp_data)
               [Receiver.Datagram "altitude=100.0" (Py.Ok 18);
                Receiver.Datagram "" (Py.Ok 0);
                Receiver.Datagram bad_datagram (Py.Ok 18);
                Receiver.Datagram "time=1.0" (Py.Ok 8)]
               (udp_receiver running_bridge) running_bridge in
  Sender.wire (udp_sender (loop_world res)) =
    [ "altitude=328.084" +:+ PyStr.CRLF; "altitude=328.084" +:+ PyStr.CRLF;
      "time=1" +:+ PyStr.CRLF ] /\
  messages_forwarded (loop_world res) = 3.
Proof.
  cbv zeta.
  destruct (datagrams_are_forwarded_in_order
              [Receiver.Datagram "altitude=100.0" (Py.Ok 18);
               Receiver.Datagram "" (Py.Ok 0);
               Receiver.Datagram bad_datagram (Py.Ok 18);
               Receiver.Datagram "time=1.0" (Py.Ok 8)]
              (udp_receiver running_bridge) running_bridge)
    as (H1 & H2 & _).
  - vm_compute. reflexivity.
  - vm_compute. discriminate.
  - repeat (apply Forall_cons_2; [exact I|]). apply Forall_nil_2.
  - split; [rewrite H1|rewrite H2]; vm_compute; reflexivity.
Defined.
End PipelineProperties.

Section LifecycleProperties.
Import Bridge.

Lemma sender_close_state s :
  let s' := fst (Sender.close s) in
  Sender.socket s' <> Some SockOpen /\
  Sender.connected s' = false /\
  (Sender.socket s' = None <-> Sender.socket s = None) /\
  Sender.error_count s' = Sender.error_count s /\
  Sender.messages_sent s' = Sender.messages_sent s /\
  Sender.bytes_sent s' = Sender.bytes_sent s /\
  Sender.wire s' = Sender.wire s.
Proof.
  cbv zeta. unfold Sender.close.
  destruct (Sender.socket s) eqn:Hs;
    cbn [Log.bind Log.emit Log.ret fst snd Sender.set_connected Sender.set_socket
         Sender.socket Sender.connected Sender.error_count Sender.messages_sent
         Sender.bytes_sent Sender.wire];
    rewrite ?Hs; repeat split; try discriminate; try congruence.
Qed.

Lemma receiver_close_state r :
  let r' := Receiver.close r in
  Receiver.running r' = false /\
  Receiver.socket r' <> Some SockOpen /\
  (Receiver.socket r = Some SockOpen -> Receiver.socket r' = Some SockClosed) /\
  Receiver.messages_received r' = Receiver.messages_received r /\
  Receiver.bytes_received r' = Receiver.bytes_received r /\
  Receiver.error_count r' = Receiver.error_count r.
Proof.
  cbv zeta. unfold Receiver.close.
  cbn [Receiver.set_running Receiver.socket].
  destruct (Receiver.socket r) eqn:Hs;
    cbn [Receiver.set_socket Receiver.set_running Receiver.running Receiver.socket
         Receiver.messages_received Receiver.bytes_received Receiver.error_count];
    rewrite ?Hs; repeat split; try discriminate; try (intros; congruence).
Qed.

Lemma stop_running self :
  running self = true ->
  fst (stop self) =
  (Py.VNone,
   set_receiver (Receiver.close (udp_receiver self))
     (set_sender (fst (Sender.close (udp_sender self)))
        (set_running false self))).
Proof.
  intros Hrun. unfold stop. rewrite Hrun. cbn [negb].
  unfold Log.bind, Log.emit, Log.ret.
  cbn [udp_sender udp_receiver set_running].
  destruct (Sender.close (udp_sender self)) as [s' l]. reflexivity.
Qed.

Lemma stop_stopped self :
  running self = false ->
  stop self =
  (Py.VNone, self, [Log.Rec logger Log.WARNING [Log.Txt "Bridge is not running"]]).
Proof. intros Hrun. unfold stop. rewrite Hrun. reflexivity. Qed.

Lemma set_receiver_same b : set_receiver (udp_receiver b) b = b.
Proof. destruct b. reflexivity. Qed.

Lemma receive_events_stopped evs b :
  Receiver.running (udp_receiver b) = false -> evs <> [] ->
  receive_events evs b = (Exited, b, []).
Proof.
  intros Hrun Hne. destruct evs as [|ev evs]; [congruence|].
  unfold receive_events. cbn [Receiver._receive_loop].
  unfold Receiver.receive_iteration. rewrite Hrun.
  cbn [negb Log.bind Log.ret app]. rewrite set_receiver_same. reflexivity.
Qed.

(** X19.  [stop] of a running bridge returns [None] and leaves the
    bridge stopped: the receiver no longer runs, neither socket is
    open, the sender is not connected; the counters of the bridge, of
    the receiver and of the sender and the converter with its
    statistics are kept.  Afterwards the receive loop takes up no
    further datagram, and a second [stop] only logs a warning. *)
Theorem stop_closes_the_sockets_and_keeps_the_counters :
  forall self,
    running self = true ->
    let self' := snd (fst (stop self)) in
    fst (fst (stop self)) = Py.VNone /\
    running self' = false /\
    Receiver.running (udp_receiver self') = false /\
    Receiver.socket (udp_receiver self') <> Some SockOpen /\
    Sender.socket (udp_sender self') <> Some SockOpen /\
    Sender.connected (udp_sender self') = false /\
    (messages_processed self', messages_converted self', messages_forwarded self',
     error_count self') =
    (messages_processed self, messages_converted self, messages_forwarded self,
     error_count self) /\
    unit_converter self' = unit_converter self /\
    Sender.wire (udp_sender self') = Sender.wire (udp_sender self) /\
    (forall evs, evs <> [] -> receive_events evs self' = (Exited, self', [])) /\
    fst (stop self') = (Py.VNone, self').
Proof.
  intros self Hrun. cbv zeta. rewrite (stop_running self Hrun). cbn [fst snd].
  destruct (sender_close_state (udp_sender self)) as (S1 & S2 & _ & _ & _ & _ & S7).
  destruct (receiver_close_state (udp_receiver self)) as (R1 & R2 & _).
  cbv zeta in *.
  cbn [set_receiver set_sender set_running running udp_receiver udp_sender
       messages_processed messages_converted messages_forwarded error_count
       unit_converter].
  repeat (split; [first [reflexivity | assumption]|]).
  split.
  - intros evs Hne. apply receive_events_stopped; [exact R1|exact Hne].
  - rewrite stop_stopped by reflexivity. reflexivity.
Qed.

Lemma stop_closes_the_sockets_and_keeps_the_counters_witness :
  running running_bridge = true /\
  running (snd (fst (stop running_bridge))) = false /\
  Receiver.socket (udp_receiver (snd (fst (stop running_bridge)))) <> Some SockOpen /\
  Sender.socket (udp_sender (snd (fst (stop running_bridge)))) <> Some SockOpen.
Proof.
  assert (H : running running_bridge = true) by (vm_compute; reflexivity).
  split; [exact H|].
  destruct (stop_closes_the_sockets_and_keeps_the_counters running_bridge H)
    as (_ & H2 & _ & H4 & H5 & _).
  split; [exact H2|]. split; [exact H4|exact H5].
Defined.

Lemma start_running env conversions self :
  running self = true ->
  start env conversions self =
  (Py.Ok Py.VNone, self,
   [Log.Rec logger Log.WARNING [Log.Txt "Bridge is already running"]]).
Proof. intros Hrun. unfold start. rewrite Hrun. reflexivity. Qed.

(** X20.  [start] of a stopped bridge whose sockets can be created and
    whose inbound port can be bound: the bridge runs, the receiver
    runs on an open socket, the sender holds an open socket, the
    monitoring task exists, and the counters of the bridge are back at
    zero; the converter with its statistics and the counters of the
    receiver and of the sender are kept.  A [connect] that fails with
    an [OSError] does not prevent any of this: the sender is only
    left not connected.  A second [start] changes nothing. *)
Theorem start_opens_the_sockets_and_resets_the_counters :
  forall env conversions self,
    running self = false ->
    recv_socket env = None -> recv_bind env = None ->
    send_socket env = None ->
    (forall e, send_connect env = Some e -> Py.caught_by [Py.OSError] e = true) ->
    start_return env conversions self = Py.Ok Py.VNone /\
    let self' := start_bridge env conversions self in
    running self' = true /\
    main_task self' = true /\
    (messages_processed self', messages_converted self', messages_forwarded self',
     error_count self') = (0, 0, 0, 0) /\
    Receiver.running (udp_receiver self') = true /\
    Receiver.socket (udp_receiver self') = Some SockOpen /\
    Sender.socket (udp_sender self') = Some SockOpen /\
    Sender.connected (udp_sender self') =
      (match send_connect env with Some _ => false | None => true end) /\
    unit_converter self' = unit_converter self /\
    Receiver.messages_received (udp_receiver self') =
      Receiver.messages_received (udp_receiver self) /\
    Receiver.error_count (udp_receiver self') =
      Receiver.error_count (udp_receiver self) /\
    Sender.error_count (udp_sender self') = Sender.error_count (udp_sender self) /\
    Sender.wire (udp_sender self') = Sender.wire (udp_sender self) /\
    (forall env2 conversions2,
        fst (start env2 conversions2 self') = (Py.Ok Py.VNone, self')).
Proof.
  intros env conversions self Hrun Hrs Hrb Hss Hsc.
  unfold start_return, start_bridge.
  assert (E : exists l,
    start env conversions self =
    (Py.Ok Py.VNone,
     set_main_task true
       (set_sender
          (Sender.set_connected (match send_connect env with Some _ => false | None => true end)
             (Sender.set_socket (Some SockOpen) (udp_sender self)))
          (set_receiver
             (Receiver.set_thread true
                (Receiver.set_running true
                   (Receiver.set_socket (Some SockOpen) (udp_receiver self))))
             (set_counters 0 0 0 (set_error_count 0 (set_running true self))))),
     l)).
  { unfold start. rewrite Hrun.
    unfold Receiver.start_receiving, Sender.start_sending.
    rewrite Hrs, Hrb, Hss.
    destruct (send_connect env) as [e|] eqn:Hc.
    - rewrite (Hsc e eq_refl).
      unfold Log.bind, Log.emit, Log.ret.
      cbn [fst snd udp_receiver udp_sender set_counters set_error_count
           set_running set_receiver set_sender].
      destruct (Py.truthy (Py.get conversions "enabled")); eexists; reflexivity.
    - unfold Log.bind, Log.emit, Log.ret.
      cbn [fst snd udp_receiver udp_sender set_counters set_error_count
           set_running set_receiver set_sender].
      destruct (Py.truthy (Py.get conversions "enabled")); eexists; reflexivity. }
  destruct E as (l & E). rewrite E. cbn [fst snd].
  split; [reflexivity|]. cbv zeta.
  repeat (split; [reflexivity|]).
  intros env2 conversions2. rewrite start_running by reflexivity. reflexivity.
Qed.

Lemma start_opens_the_sockets_and_resets_the_counters_witness :
  let env := StartEnv None None None (Some address_in_use) in
  let self' := start_bridge env feet_settings bridge0 in
  running bridge0 = false /\
  start_return env feet_settings bridge0 = Py.Ok Py.VNone /\
  running self' = true /\
  Sender.socket (udp_sender self') = Some SockOpen /\
  Sender.connected (udp_sender self') = false.
Proof.
  cbv zeta. split; [reflexivity|].
  destruct (start_opens_the_sockets_and_resets_the_counters
              (StartEnv None None None (Some address_in_use)) feet_settings bridge0)
    as (H1 & H2 & _ & _ & _ & _ & H7 & H8 & _);
    try reflexivity.
  - intros e [= <-]. vm_compute. reflexivity.
  - split; [exact H1|]. split; [exact H2|]. split; [exact H7|exact H8].
Defined.

(** X21.  When the socket of the sender cannot be created, [start]
    takes back what it has started: it returns [None] with the bridge
    stopped and one error counted by the bridge and one by the sender;
    the receiver, which was already running on its bound socket, is
    stopped and its socket closed; the sender holds no open socket. *)
Theorem start_sender_failure_stops_the_receiver :
  forall env conversions self e,
    running self = false ->
    recv_socket env = None -> recv_bind env = None ->
    send_socket env = Some e ->
    Py.caught_by [Py.OSError] e = true ->
    start_return env conversions self = Py.Ok Py.VNone /\
    let self' := start_bridge env conversions self in
    running self' = false /\
    error_count self' = 1 /\
    Receiver.running (udp_receiver self') = false /\
    Receiver.socket (udp_receiver self') = Some SockClosed /\
    Sender.error_count (udp_sender self') =
      Sender.error_count (udp_sender self) + 1 /\
    Sender.socket (udp_sender self') <> Some SockOpen /\
    Sender.connected (udp_sender self') = false /\
    main_task self' = main_task self /\
    unit_converter self' = unit_converter self.
Proof.
  intros env conversions self e Hrun Hrs Hrb Hss He.
  unfold start_return, start_bridge.
  assert (E :
    fst (start env conversions self) =
    (Py.Ok Py.VNone,
     set_receiver
       (Receiver.close
          (Receiver.set_thread true
             (Receiver.set_running true
                (Receiver.set_socket (Some SockOpen) (udp_receiver self)))))
       (set_sender (fst (Sender.close (Sender.count_error (udp_sender self))))
          (set_running false
             (set_error_count (0 + 1)
                (set_sender (Sender.count_error (udp_sender self))
                   (set_receiver
                      (Receiver.set_thread true
                         (Receiver.set_running true
                            (Receiver.set_socket (Some SockOpen)
                               (udp_receiver self))))
                      (set_counters 0 0 0
                         (set_error_count 0 (set_running true self)))))))))).
  { unfold start. rewrite Hrun.
    unfold Receiver.start_receiving, Sender.start_sending.
    rewrite Hrs, Hrb, Hss, He.
    unfold Log.bind, Log.emit, Log.ret.
    cbn [fst snd udp_receiver udp_sender set_counters set_error_count
         set_running set_receiver set_sender error_count].
    match goal with
    | |- context [stop ?b] =>
        assert (Hb : running b = true) by reflexivity;
        pose proof (stop_running b Hb) as Hstop;
        destruct (stop b) as [[v b'] l]
    end.
    cbn [fst snd] in Hstop |- *. injection Hstop as -> ->. reflexivity. }
  rewrite E. cbn [fst snd].
  destruct (sender_close_state (Sender.count_error (udp_sender self)))
    as (S1 & S2 & _ & S4 & _).
  cbv zeta in *.
  cbn [set_receiver set_sender set_running set_error_count set_counters
       running udp_receiver udp_sender error_count main_task unit_converter].
  split; [reflexivity|]. split; [reflexivity|]. split; [reflexivity|].
  split; [reflexivity|]. split; [reflexivity|].
  split; [rewrite S4; reflexivity|].
  split; [exact S1|]. split; [exact S2|]. split; reflexivity.
Qed.

Lemma start_sender_failure_stops_the_receiver_witness :
  let env := StartEnv None None (Some address_in_use) None in
  let self' := start_bridge env feet_settings bridge0 in
  start_return env feet_settings bridge0 = Py.Ok Py.VNone /\
  running self' = false /\
  error_count self' = 1 /\
  Receiver.socket (udp_receiver self') = Some SockClosed.
Proof.
  cbv zeta.
  destruct (start_sender_failure_stops_the_receiver
              (StartEnv None None (Some address_in_use) None) feet_settings bridge0
              address_in_use)
    as (H1 & H2 & H3 & _ & H5 & _); try reflexivity.
  split; [exact H1|]. split; [exact H2|]. split; [exact H3|exact H5].
Defined.
End LifecycleProperties.

Section LoopEndProperties.
Import Bridge.

Lemma set_running_same r : Receiver.set_running (Receiver.running r) r = r.
Proof. destruct r. reflexivity. Qed.

(** A timeout on a receiver that has not been stopped. *)
Lemma receive_iteration_timeout {W X}
      (cb : option (Receiver.callback (W:=W) (X:=X))) e self w :
  Py.caught_by [Py.SocketTimeout] e = true ->
  Receiver.running self = true ->
  Receiver.receive_iteration cb (Receiver.RecvRaise e false) self w =
  (Alive, self, w, []).
Proof.
  intros He Hrun. unfold Receiver.receive_iteration. rewrite Hrun.
  cbn [negb andb]. unfold Receiver.on_exception. rewrite He.
  replace (Receiver.set_running true self) with self
    by (rewrite <- Hrun; symmetry; apply set_running_same).
  reflexivity.
Qed.

Lemma receive_loop_timeout {W X}
      (cb : option (Receiver.callback (W:=W) (X:=X))) e evs self w :
  Py.caught_by [Py.SocketTimeout] e = true ->
  Receiver.running self = true ->
  Receiver._receive_loop cb (Receiver.RecvRaise e false :: evs) self w =
  Receiver._receive_loop cb evs self w.
Proof.
  intros He Hrun. cbn [Receiver._receive_loop].
  rewrite (receive_iteration_timeout cb e self w He Hrun).
  unfold Log.bind.
  destruct (Receiver._receive_loop cb evs self w) as [[[st s'] w'] l].
  reflexivity.
Qed.

(** A socket error other than a timeout. *)
Lemma receive_loop_socket_error {W X}
      (cb : option (Receiver.callback (W:=W) (X:=X))) e stopped evs self w :
  Py.caught_by [Py.SocketTimeout] e = false ->
  Py.caught_by [Py.OSError] e = true ->
  Receiver.running self = true ->
  Receiver._receive_loop cb (Receiver.RecvRaise e stopped :: evs) self w =
  if stopped
  then (Exited, Receiver.set_running false self, w, [])
  else (Exited, Receiver.count_error self, w,
        [Log.Rec logger Log.ERROR [Log.Txt "UDP receive error: "; Log.Err e]]).
Proof.
  intros Ht He Hrun. cbn [Receiver._receive_loop].
  unfold Receiver.receive_iteration. rewrite Hrun. cbn [negb andb].
  unfold Receiver.on_exception. rewrite Ht, He.
  destruct stopped; cbn [negb].
  - reflexivity.
  - replace (Receiver.set_running true self) with self
      by (rewrite <- Hrun; symmetry; apply set_running_same).
    rewrite Hrun. reflexivity.
Qed.

(** X22.  Timeouts are invisible and socket errors final: in a run
    of datagrams and timeouts the timeouts can be left out without
    any change to the result, the states or the log; a socket error
    that is no timeout ends the loop at once, counted and logged
    unless the receiver has been stopped in the meantime, and no
    event after it is taken up. *)
Theorem timeouts_are_invisible_and_socket_errors_final :
  forall (W X : Type) (cb : option (Receiver.callback (W:=W) (X:=X)))
         evs1 evs2 e self w,
    Receiver.running self = true ->
    only_datagrams evs1 ->
    (Py.caught_by [Py.SocketTimeout] e = true ->
     Receiver._receive_loop cb (evs1 ++ Receiver.RecvRaise e false :: evs2) self w =
     Receiver._receive_loop cb (evs1 ++ evs2) self w) /\
    (Py.caught_by [Py.SocketTimeout] e = false ->
     Py.caught_by [Py.OSError] e = true ->
     forall stopped,
       let before := Receiver._receive_loop cb evs1 self w in
       let res := Receiver._receive_loop cb
                    (evs1 ++ Receiver.RecvRaise e stopped :: evs2) self w in
       loop_status res = Exited /\
       loop_world res = loop_world before /\
       Receiver.messages_received (loop_receiver res) =
         Receiver.messages_received (loop_receiver before) /\
       Receiver.error_count (loop_receiver res) =
         Receiver.error_count (loop_receiver before) +
         (if stopped then 0 else 1)).
Proof.
  intros W X cb evs1. induction evs1 as [|ev evs1 IH];
    intros evs2 e self w Hrun Hd.
  - cbn [app]. split.
    + intros He. apply receive_loop_timeout; assumption.
    + intros Ht He stopped. cbv zeta.
      rewrite (receive_loop_socket_error cb e stopped evs2 self w Ht He Hrun).
      unfold loop_status, loop_world, loop_receiver.
      destruct stopped; cbn; repeat split; lia.
  - apply Forall_cons in Hd as [Hev Hd].
    destruct ev as [data x|e0 s0]; [|contradiction].
    destruct (receive_iteration_datagram cb data x self w Hrun)
      as (Hst & Hrun1 & _).
    set (r1 := Receiver.receive_iteration cb (Receiver.Datagram data x) self w) in *.
    destruct (IH evs2 e (loop_receiver r1) (loop_world r1) Hrun1 Hd) as [IH1 IH2].
    split.
    + intros He. specialize (IH1 He).
      cbn [app Receiver._receive_loop]. fold r1.
      unfold loop_status, loop_receiver, loop_world in *.
      destruct r1 as [[[st s1] w1] l1]. cbn [fst snd] in *. subst st.
      unfold Log.bind. rewrite IH1. reflexivity.
    + intros Ht He stopped. specialize (IH2 Ht He stopped). cbv zeta in *.
      destruct (receive_loop_step cb (Receiver.Datagram data x)
                  (evs1 ++ Receiver.RecvRaise e stopped :: evs2) self w Hst)
        as (E1 & E2 & E3 & _).
      destruct (receive_loop_step cb (Receiver.Datagram data x) evs1 self w Hst)
        as (_ & F2 & F3 & _).
      cbv zeta in *. fold r1 in E1, E2, E3, F2, F3.
      cbn [app]. rewrite E1, E2, E3, F2, F3. exact IH2.
Qed.

Lemma timeouts_are_invisible_and_socket_errors_final_witness :
  let timeout := Py.Exn Py.SocketTimeout "timed out" in
  Receiver._receive_loop (Some _handle_udp_data)
    ([Receiver.Datagram "altitude=100.0" (Py.Ok 18)] ++
     Receiver.RecvRaise timeout false ::
     [Receiver.Datagram "time=1.0" (Py.Ok 8)])
    (udp_receiver running_bridge) running_bridge =
  Receiver._receive_loop (Some _handle_udp_data)
    ([Receiver.Datagram "altitude=100.0" (Py.Ok 18)] ++
     [Receiver.Datagram "time=1.0" (Py.Ok 8)])
    (udp_receiver running_bridge) running_bridge /\
  loop_status
    (Receiver._receive_loop (Some _handle_udp_data)
       ([Receiver.Datagram "altitude=100.0" (Py.Ok 18)] ++
        Receiver.RecvRaise address_in_use false ::
        [Receiver.Datagram "time=1.0" (Py.Ok 8)])
       (udp_receiver running_bridge) running_bridge) = Exited.
Proof.
  cbv zeta.
  assert (Hrun : Receiver.running (udp_receiver running_bridge) = true)
    by (vm_compute; reflexivity).
  assert (Hd : only_datagrams [Receiver.Datagram "altitude=100.0" (Py.Ok 18)])
    by (apply Forall_cons_2; [exact I|apply Forall_nil_2]).
  split.
  - apply (proj1 (timeouts_are_invisible_and_socket_errors_final _ _
                    (Some _handle_udp_data)
                    [Receiver.Datagram "altitude=100.0" (Py.Ok 18)]
                    [Receiver.Datagram "time=1.0" (Py.Ok 8)]
                    (Py.Exn Py.SocketTimeout "timed out")
                    (udp_receiver running_bridge) running_bridge Hrun Hd)).
    reflexivity.
  - apply (proj2 (timeouts_are_invisible_and_socket_errors_final _ _
                    (Some _handle_udp_data)
                    [Receiver.Datagram "altitude=100.0" (Py.Ok 18)]
                    [Receiver.Datagram "time=1.0" (Py.Ok 8)]
                    address_in_use
                    (udp_receiver running_bridge) running_bridge Hrun Hd));
      reflexivity.
Defined.

(** X23.  A message that arrives while the sender holds no socket, as
    it does until [start_sending] has run, is processed and
    converted but not forwarded: the handler returns, whatever
    [sendto] would have done; nothing reaches the wire; the bridge
    counts one error and logs that the socket is not initialized and
    that the message could not be forwarded; the sender's own error
    counter does not move. *)
Theorem handler_without_socket_drops_the_message :
  forall env data self,
    Sender.socket (udp_sender self) = None ->
    let r := _handle_udp_data env data self in
    let self' := snd (fst r) in
    fst (fst r) = Py.Ok tt /\
    Sender.wire (udp_sender self') = Sender.wire (udp_sender self) /\
    messages_processed self' = messages_processed self + 1 /\
    messages_forwarded self' = messages_forwarded self /\
    error_count self' = error_count self + 1 /\
    Sender.error_count (udp_sender self') = Sender.error_count (udp_sender self) /\
    unit_converter self' =
      out_converter (Converter.process_message (unit_converter self) data) /\
    Log.Rec logger Log.ERROR [Log.Txt "UDP socket not initialized"] ∈ snd r /\
    Log.Rec logger Log.WARNING [Log.Txt "Failed to forward converted message"]
      ∈ snd r.
Proof.
  intros env data self Hs. cbv zeta.
  unfold _handle_udp_data, Log.bind, out_converter.
  cbn [unit_converter set_counters].
  destruct (Converter.process_message (unit_converter self) data)
    as [[[m i] c] lc].
  cbn [fst snd].
  destruct (0 <? Converter.info_get_applied i);
    unfold Log.bind, Log.emit, Log.ret, Sender.send_message;
    cbn [fst snd udp_sender set_converter set_counters];
    rewrite Hs; cbn;
    repeat (split; [reflexivity|]);
    split; rewrite ?elem_of_app, ?elem_of_cons; auto 10.
Qed.

Lemma handler_without_socket_drops_the_message_witness :
  let r := _handle_udp_data (Py.Ok 18) "altitude=100.0" bridge0 in
  Sender.socket (udp_sender bridge0) = None /\
  fst (fst r) = Py.Ok tt /\
  Sender.wire (udp_sender (snd (fst r))) = [] /\
  error_count (snd (fst r)) = 1.
Proof.
  cbv zeta. split; [reflexivity|].
  destruct (handler_without_socket_drops_the_message (Py.Ok 18) "altitude=100.0"
              bridge0 eq_refl) as (H1 & H2 & _ & _ & H5 & _).
  split; [exact H1|]. split; [rewrite H2; reflexivity|].
  rewrite H5. reflexivity.
Defined.
End LoopEndProperties.

Section Utf8Properties.
Import Bridge.

Lemma emit_bytes_ok bs r t :
  Utf8.emit_bytes bs r = Py.Ok t ->
  exists t', r = Py.Ok t' /\ t = bs +:+ t'.
Proof.
  destruct r as [t'|e]; cbn [Utf8.emit_bytes]; [|discriminate].
  intros [= <-]. eauto.
Qed.

(** What [errors='strict'] accepts it gives back as it is, and
    [errors='ignore'] does the same with it. *)
Lemma decode_strict_bounded n : forall data t,
  (String.length data <= n)%nat ->
  Utf8.decode Utf8.Strict data = Py.Ok t ->
  t = data /\ Utf8.decode Utf8.Ignore data = Py.Ok data.
Proof.
  induction n as [|n IH]; intros data t Hlen H.
  - destruct data; [|cbn [String.length] in Hlen; lia].
    cbn in H. injection H as <-. split; reflexivity.
  - destruct data as [|c s1].
    { cbn in H. injection H as <-. split; reflexivity. }
    cbn [String.length] in Hlen.
    cbn [Utf8.decode] in H |- *. unfold Utf8.on_error in H.
    repeat match type of H with
      | (if ?b then _ else _) = Py.Ok _ => destruct b
      | Py.Raise _ = Py.Ok _ => discriminate H
      | match ?s with EmptyString => _ | String _ _ => _ end = Py.Ok _ =>
          destruct s; cbn [String.length] in Hlen
      end;
      apply emit_bytes_ok in H as (t' & Hd & ->);
      (apply IH in Hd; [|cbn [String.length]; lia]);
      destruct Hd as [-> Hd]; rewrite Hd; split; reflexivity.
Qed.

(** What [errors='ignore'] gives is accepted by [errors='strict'],
    and is shorter than the input unless it is the input. *)
Lemma decode_ignore_bounded n : forall data,
  (String.length data <= n)%nat ->
  Utf8.decode Utf8.Strict (decode_ignore data) = Py.Ok (decode_ignore data) /\
  (decode_ignore data = data \/
   String.length (decode_ignore data) < String.length data)%nat.
Proof.
  induction n as [|n IH]; intros data Hlen.
  - destruct data; [|cbn [String.length] in Hlen; lia].
    split; [|left]; reflexivity.
  - destruct data as [|c s1]; [split; [|left]; reflexivity|].
    cbn [String.length] in Hlen.
    unfold decode_ignore. cbn [Utf8.decode]. unfold Utf8.on_error.
    repeat match goal with
      | |- context [if ?b then _ else _] => destruct b eqn:?
      | |- context [match ?s with EmptyString => _ | String _ _ => _ end] =>
          destruct s; cbn [String.length] in Hlen
      end;
      try (split; [reflexivity|right; cbn [String.length]; lia]);
      match goal with
      | |- context [Utf8.decode Utf8.Ignore ?rest] =>
          destruct (IH rest ltac:(cbn [String.length]; lia)) as [Hv Hl];
          unfold decode_ignore in Hv, Hl;
          destruct (Utf8.decode Utf8.Ignore rest) as [t'|e'] eqn:Hd
      end;
      cbn [Utf8.emit_bytes String.length] in *;
      try (split; [exact Hv|right; destruct Hl as [->|Hl]; cbn [String.length]; lia]);
      try (split; [reflexivity|right; lia]);
      repeat match goal with
        | |- context [String ?a ?w +:+ ?s] =>
            change (String a w +:+ s) with (String a (w +:+ s))
        | |- context ["" +:+ ?s] => change ("" +:+ s) with s
        end;
      cbn [String.length];
      (split; [|destruct Hl as [->|Hl]; [left; reflexivity|right; lia]]);
      cbn [Utf8.decode];
      repeat match goal with
        | E : ?b = _ |- context [if ?b then _ else _] => rewrite E
        end;
      rewrite Hv; reflexivity.
Qed.

(** X24.  What the callback is given: the text the receive loop
    decodes from a datagram is always well-formed UTF-8; it is the
    datagram itself exactly when the datagram is well-formed UTF-8,
    and is shorter otherwise, the bytes that do not decode being
    dropped; so a running receiver runs its callback on a well-formed
    datagram as it came. *)
Theorem callback_text_is_the_valid_part_of_the_datagram :
  forall data,
    Utf8.decode Utf8.Ignore data = Py.Ok (decode_ignore data) /\
    Utf8.decode Utf8.Strict (decode_ignore data) = Py.Ok (decode_ignore data) /\
    (decode_ignore data = data <->
     Utf8.decode Utf8.Strict data = Py.Ok data) /\
    (decode_ignore data <> data ->
     (String.length (decode_ignore data) < String.length data)%nat) /\
    (forall (W X : Type) (cb : Receiver.callback (W:=W) (X:=X)) x self w,
       Receiver.running self = true ->
       data <> "" ->
       Utf8.decode Utf8.Strict data = Py.Ok data ->
       loop_world (Receiver.receive_iteration (Some cb)
                     (Receiver.Datagram data x) self w) =
       snd (fst (cb x data w))).
Proof.
  intros data.
  destruct (decode_ignore_bounded (String.length data) data (le_n _))
    as [Hv Hl].
  assert (Hiff : decode_ignore data = data <->
                 Utf8.decode Utf8.Strict data = Py.Ok data).
  { split; intros H.
    - rewrite H in Hv. exact Hv.
    - destruct (decode_strict_bounded (String.length data) data data
                  (le_n _) H) as [_ Hi].
      unfold decode_ignore. rewrite Hi. reflexivity. }
  split; [apply decode_ignore_eq|]. split; [exact Hv|].
  split; [exact Hiff|]. split.
  - intros Hne. destruct Hl as [Hl|Hl]; [contradiction|exact Hl].
  - intros W X cb x self w Hrun Hne Hs.
    unfold Receiver.receive_iteration. rewrite Hrun. cbn [negb].
    destruct (String.eqb_spec data "") as [->|_]; [contradiction|].
    rewrite decode_ignore_eq, (proj2 Hiff Hs).
    unfold Log.bind, loop_world.
    destruct (cb x data w) as [[res w'] l].
    destruct res; reflexivity.
Qed.

Lemma callback_text_is_the_valid_part_of_the_datagram_witness :
  (String.length (decode_ignore bad_datagram) < String.length bad_datagram)%nat /\
  loop_world (Receiver.receive_iteration (Some _handle_udp_data)
                (Receiver.Datagram "altitude=100.0" (Py.Ok 18))
                (udp_receiver running_bridge) running_bridge) =
  snd (fst (_handle_udp_data (Py.Ok 18) "altitude=100.0" running_bridge)).
Proof.
  split.
  - apply (callback_text_is_the_valid_part_of_the_datagram bad_datagram).
    vm_compute. discriminate.
  - apply (callback_text_is_the_valid_part_of_the_datagram "altitude=100.0").
    + vm_compute. reflexivity.
    + discriminate.
    + vm_compute. reflexivity.
Defined.
End Utf8Properties.
